(** * Frontend-Demo-2: revalidation endpoints, CMS webhook, article mapping
      and the S3 upload script, as a shallow embedding.

    The TypeScript handlers are translated function by function. Values that
    arrive from outside (JSON bodies, query strings, headers, environment
    variables) keep their JavaScript shape: a missing property is
    [undefined] (here [None]), truthiness is computed the way [!x] and
    [x || y] compute it, and a call that can throw returns an [outcome].
    Side effects (log lines, framework cache invalidations, uploads) are
    recorded in a chronological trace. *)

From Stdlib Require Import String Ascii List Bool ZArith Lia.
From Stdlib Require Import DecimalString.
Import ListNotations.
Local Open Scope string_scope.
Set Warnings "-register-all".

(* ===================================================================== *)
(** ** JavaScript values *)
(* ===================================================================== *)

(** A parsed JSON value. Numbers are kept as integers: the code tests
    their truthiness ([0] against the rest) and writes them into template
    strings. The fields of a parsed object have distinct keys. *)
Inductive json : Type :=
| JNull
| JBool (b : bool)
| JNum (n : Z)
| JStr (s : string)
| JArr (items : list json)
| JObj (fields : list (string * json)).

(** A JavaScript value that may be [undefined]. *)
Definition jsval := option json.

Definition str_truthy (s : string) : bool :=
  match s with EmptyString => false | String _ _ => true end.

(** [!!v] for a JSON value. *)
Definition truthy (v : json) : bool :=
  match v with
  | JNull => false
  | JBool b => b
  | JNum n => negb (Z.eqb n 0)
  | JStr s => str_truthy s
  | JArr _ => true
  | JObj _ => true
  end.

Definition truthy_val (v : jsval) : bool :=
  match v with Some j => truthy j | None => false end.

(** [!!s] for a [string | null] or [string | undefined]. *)
Definition truthy_str (s : option string) : bool :=
  match s with Some t => str_truthy t | None => false end.

(** [a || b] on [string | null]. *)
Definition or_str (a b : option string) : option string :=
  if truthy_str a then a else b.

(** [a || b] on values. *)
Definition or_val (a b : jsval) : jsval :=
  if truthy_val a then a else b.

(** [v === "s"]. *)
Definition is_str (v : jsval) (s : string) : bool :=
  match v with Some (JStr t) => String.eqb t s | _ => false end.

Fixpoint assoc {A : Type} (k : string) (l : list (string * A)) : option A :=
  match l with
  | [] => None
  | (k', v) :: rest => if String.eqb k' k then Some v else assoc k rest
  end.

(** [s.startsWith(p)]. *)
Fixpoint startsWith (p s : string) : bool :=
  match p, s with
  | EmptyString, _ => true
  | String a p', String b s' => Ascii.eqb a b && startsWith p' s'
  | String _ _, EmptyString => false
  end.

(** [s.includes(needle)]. *)
Fixpoint includes (needle s : string) : bool :=
  startsWith needle s ||
  match s with
  | EmptyString => false
  | String _ s' => includes needle s'
  end.

(* ===================================================================== *)
(** ** Exceptions and effects *)
(* ===================================================================== *)

(** A thrown [Error]: its class name and its message. *)
Record exn : Type := mkExn { exn_name : string; exn_message : string }.

(** [String(error)], that is [Error.prototype.toString]: the name and the
    message, or the one of them that is not empty. *)
Definition String_of_exn (e : exn) : string :=
  match exn_name e, exn_message e with
  | EmptyString, message => message
  | name, EmptyString => name
  | name, message => name ++ ": " ++ message
  end.

Definition TypeError (msg : string) : exn := mkExn "TypeError" msg.
Definition Error (msg : string) : exn := mkExn "Error" msg.

(** What a run leaves behind, oldest first. *)
Inductive event : Type :=
| ELog (file : string) (msg : string)
| EConsole (msg : string)
| ERevalidatePath (path : string)
| ERevalidateTag (tag : string)
| EResRevalidate (path : json)
| EUpload (key : string) (contentType : string) (cacheControl : string).

Inductive outcome (A : Type) : Type :=
| Returned (a : A)
| Threw (e : exn).
Arguments Returned {A} a.
Arguments Threw {A} e.

(** A computation: its outcome and the events it emitted. Events emitted
    before a throw stay emitted. *)
Definition M (A : Type) : Type := (outcome A * list event)%type.

Definition ret {A} (a : A) : M A := (Returned a, []).
Definition throw {A} (e : exn) : M A := (Threw e, []).
Definition emit (ev : event) : M unit := (Returned tt, [ev]).

Definition bind {A B} (m : M A) (k : A -> M B) : M B :=
  match m with
  | (Returned a, t1) => let (r, t2) := k a in (r, (t1 ++ t2)%list)
  | (Threw e, t1) => (Threw e, t1)
  end.

(** [try { body } catch (error) { handler }]. *)
Definition try_catch {A} (body : M A) (handler : exn -> M A) : M A :=
  match body with
  | (Returned a, t1) => (Returned a, t1)
  | (Threw e, t1) => let (r, t2) := handler e in (r, (t1 ++ t2)%list)
  end.

Declare Scope js_scope.
Delimit Scope js_scope with js.
Notation "x <- m ;; k" := (bind m (fun x => k))
  (at level 61, m at next level, right associativity) : js_scope.
Notation "m ;;; k" := (bind m (fun _ => k))
  (at level 61, right associativity) : js_scope.
Local Open Scope js_scope.

Definition result {A} (m : M A) : outcome A := fst m.
Definition trace {A} (m : M A) : list event := snd m.

(** [obj.key]: throws on [undefined] and [null], reads the field of an
    object, and is [undefined] on every other value (none of the property
    names the code reads exists on a string, number, boolean or array). *)
Definition get_prop (obj : jsval) (key : string) : M jsval :=
  match obj with
  | None =>
      throw (TypeError ("Cannot read properties of undefined (reading '" ++ key ++ "')"))
  | Some JNull =>
      throw (TypeError ("Cannot read properties of null (reading '" ++ key ++ "')"))
  | Some (JObj fields) => ret (assoc key fields)
  | Some _ => ret None
  end.

(** [obj?.key]. *)
Definition get_opt (obj : jsval) (key : string) : jsval :=
  match obj with
  | Some (JObj fields) => assoc key fields
  | _ => None
  end.

(** An HTTP response built by [NextResponse.json(body, { status })] or by
    [res.status(n).json(body)]. *)
Record Response : Type := mkResponse { status : nat; body : json }.

Definition NextResponse_json (b : json) : Response := mkResponse 200 b.
Definition NextResponse_json_status (b : json) (st : nat) : Response :=
  mkResponse st b.

(** [process.env] and the collaborators outside the repository: the
    framework cache ([revalidatePath], [revalidateTag], [res.revalidate]),
    the clock, the number printer, the CMS, the mime table, the file
    system and the object store. A collaborator either returns or throws. *)
Inductive fetch_result : Type :=
| FetchRejected (e : exn)
| FetchResolved (ok : bool) (http_status : nat) (response_json : outcome json).

Record World : Type := mkWorld {
  env : string -> option string;
  revalidatePath_throws : string -> option exn;
  revalidateTag_throws : string -> option exn;
  res_revalidate_throws : json -> option exn;
  Date_now : Z;
  (** [new Date().toISOString()] *)
  Date_toISOString : string;
  (** [Number::toString] for an integer beyond the safe range, which the
      runtime prints from its double *)
  Number_toString : Z -> string;
  (** the CMS, by URL *)
  fetch : string -> fetch_result;
  (** [mime.lookup] of the mime-types package: [None] is its [false] *)
  mime_lookup : string -> option string;
  (** [fs.readFileSync], by path, and [Upload.done], by S3 key *)
  readFileSync_throws : string -> option exn;
  upload_throws : string -> option exn
}.

Section Framework.
Variable w : World.

Definition revalidatePath (p : string) : M unit :=
  emit (ERevalidatePath p) ;;;
  match revalidatePath_throws w p with
  | Some e => throw e
  | None => ret tt
  end.

Definition revalidateTag (t : string) : M unit :=
  emit (ERevalidateTag t) ;;;
  match revalidateTag_throws w t with
  | Some e => throw e
  | None => ret tt
  end.

Definition res_revalidate (p : json) : M unit :=
  emit (EResRevalidate p) ;;;
  match res_revalidate_throws w p with
  | Some e => throw e
  | None => ret tt
  end.

(** [process.env.NODE_ENV === 'development']. *)
Definition is_development : bool :=
  match env w "NODE_ENV" with
  | Some m => String.eqb m "development"
  | None => false
  end.
End Framework.

(* ===================================================================== *)
(** ** src/app/api/revalidate/route.ts *)
(* ===================================================================== *)

Module RevalidateRoute.

(** The part of a [NextRequest] the handler reads: the query string, as
    [URLSearchParams] has it ([get] returns the first value or [null]). *)
Record NextRequest : Type := mkRequest {
  searchParams : list (string * string)
}.

Definition searchParams_get (r : NextRequest) (k : string) : option string :=
  assoc k (searchParams r).

Definition LOG_FILE : string := "revalidate-logs.txt".

(** The write to the log file sits in its own try/catch: [log] never
    throws. The timestamp prefix is left out of the recorded line. *)
Definition log (message : string) : M unit :=
  emit (ELog LOG_FILE message).

Section WithWorld.
Variable w : World.

Definition isValidRequest (request : NextRequest) : M bool :=
  let secret := searchParams_get request "secret" in
  let expectedSecret := env w "REVALIDATION_SECRET" in
  if negb (truthy_str expectedSecret) then
    log "No se ha configurado REVALIDATION_SECRET en las variables de entorno" ;;;
    ret false
  else if negb (truthy_str secret) then
    log "No se proporciono el parametro secret en la solicitud" ;;;
    ret false
  else if negb (match secret, expectedSecret with
                | Some s, Some e => String.eqb s e
                | _, _ => false
                end) then
    log "El token secreto proporcionado no es valido" ;;;
    ret false
  else ret true.

Definition GET (request : NextRequest) : M Response :=
  log "Solicitud de revalidacion recibida" ;;;
  try_catch
    (valid <- isValidRequest request ;;
     if negb valid then
       ret (NextResponse_json_status (JObj [("error", JStr "Token invalido")]) 401)
     else
       let path :=
         match or_str (searchParams_get request "path") (Some "/") with
         | Some p => p
         | None => "/"
         end in
       log ("Revalidando ruta: " ++ path) ;;;
       revalidatePath w path ;;;
       log ("Ruta revalidada exitosamente: " ++ path) ;;;
       ret (NextResponse_json
              (JObj [("revalidated", JBool true);
                     ("now", JNum (Date_now w));
                     ("path", JStr path)])))
    (fun error =>
       let errorMessage := exn_message error in
       log ("Error durante la revalidacion: " ++ errorMessage) ;;;
       ret (NextResponse_json_status
              (JObj [("revalidated", JBool false);
                     ("now", JNum (Date_now w));
                     ("error", JStr errorMessage)]) 500)).
End WithWorld.

End RevalidateRoute.

(* ===================================================================== *)
(** ** src/app/api/webhook/route.ts *)
(* ===================================================================== *)

(** The error of [ToPrimitive] on a parsed JSON value, if any. An object
    with an own key ["toString"] has no callable [toString] (a parsed
    value is never a function) and the [valueOf] it inherits returns the
    object itself: the conversion throws. [Array.prototype.join] converts
    the elements in order, [null] excepted. *)
Fixpoint conversion_error (v : json) : option exn :=
  match v with
  | JObj fields =>
      if existsb (fun kv => String.eqb (fst kv) "toString") fields
      then Some (TypeError "Cannot convert object to primitive value")
      else None
  | JArr items =>
      fold_right (fun x later =>
                    match conversion_error x with
                    | Some e => Some e
                    | None => later
                    end) None items
  | _ => None
  end.

(** [Number::toString] on an integer: its decimal digits within the safe
    range. *)
Definition number_text (big : Z -> string) (n : Z) : string :=
  if (Z.abs n <? 2 ^ 53)%Z then NilZero.string_of_int (Z.to_int n) else big n.

(** The text of a value whose conversion does not throw. *)
Fixpoint js_text (big : Z -> string) (v : json) : string :=
  match v with
  | JNull => "null"
  | JBool true => "true"
  | JBool false => "false"
  | JNum n => number_text big n
  | JStr s => s
  | JArr items =>
      let elem (x : json) : string :=
        match x with JNull => "" | _ => js_text big x end in
      String.concat "," (map elem items)
  | JObj _ => "[object Object]"
  end.

(** [`${v}`] and [String(v)] on a JSON value. *)
Definition js_toString (w : World) (v : json) : M string :=
  match conversion_error v with
  | Some e => throw e
  | None => ret (js_text (Number_toString w) v)
  end.

(** [`${v}`] for a value that may be [undefined]. *)
Definition template (w : World) (v : jsval) : M string :=
  match v with
  | Some j => js_toString w j
  | None => ret "undefined"
  end.

(** The conversion of [v] to a primitive does not throw. *)
Definition printable (v : jsval) : bool :=
  match v with
  | Some j => match conversion_error j with Some _ => false | None => true end
  | None => true
  end.

(** The text of [`${v}`] when the conversion does not throw. *)
Definition template_text (w : World) (v : jsval) : string :=
  match v with
  | Some j => js_text (Number_toString w) j
  | None => "undefined"
  end.

(** A [Date] object, known by the value it was constructed from. *)
Inductive JsDate : Type :=
| Date_from (value : jsval).

(** [new Date(v)]: an object or an array is first converted to a
    primitive, which throws as in a template; any primitive gives a
    [Date], valid or not. *)
Definition new_Date (v : jsval) : M JsDate :=
  match v with
  | Some j =>
      match conversion_error j with
      | Some e => throw e
      | None => ret (Date_from v)
      end
  | None => ret (Date_from v)
  end.

(** [Object.keys(v).length]; [Object.keys(null)] throws. *)
Definition Object_keys_length (v : json) : M nat :=
  match v with
  | JNull => throw (TypeError "Cannot convert undefined or null to object")
  | JBool _ => ret 0
  | JNum _ => ret 0
  | JStr s => ret (String.length s)
  | JArr items => ret (List.length items)
  | JObj fields => ret (List.length fields)
  end.

Module WebhookRoute.

(** The part of a [NextRequest] the handler reads. Header names are in
    lower case, as [Headers] stores them. [request_json] is what
    [request.json()] resolves to, or the error it rejects with; the
    clone made by the handler carries the same bytes, so both reads
    agree. *)
Record NextRequest : Type := mkRequest {
  url : string;
  method : string;
  headers : list (string * string);
  searchParams : list (string * string);
  request_json : outcome json
}.

Definition headers_get (r : NextRequest) (k : string) : option string :=
  assoc k (headers r).

Definition searchParams_get (r : NextRequest) (k : string) : option string :=
  assoc k (searchParams r).

Definition LOG_FILE : string := "webhook-logs.txt".

(** One line appended to the log file (the file is taken to be
    writable). Timestamps and [JSON.stringify] dumps are left out of the
    recorded line. *)
Definition log (message : string) : M unit :=
  emit (ELog LOG_FILE message).

Definition json_of (r : outcome json) : M json :=
  match r with
  | Returned j => ret j
  | Threw e => throw e
  end.

Section WithWorld.
Variable w : World.

Definition received_token (request : NextRequest) : option string :=
  or_str (headers_get request "x-webhook-token")
    (or_str (headers_get request "webhook-token")
       (or_str (headers_get request "x-strapi-webhook-token")
          (searchParams_get request "token"))).

Definition validateWebhook (request : NextRequest) : M bool :=
  log "Headers recibidos" ;;;
  let token := received_token request in
  log ("Token recibido: " ++
       match or_str token (Some "ninguno") with Some t => t | None => "" end) ;;;
  let expectedToken := env w "WEBHOOK_TOKEN" in
  if negb (truthy_str expectedToken) then
    log "No se ha configurado WEBHOOK_TOKEN en las variables de entorno" ;;;
    ret false
  else if is_development w && negb (truthy_str token) then
    log "Modo desarrollo: permitiendo solicitud sin token" ;;;
    ret true
  else if negb (match token, expectedToken with
                | Some t, Some e => String.eqb t e
                | _, _ => false
                end) then
    log "Token invalido recibido" ;;;
    log "Token esperado" ;;;
    ret false
  else ret true.

(** The four invalidations every accepted notification triggers. *)
Definition revalidate_main_pages : M unit :=
  revalidatePath w "/" ;;;
  revalidatePath w "/news" ;;;
  revalidateTag w "articles" ;;;
  revalidateTag w "home".

(** Lines 115-144: the second read of the body. [inl] is a response
    returned from inside the block, [inr] the body to go on with. *)
Definition second_attempt (request : NextRequest) (body0 : json)
  : M (Response + json) :=
  n <- Object_keys_length body0 ;;
  if Nat.eqb n 0 then
    try_catch
      (jsonData <- json_of (request_json request) ;;
       log "Datos recibidos (segundo intento)" ;;;
       ret (inr jsonData))
      (fun bodyError =>
         log "No se pudo leer el cuerpo de la solicitud (segundo intento)" ;;;
         if is_development w then
           log "Modo desarrollo: revalidando todas las paginas" ;;;
           revalidate_main_pages ;;;
           ret (inl (NextResponse_json
                       (JObj [("success", JBool true);
                              ("revalidated", JBool true);
                              ("message", JStr "Paginas revalidadas (modo desarrollo, sin cuerpo)")])))
         else
           ret (inl (NextResponse_json_status
                       (JObj [("error", JStr "No se pudo leer el cuerpo de la solicitud");
                              ("details", JStr (String_of_exn bodyError))]) 400)))
  else ret (inr body0).

(** Lines 146-213: what is done once the body is known. *)
Definition dispatch (body0 : json) : M Response :=
  event <- get_prop (Some body0) "event" ;;
  model <- get_prop (Some body0) "model" ;;
  entry <- get_prop (Some body0) "entry" ;;
  articleSlug <-
    (if truthy_val entry && truthy_val (get_opt entry "slug") then
       let slug := match get_opt entry "slug" with Some s => s | None => JStr "" end in
       text <- js_toString w slug ;;
       log ("Slug del articulo: " ++ text) ;;;
       ret slug
     else ret (JStr "")) ;;
  if is_development w then
    log "Modo desarrollo: revalidando todas las paginas" ;;;
    revalidate_main_pages ;;;
    (if truthy articleSlug then
       text <- js_toString w articleSlug ;;
       revalidatePath w ("/news/" ++ text) ;;;
       text <- js_toString w articleSlug ;;
       revalidateTag w ("article-" ++ text)
     else ret tt) ;;;
    ret (NextResponse_json
           (JObj [("success", JBool true);
                  ("revalidated", JBool true);
                  ("message", JStr "Paginas revalidadas (modo desarrollo)")]))
  else if (is_str event "entry.create" || is_str event "entry.update" ||
           is_str event "entry.publish" || is_str event "entry.unpublish") &&
          (is_str model "article" || is_str model "articles") then
    log "Evento valido para revalidacion" ;;;
    revalidate_main_pages ;;;
    (if truthy articleSlug then
       text <- js_toString w articleSlug ;;
       revalidatePath w ("/news/" ++ text) ;;;
       text <- js_toString w articleSlug ;;
       revalidateTag w ("article-" ++ text) ;;;
       text <- js_toString w articleSlug ;;
       log ("Revalidada pagina especifica: /news/" ++ text)
     else ret tt) ;;;
    paths <-
      (if truthy articleSlug then
         text <- js_toString w articleSlug ;;
         ret (JArr [JStr "/"; JStr "/news"; JStr ("/news/" ++ text)])
       else ret (JArr [JStr "/"; JStr "/news"])) ;;
    ret (NextResponse_json
           (JObj [("success", JBool true);
                  ("revalidated", JBool true);
                  ("message", JStr "Paginas revalidadas exitosamente");
                  ("paths", paths)]))
  else
    event_text <- template w event ;;
    model_text <- template w model ;;
    log ("Evento ignorado: " ++ event_text ++ " para modelo " ++ model_text) ;;;
    ret (NextResponse_json
           (JObj [("success", JBool true);
                  ("message", JStr "Evento recibido pero no requiere revalidacion")])).

Definition POST (request : NextRequest) : M Response :=
  log "Webhook recibido" ;;;
  log ("URL: " ++ url request) ;;;
  log ("Metodo: " ++ method request) ;;;
  try_catch
    (body0 <-
       try_catch
         (jsonData <- json_of (request_json request) ;;
          log "Datos recibidos" ;;;
          ret jsonData)
         (fun bodyError =>
            log "No se pudo leer el cuerpo de la solicitud" ;;;
            ret (JObj [])) ;;
     isValid <- validateWebhook request ;;
     if negb isValid then
       log "Webhook rechazado: token invalido" ;;;
       ret (NextResponse_json_status (JObj [("error", JStr "Token invalido")]) 401)
     else
       second <- second_attempt request body0 ;;
       match second with
       | inl response => ret response
       | inr body1 => dispatch body1
       end)
    (fun error =>
       let errorMessage := exn_message error in
       log ("Error en el webhook: " ++ errorMessage) ;;;
       ret (NextResponse_json_status
              (JObj [("error", JStr "Error interno del servidor");
                     ("details", JStr errorMessage)]) 500)).

Definition GET (request : NextRequest) : M Response :=
  log "Solicitud GET al webhook (prueba)" ;;;
  isValid <- validateWebhook request ;;
  if negb isValid then
    log "Prueba de webhook rechazada: token invalido" ;;;
    ret (NextResponse_json_status (JObj [("error", JStr "Token invalido")]) 401)
  else
    ret (NextResponse_json
           (JObj [("success", JBool true);
                  ("message", JStr "Webhook configurado correctamente");
                  ("timestamp", JStr (Date_toISOString w))])).
End WithWorld.

End WebhookRoute.

(* ===================================================================== *)
(** ** src/pages/api/revalidate.ts (Pages Router handler) *)
(* ===================================================================== *)

Module PagesRevalidate.

(** [req.query]: each value is a string or an array of strings. *)
Record NextApiRequest : Type := mkRequest {
  query : list (string * json)
}.

(** [q !== process.env.X] between a query value and an environment
    variable: equal only when both are [undefined] or both are the same
    string. *)
Definition differs (q : jsval) (e : option string) : bool :=
  match q, e with
  | None, None => false
  | Some (JStr s), Some t => negb (String.eqb s t)
  | _, _ => true
  end.

Definition res_json (st : nat) (b : json) : Response := mkResponse st b.

Section WithWorld.
Variable w : World.

Definition handler (req : NextApiRequest) : M Response :=
  if differs (assoc "secret" (query req)) (env w "REVALIDATION_SECRET") then
    ret (res_json 401 (JObj [("message", JStr "Invalid token")]))
  else
    try_catch
      (let path := assoc "path" (query req) in
       match path with
       | Some p =>
           if negb (truthy p) then
             ret (res_json 400 (JObj [("message", JStr "Path is required")]))
           else
             res_revalidate w p ;;;
             ret (res_json 200 (JObj [("revalidated", JBool true); ("path", p)]))
       | None =>
           ret (res_json 400 (JObj [("message", JStr "Path is required")]))
       end)
      (fun error =>
         ret (res_json 500 (JObj [("message", JStr "Error revalidating");
                                  ("error", JStr (String_of_exn error))]))).
End WithWorld.

End PagesRevalidate.

(* ===================================================================== *)
(** ** src/app/lib/api/articles.ts *)
(* ===================================================================== *)

(** [for (const x of xs) { await body(x) }]: stops at the first throw. *)
Definition for_of {A} (body : A -> M unit) : list A -> M unit :=
  fix loop (xs : list A) : M unit :=
    match xs with
    | [] => ret tt
    | x :: rest => body x ;;; loop rest
    end.

(** [xs.map(f)] for a callback that may throw. *)
Definition array_map {A B} (f : A -> M B) : list A -> M (list B) :=
  fix loop (xs : list A) : M (list B) :=
    match xs with
    | [] => ret []
    | x :: rest => y <- f x ;; ys <- loop rest ;; ret (y :: ys)
    end.

Module Articles.

Record Cover : Type := mkCover { url : json }.

Record Category : Type := mkCategory {
  cat_id : jsval;
  cat_name : jsval;
  cat_slug : jsval
}.

(** An article as the mapping builds it; [category] is [None] for
    [null]. *)
Record Article : Type := mkArticle {
  id : jsval;
  title : jsval;
  description : jsval;
  slug : jsval;
  content : jsval;
  publishedAt : JsDate;
  cover : Cover;
  category : option Category
}.

Definition placeholder : json := JStr "/placeholder.jpg".

Definition nat_to_string (n : nat) : string :=
  NilZero.string_of_uint (Nat.to_uint n).

(** [v.map(f)] on a value read from the response. *)
Definition value_map {B} (v : jsval) (f : json -> M B) : M (list B) :=
  match v with
  | None => throw (TypeError "Cannot read properties of undefined (reading 'map')")
  | Some JNull => throw (TypeError "Cannot read properties of null (reading 'map')")
  | Some (JArr items) => array_map f items
  | Some _ => throw (TypeError "data.data.map is not a function")
  end.

(** [v.length] for a truthy value. *)
Definition value_length (v : json) : jsval :=
  match v with
  | JArr items => Some (JNum (Z.of_nat (List.length items)))
  | JStr s => Some (JNum (Z.of_nat (String.length s)))
  | JObj fields => assoc "length" fields
  | _ => None
  end.

(** [v[0]] for a truthy value. *)
Definition value_first (v : json) : jsval :=
  match v with
  | JArr items => List.hd_error items
  | JStr (String c _) => Some (JStr (String c EmptyString))
  | JObj fields => assoc "0" fields
  | _ => None
  end.

Definition unwrap (v : jsval) : json :=
  match v with Some j => j | None => JNull end.

Section WithWorld.
Variable w : World.

Definition STRAPI_URL : string :=
  match or_str (env w "STRAPI_URL") (Some "http://localhost:1337") with
  | Some u => u
  | None => "http://localhost:1337"
  end.

(** [await fetch(url)] followed by the [response.ok] check and
    [await response.json()]. *)
Definition fetch_json (url : string) (what : string) : M json :=
  match fetch w url with
  | FetchRejected e => throw e
  | FetchResolved ok st js =>
      if negb ok then
        throw (Error ("Error fetching " ++ what ++ ": " ++ nat_to_string st))
      else
        match js with
        | Returned j => ret j
        | Threw e => throw e
        end
  end.

(** The callback of [data.data.map] in [fetchArticles]. *)
Definition map_article (article : json) : M Article :=
  a_id <- get_prop (Some article) "id" ;;
  a_title <- get_prop (Some article) "title" ;;
  a_description <- get_prop (Some article) "description" ;;
  a_slug <- get_prop (Some article) "slug" ;;
  a_content <- get_prop (Some article) "content" ;;
  a_publishedAt <- get_prop (Some article) "publishedAt" ;;
  a_date <- new_Date a_publishedAt ;;
  a_cover <- get_prop (Some article) "cover" ;;
  a_category <- get_prop (Some article) "category" ;;
  ret {| id := a_id;
         title := a_title;
         description := a_description;
         slug := a_slug;
         content := a_content;
         publishedAt := a_date;
         cover := {| url := unwrap (or_val (get_opt a_cover "url") (Some placeholder)) |};
         category :=
           if truthy_val a_category then
             Some {| cat_id := get_opt a_category "id";
                     cat_name := get_opt a_category "name";
                     cat_slug := get_opt a_category "slug" |}
           else None |}.

Definition fetchArticles : M (list Article) :=
  try_catch
    (data <- fetch_json (STRAPI_URL ++ "/api/articles?populate=*") "articles" ;;
     items <- get_prop (Some data) "data" ;;
     value_map items map_article)
    (fun error =>
       emit (EConsole "Error fetching articles:") ;;;
       ret []).

(** The object literal returned by [fetchArticleBySlug]. *)
Definition map_article_by_slug (article : jsval) : M Article :=
  a_id <- get_prop article "id" ;;
  a_title <- get_prop article "title" ;;
  a_description <- get_prop article "description" ;;
  a_content <- get_prop article "content" ;;
  a_slug <- get_prop article "slug" ;;
  a_publishedAt <- get_prop article "publishedAt" ;;
  a_date <- new_Date a_publishedAt ;;
  a_cover <- get_prop article "cover" ;;
  a_category <- get_prop article "category" ;;
  ret {| id := a_id;
         title := a_title;
         description := a_description;
         slug := a_slug;
         content := a_content;
         publishedAt := a_date;
         cover :=
           {| url := unwrap
                (or_val
                   (or_val (get_opt a_cover "url")
                      (get_opt (get_opt (get_opt a_cover "data") "attributes") "url"))
                   (Some placeholder)) |};
         category :=
           if truthy_val (get_opt a_category "data") then
             Some {| cat_id := get_opt a_category "id";
                     cat_name := get_opt a_category "name";
                     cat_slug := get_opt a_category "slug" |}
           else None |}.

Definition fetchArticleBySlug (slug : string) : M (option Article) :=
  try_catch
    (data <- fetch_json
               (STRAPI_URL ++ "/api/articles?filters[slug][$eq]=" ++ slug ++ "&populate=*")
               "article" ;;
     items <- get_prop (Some data) "data" ;;
     match items with
     | None => ret None
     | Some list =>
         if negb (truthy list) then ret None
         else if match value_length list with
                 | Some (JNum n) => Z.eqb n 0
                 | _ => false
                 end then ret None
         else
           article <- map_article_by_slug (value_first list) ;;
           ret (Some article)
     end)
    (fun error =>
       emit (EConsole "Error fetching article by slug:") ;;;
       ret None).
End WithWorld.

End Articles.

(* ===================================================================== *)
(** ** src/scripts/upload-to-s3.ts *)
(* ===================================================================== *)

(** What [fs.readdirSync] and [fs.statSync] see below a directory. *)
Inductive fs_node : Type :=
| FFile (name : string)
| FDir (name : string) (children : list fs_node).

(** The paths are those of a POSIX platform: the separator is [/]. *)

(** [p.split("/")]. *)
Fixpoint split_slash (p : string) : list string :=
  match p with
  | EmptyString => [""]
  | String c rest =>
      if Ascii.eqb c "/" then "" :: split_slash rest
      else match split_slash rest with
           | seg :: segs => String c seg :: segs
           | [] => [String c ""]
           end
  end.

(** [normalizeString] of Node's [path] module, on the segments of the
    path: [kept] holds, last first, the segments retained so far. An
    empty segment and [.] are dropped; [..] removes the segment before
    it, unless there is none or it is itself [..]. *)
Fixpoint normalize_segments (allowAboveRoot : bool) (kept segs : list string)
  : list string :=
  match segs with
  | [] => rev kept
  | seg :: rest =>
      if String.eqb seg "" || String.eqb seg "." then
        normalize_segments allowAboveRoot kept rest
      else if String.eqb seg ".." then
        match kept with
        | top :: below =>
            if String.eqb top ".." then
              normalize_segments allowAboveRoot
                (if allowAboveRoot then ".." :: kept else kept) rest
            else normalize_segments allowAboveRoot below rest
        | [] =>
            normalize_segments allowAboveRoot
              (if allowAboveRoot then [".."] else []) rest
        end
      else normalize_segments allowAboveRoot (seg :: kept) rest
  end.

Fixpoint ends_with_slash (p : string) : bool :=
  match p with
  | EmptyString => false
  | String c EmptyString => Ascii.eqb c "/"
  | String _ rest => ends_with_slash rest
  end.

(** [path.normalize(p)]. *)
Definition path_normalize (p : string) : string :=
  match p with
  | EmptyString => "."
  | String c _ =>
      let isAbsolute := Ascii.eqb c "/" in
      let trailingSeparator := ends_with_slash p in
      let kept := normalize_segments (negb isAbsolute) [] (split_slash p) in
      match String.concat "/" kept with
      | EmptyString =>
          if isAbsolute then "/" else if trailingSeparator then "./" else "."
      | body =>
          (if isAbsolute then "/" else "") ++ body ++
          (if trailingSeparator then "/" else "")
      end
  end.

(** [path.join(a, b)]: the non-empty arguments, joined by a separator
    and normalised. *)
Definition path_join (a b : string) : string :=
  match a, b with
  | EmptyString, EmptyString => "."
  | EmptyString, _ => path_normalize b
  | _, EmptyString => path_normalize a
  | _, _ => path_normalize (a ++ "/" ++ b)
  end.

(** [s.replace(/\\/g, '/')]: every backslash becomes a slash. *)
Fixpoint replace_backslashes (s : string) : string :=
  match s with
  | EmptyString => EmptyString
  | String c rest =>
      String (if Ascii.eqb c (ascii_of_nat 92) then "/"%char else c)
             (replace_backslashes rest)
  end.

(** [path.join(directory, file)] for an entry [file] of [directory] as
    [fs.readdirSync] names it: one segment, which is neither empty nor
    [.] nor [..], so that the join adds it to the directory after a
    separator. The walk starts from the output directory and from the
    empty base path and only ever joins such names; on a normalised
    directory the result is that of [path_join] (lemma
    [entry_path_is_path_join]), and whatever the spelling of the output
    directory the names that follow it are the path relative to it. *)
Definition entry_path (directory file : string) : string :=
  match directory with
  | EmptyString => file
  | _ => directory ++ "/" ++ file
  end.

Fixpoint string_drop (n : nat) (s : string) : string :=
  match n, s with
  | O, _ => s
  | S n', String _ s' => string_drop n' s'
  | S _, EmptyString => EmptyString
  end.

(** [path.relative(from, to)] for a [to] that lies below [from], as the
    paths of the walk lie below the output directory: what follows
    [from] and its separator. *)
Definition path_relative (from to : string) : string :=
  if startsWith (from ++ "/") to
  then string_drop (String.length from + 1) to
  else to.

Module UploadToS3.

Definition immutable_policy : string := "public, max-age=31536000, immutable".
Definition no_cache_policy : string := "public, max-age=0, must-revalidate".
Definition week_policy : string := "public, max-age=604800".

(** The [CacheControl] expression of the upload parameters. *)
Definition CacheControl (contentType : string) : string :=
  if includes "image/" contentType then immutable_policy
  else if includes "text/html" contentType then no_cache_policy
  else week_policy.

Section WithWorld.
Variable w : World.

(** [process.cwd()] joined with ["out"], the Next.js export directory. *)
Variable OUT_DIR : string.

Definition BUCKET_NAME : string :=
  match or_str (env w "AWS_S3_BUCKET") (Some "") with Some b => b | None => "" end.

Definition S3_PREFIX : string :=
  match or_str (env w "AWS_S3_PREFIX") (Some "") with Some b => b | None => "" end.

Definition contentType_of (filePath : string) : string :=
  match or_str (mime_lookup w filePath) (Some "application/octet-stream") with
  | Some t => t
  | None => "application/octet-stream"
  end.

Definition uploadFileToS3 (filePath s3Key : string) : M unit :=
  match readFileSync_throws w filePath with
  | Some e => throw e
  | None =>
      let contentType := contentType_of filePath in
      try_catch
        (emit (EUpload s3Key contentType (CacheControl contentType)) ;;;
         match upload_throws w s3Key with
         | Some e => throw e
         | None => emit (EConsole ("Archivo subido: " ++ s3Key))
         end)
        (fun error =>
           emit (EConsole ("Error al subir " ++ s3Key ++ ":")) ;;;
           throw error)
  end.

(** One turn of the loop of [uploadDirectoryToS3] on the entry [file]
    of [directory]; a sub-directory is walked by the same loop. *)
Fixpoint upload_entry (directory baseS3Path : string) (file : fs_node) : M unit :=
  match file with
  | FDir name children =>
      let filePath := entry_path directory name in
      for_of (upload_entry filePath (entry_path baseS3Path name)) children
  | FFile name =>
      let filePath := entry_path directory name in
      let relativePath := path_relative OUT_DIR filePath in
      let s3Key := replace_backslashes (path_join S3_PREFIX relativePath) in
      uploadFileToS3 filePath s3Key
  end.

(** [files] is the listing of [directory]. *)
Definition uploadDirectoryToS3 (directory : string) (files : list fs_node)
           (baseS3Path : string) : M unit :=
  for_of (upload_entry directory baseS3Path) files.

(** [main]: the exit code of the process. [out] is the listing of
    [OUT_DIR], or [None] when the directory does not exist. *)
Definition main (out : option (list fs_node)) : M nat :=
  emit (EConsole "Iniciando subida de archivos a S3...") ;;;
  if negb (str_truthy BUCKET_NAME) then
    emit (EConsole "Error: AWS_S3_BUCKET no esta definido") ;;;
    ret 1
  else
    match out with
    | None =>
        emit (EConsole "Error: El directorio de salida no existe") ;;;
        ret 1
    | Some files =>
        try_catch
          (uploadDirectoryToS3 OUT_DIR files "" ;;;
           emit (EConsole "Todos los archivos han sido subidos a S3 exitosamente") ;;;
           ret 0)
          (fun error =>
             emit (EConsole "Error durante la subida a S3:") ;;;
             ret 1)
    end.
End WithWorld.

End UploadToS3.

(* ===================================================================== *)
(** ** Vocabulary of the properties *)
(* ===================================================================== *)

(** The response carries [revalidated: true]. *)
Definition reports_revalidated (r : Response) : bool :=
  match body r with
  | JObj fields =>
      match assoc "revalidated" fields with
      | Some (JBool true) => true
      | _ => false
      end
  | _ => false
  end.

(** The response carries [success: true]. *)
Definition reports_success (r : Response) : bool :=
  match body r with
  | JObj fields =>
      match assoc "success" fields with
      | Some (JBool true) => true
      | _ => false
      end
  | _ => false
  end.

(** An invalidation of the framework cache. *)
Definition is_invalidation (ev : event) : bool :=
  match ev with
  | ERevalidatePath _ | ERevalidateTag _ | EResRevalidate _ => true
  | _ => false
  end.

Definition invalidations (t : list event) : list event :=
  filter is_invalidation t.

(** A world in which nothing is configured and no collaborator fails. *)
Definition quiet_world : World :=
  {| env := fun _ => None;
     revalidatePath_throws := fun _ => None;
     revalidateTag_throws := fun _ => None;
     res_revalidate_throws := fun _ => None;
     Date_now := 0%Z;
     Date_toISOString := "1970-01-01T00:00:00.000Z";
     Number_toString := fun _ => "1e+21";
     fetch := fun _ => FetchRejected (TypeError "fetch failed");
     mime_lookup := fun _ => None;
     readFileSync_throws := fun _ => None;
     upload_throws := fun _ => None |}.

Definition with_env (w : World) (e : string -> option string) : World :=
  {| env := e;
     revalidatePath_throws := revalidatePath_throws w;
     revalidateTag_throws := revalidateTag_throws w;
     res_revalidate_throws := res_revalidate_throws w;
     Date_now := Date_now w;
     Date_toISOString := Date_toISOString w;
     Number_toString := Number_toString w;
     fetch := fetch w;
     mime_lookup := mime_lookup w;
     readFileSync_throws := readFileSync_throws w;
     upload_throws := upload_throws w |}.

Definition with_revalidatePath (w : World) (f : string -> option exn) : World :=
  {| env := env w;
     revalidatePath_throws := f;
     revalidateTag_throws := revalidateTag_throws w;
     res_revalidate_throws := res_revalidate_throws w;
     Date_now := Date_now w;
     Date_toISOString := Date_toISOString w;
     Number_toString := Number_toString w;
     fetch := fetch w;
     mime_lookup := mime_lookup w;
     readFileSync_throws := readFileSync_throws w;
     upload_throws := upload_throws w |}.

(** [process.env] with the listed variables set. *)
Definition env_of (vars : list (string * string)) : string -> option string :=
  fun k => assoc k vars.

(** The [path] field of a response body. *)
Definition response_path (r : Response) : jsval :=
  match body r with
  | JObj fields => assoc "path" fields
  | _ => None
  end.

(** C3, as the specification states it: a valid secret and a path
    parameter [p] give [revalidated: true] with the same [p] echoed back
    whenever the framework call does not throw. *)
Definition revalidate_echo_as_stated : Prop :=
  forall (w : World) (req : RevalidateRoute.NextRequest) (s p : string),
    env w "REVALIDATION_SECRET" = Some s ->
    RevalidateRoute.searchParams_get req "secret" = Some s ->
    RevalidateRoute.searchParams_get req "path" = Some p ->
    (forall q, revalidatePath_throws w q = None) ->
    exists r,
      result (RevalidateRoute.GET w req) = Returned r /\
      reports_revalidated r = true /\
      response_path r = Some (JStr p).

(** C4, as the specification states it: a valid secret without a path
    parameter is rejected and nothing is revalidated. *)
Definition missing_path_rejected_as_stated : Prop :=
  forall (w : World) (req : RevalidateRoute.NextRequest),
    result (RevalidateRoute.isValidRequest w req) = Returned true ->
    RevalidateRoute.searchParams_get req "path" = None ->
    exists r,
      result (RevalidateRoute.GET w req) = Returned r /\
      400 <= status r /\
      invalidations (trace (RevalidateRoute.GET w req)) = [].

(** The [paths] field of a response body. *)
Definition response_paths (r : Response) : jsval :=
  match body r with
  | JObj fields => assoc "paths" fields
  | _ => None
  end.

Definition article_events : list string :=
  ["entry.create"; "entry.update"; "entry.publish"; "entry.unpublish"].

Definition article_models : list string := ["article"; "articles"].

(** The response lists [p] among its [paths]. *)
Definition paths_include (r : Response) (p : string) : Prop :=
  exists l, response_paths r = Some (JArr l) /\ In (JStr p) l.

(** The claim C1 under an assumption on the world and on the slug: a
    validated request outside development mode, with an entry event,
    the model ["article"] and the slug [x], is answered with success and
    [revalidated: true], and the paths of the answer include ["/"],
    ["/news"] and ["/news/x"]. *)
Definition article_event_claim (assumption : World -> string -> Prop) : Prop :=
  forall (w : World) (req : WebhookRoute.NextRequest)
         (fields entry : list (string * json)) (ev x : string),
    env w "NODE_ENV" <> Some "development" ->
    result (WebhookRoute.validateWebhook w req) = Returned true ->
    WebhookRoute.request_json req = Returned (JObj fields) ->
    assoc "event" fields = Some (JStr ev) ->
    In ev article_events ->
    assoc "model" fields = Some (JStr "article") ->
    assoc "entry" fields = Some (JObj entry) ->
    assoc "slug" entry = Some (JStr x) ->
    assumption w x ->
    exists r,
      result (WebhookRoute.POST w req) = Returned r /\
      reports_success r = true /\
      reports_revalidated r = true /\
      paths_include r "/" /\
      paths_include r "/news" /\
      paths_include r ("/news/" ++ x).

(** C1, as the specification states it: under no assumption. *)
Definition article_event_as_stated : Prop :=
  article_event_claim (fun _ _ => True).

(** The invalidation calls of the framework return normally. *)
Definition framework_returns (w : World) : Prop :=
  (forall p, revalidatePath_throws w p = None) /\
  (forall t, revalidateTag_throws w t = None).

(** The claim C6 under an assumption on the body: a validated request
    outside development mode whose model is not an article model is
    answered with success, and nothing is invalidated. *)
Definition unrecognized_model_claim
           (assumption : list (string * json) -> Prop) : Prop :=
  forall (w : World) (req : WebhookRoute.NextRequest)
         (fields : list (string * json)) (model : json),
    env w "NODE_ENV" <> Some "development" ->
    result (WebhookRoute.validateWebhook w req) = Returned true ->
    WebhookRoute.request_json req = Returned (JObj fields) ->
    assoc "model" fields = Some model ->
    model <> JStr "article" ->
    model <> JStr "articles" ->
    assumption fields ->
    exists r,
      result (WebhookRoute.POST w req) = Returned r /\
      reports_success r = true /\
      invalidations (trace (WebhookRoute.POST w req)) = [].

(** C6, as the specification states it: under no assumption. *)
Definition unrecognized_model_as_stated : Prop :=
  unrecognized_model_claim (fun _ => True).

(** A production world with the webhook token [t0ken]. *)
Definition production_world : World :=
  with_env quiet_world
    (env_of [("NODE_ENV", "production"); ("WEBHOOK_TOKEN", "t0ken")]).

(** A request to the webhook that carries the token and the body. *)
Definition webhook_request (body0 : json) : WebhookRoute.NextRequest :=
  WebhookRoute.mkRequest "https://site.example/api/webhook" "POST"
    [("content-type", "application/json"); ("x-webhook-token", "t0ken")] []
    (Returned body0).

Definition with_fetch (w : World) (f : string -> fetch_result) : World :=
  {| env := env w;
     revalidatePath_throws := revalidatePath_throws w;
     revalidateTag_throws := revalidateTag_throws w;
     res_revalidate_throws := res_revalidate_throws w;
     Date_now := Date_now w;
     Date_toISOString := Date_toISOString w;
     Number_toString := Number_toString w;
     fetch := f;
     mime_lookup := mime_lookup w;
     readFileSync_throws := readFileSync_throws w;
     upload_throws := upload_throws w |}.

(** The defaulting invariant of C9 on a mapped article. *)
Definition is_defined (v : jsval) : bool :=
  match v with Some _ => true | None => false end.

Definition fully_populated (c : Articles.Category) : bool :=
  is_defined (Articles.cat_id c) &&
  is_defined (Articles.cat_name c) &&
  is_defined (Articles.cat_slug c).

Definition category_invariant (a : Articles.Article) : bool :=
  match Articles.category a with
  | None => true
  | Some c => fully_populated c
  end.

Definition nested_category_response : json :=
  JObj [("data",
         JArr [JObj [("id", JNum 1);
                     ("title", JStr "Titular");
                     ("slug", JStr "x");
                     ("publishedAt", JStr "2025-03-01T10:00:00.000Z");
                     ("cover", JObj [("url", JStr "/uploads/a.jpg")]);
                     ("category",
                      JObj [("data",
                             JObj [("id", JNum 7);
                                   ("attributes",
                                    JObj [("name", JStr "Deportes");
                                          ("slug", JStr "deportes")])])])]])].

Definition with_store (w : World) (mime : string -> option string)
           (upload : string -> option exn) : World :=
  {| env := env w;
     revalidatePath_throws := revalidatePath_throws w;
     revalidateTag_throws := revalidateTag_throws w;
     res_revalidate_throws := res_revalidate_throws w;
     Date_now := Date_now w;
     Date_toISOString := Date_toISOString w;
     Number_toString := Number_toString w;
     fetch := fetch w;
     mime_lookup := mime;
     readFileSync_throws := readFileSync_throws w;
     upload_throws := upload |}.

(** A few rows of the mime-types table. *)
Definition sample_mime (filePath : string) : option string :=
  if includes ".html" filePath then Some "text/html"
  else if includes ".png" filePath then Some "image/png"
  else if includes ".svg" filePath then Some "image/svg+xml"
  else if includes ".js" filePath then Some "application/javascript"
  else None.

(** A name as [fs.readdirSync] lists it. *)
Definition entry_name (name : string) : bool :=
  negb (String.eqb name "") && negb (String.eqb name ".") &&
  negb (String.eqb name "..") && negb (includes "/" name).

(** A directory as [path.join] returns it: normalised, without a
    separator at its end, and not the current directory. *)
Definition normalised_directory (d : string) : bool :=
  String.eqb (path_normalize d) d && negb (ends_with_slash d) &&
  negb (String.eqb d ".").

(** The files below an entry of [directory], in the order the loop meets
    them. *)
Fixpoint files_of (directory : string) (file : fs_node) : list string :=
  match file with
  | FFile name => [entry_path directory name]
  | FDir name children => flat_map (files_of (entry_path directory name)) children
  end.

(** The S3 key of a file. *)
Definition s3Key_of (w : World) (OUT_DIR filePath : string) : string :=
  replace_backslashes
    (path_join (UploadToS3.S3_PREFIX w) (path_relative OUT_DIR filePath)).

(** The keys of the uploads that were started. *)
Fixpoint attempted (t : list event) : list string :=
  match t with
  | [] => []
  | EUpload key _ _ :: rest => key :: attempted rest
  | _ :: rest => attempted rest
  end.

Section fs_node_induction.
Variable P : fs_node -> Prop.
Hypothesis P_file : forall name, P (FFile name).
Hypothesis P_dir : forall name children, Forall P children -> P (FDir name children).

Fixpoint fs_node_nested_ind (n : fs_node) : P n :=
  match n with
  | FFile name => P_file name
  | FDir name children =>
      P_dir name children
        ((fix all (l : list fs_node) : Forall P l :=
            match l with
            | [] => Forall_nil P
            | c :: cs => Forall_cons c (fs_node_nested_ind c) (all cs)
            end) children)
  end.
End fs_node_induction.

(** C5, as the specification states it: when the upload of a single file
    of the listing fails, every file of the batch is still attempted. *)
Definition batch_continues_as_stated : Prop :=
  forall (w : World) (OUT_DIR : string) (files : list fs_node) (bad : string) (e : exn),
    In bad (flat_map (files_of OUT_DIR) files) ->
    (forall p, readFileSync_throws w p = None) ->
    (forall k, upload_throws w k =
               if String.eqb k (s3Key_of w OUT_DIR bad) then Some e else None) ->
    forall p, In p (flat_map (files_of OUT_DIR) files) ->
              In (s3Key_of w OUT_DIR p)
                 (attempted (trace (UploadToS3.uploadDirectoryToS3 w OUT_DIR OUT_DIR files ""))).

Definition two_pages : list fs_node := [FFile "about.html"; FFile "index.html"].

Definition about_fails : World :=
  with_store quiet_world sample_mime
    (fun k => if String.eqb k "about.html"
              then Some (Error "AccessDenied") else None).

(* ===================================================================== *)
(** ** src/app/lib/api/articles.ts: slugs, related and recent articles *)
(* ===================================================================== *)

Module ArticleLists.

(** An article as [fetchRelatedArticles] and [fetchRecentArticles] build
    it: no [content] and no [category]. *)
Record RelatedArticle : Type := mkRelated {
  id : jsval;
  title : jsval;
  description : jsval;
  slug : jsval;
  publishedAt : JsDate;
  cover : Articles.Cover
}.

(** The callback of [data.data.map] in both functions. *)
Definition map_related (article : json) : M RelatedArticle :=
  a_id <- get_prop (Some article) "id" ;;
  a_title <- get_prop (Some article) "title" ;;
  a_description <- get_prop (Some article) "description" ;;
  a_slug <- get_prop (Some article) "slug" ;;
  a_publishedAt <- get_prop (Some article) "publishedAt" ;;
  a_date <- new_Date a_publishedAt ;;
  a_cover <- get_prop (Some article) "cover" ;;
  ret {| id := a_id;
         title := a_title;
         description := a_description;
         slug := a_slug;
         publishedAt := a_date;
         cover := {| Articles.url :=
                       Articles.unwrap (or_val (get_opt a_cover "url")
                                          (Some Articles.placeholder)) |} |}.

(** [!v || v.length === 0] on a value read from the response. *)
Definition missing_or_empty (v : jsval) : bool :=
  match v with
  | None => true
  | Some list =>
      negb (truthy list) ||
      match Articles.value_length list with
      | Some (JNum n) => Z.eqb n 0
      | _ => false
      end
  end.

Section WithWorld.
Variable w : World.

Definition fetchAllArticleSlugs : M (list jsval) :=
  try_catch
    (emit (EConsole "Obteniendo todos los slugs de articulos...") ;;;
     data <- Articles.fetch_json w
               (Articles.STRAPI_URL w ++ "/api/articles?fields[0]=slug")
               "article slugs" ;;
     emit (EConsole "Respuesta de API para slugs:") ;;;
     items <- get_prop (Some data) "data" ;;
     match items with
     | Some (JArr list) =>
         array_map (fun article => get_prop (Some article) "slug") list
     | _ =>
         emit (EConsole "Formato de datos inesperado:") ;;;
         ret []
     end)
    (fun error =>
       emit (EConsole "Error fetching article slugs:") ;;;
       ret []).

Definition fetchRecentArticles (excludeId : string) : M (list RelatedArticle) :=
  try_catch
    (data <- Articles.fetch_json w
               (Articles.STRAPI_URL w ++ "/api/articles?filters[id][$ne]=" ++ excludeId ++
                "&populate=*&sort[0]=publishedAt:desc&pagination[limit]=3")
               "recent articles" ;;
     items <- get_prop (Some data) "data" ;;
     Articles.value_map items map_related)
    (fun error =>
       emit (EConsole "Error fetching recent articles:") ;;;
       ret []).

Definition fetchRelatedArticles (articleId : string) (categoryId : option string)
  : M (list RelatedArticle) :=
  try_catch
    (if negb (truthy_str categoryId) then fetchRecentArticles articleId
     else
       let category := match categoryId with Some c => c | None => "" end in
       data <- Articles.fetch_json w
                 (Articles.STRAPI_URL w ++ "/api/articles?filters[id][$ne]=" ++ articleId ++
                  "&filters[category][id][$eq]=" ++ category ++
                  "&populate=*&pagination[limit]=3")
                 "related articles" ;;
       items <- get_prop (Some data) "data" ;;
       if missing_or_empty items then fetchRecentArticles articleId
       else Articles.value_map items map_related)
    (fun error =>
       emit (EConsole "Error fetching related articles:") ;;;
       ret []).

(** [generateStaticParams] of the article page: one [{slug}] per slug. *)
Definition generateStaticParams : M (list (list (string * jsval))) :=
  try_catch
    (slugs <- fetchAllArticleSlugs ;;
     emit (EConsole ("Generando rutas estaticas para " ++
                     Articles.nat_to_string (List.length slugs) ++ " articulos")) ;;;
     ret (map (fun slug => [("slug", slug)]) slugs))
    (fun error =>
       emit (EConsole "Error generando rutas estaticas:") ;;;
       ret []).
End WithWorld.

(** The cache tags the pages declare in [generateMetadata]: the home page
    and the article page of [slug]. *)
Definition home_tags : list string := ["articles"; "home"].

Definition article_page_tags (slug : string) : list string :=
  ["articles"; "article-" ++ slug].

End ArticleLists.

(** A CMS item whose [category] is as the [Article] type declares it:
    missing, [null], or an object with [id], [name] and [slug]. *)
Definition category_well_typed (item : json) : bool :=
  match get_opt (Some item) "category" with
  | None | Some JNull => true
  | Some (JObj c) =>
      is_defined (assoc "id" c) && is_defined (assoc "name" c) &&
      is_defined (assoc "slug" c)
  | Some _ => false
  end.

Definition cover_defined (c : Articles.Cover) : bool := truthy (Articles.url c).

(** [new Date(item.publishedAt)] does not throw. *)
Definition date_constructible (item : json) : bool :=
  printable (get_opt (Some item) "publishedAt").

(** The scalar fields of a mapped article are those of the CMS item, and
    its date is made from the item's [publishedAt]. *)
Definition copies_fields (item : json) (a : Articles.Article) : Prop :=
  Articles.id a = get_opt (Some item) "id" /\
  Articles.title a = get_opt (Some item) "title" /\
  Articles.description a = get_opt (Some item) "description" /\
  Articles.slug a = get_opt (Some item) "slug" /\
  Articles.content a = get_opt (Some item) "content" /\
  Articles.publishedAt a = Date_from (get_opt (Some item) "publishedAt").

(* ===================================================================== *)
(** ** Parts of the webhook handler, named for the proofs *)
(* ===================================================================== *)

(** What [POST] does between the token check and the outer [catch]. *)
Definition after_validation (w : World) (req : WebhookRoute.NextRequest)
           (body0 : json) : M Response :=
  second <- WebhookRoute.second_attempt w req body0 ;;
  match second with
  | inl response => ret response
  | inr body1 => WebhookRoute.dispatch w body1
  end.

(** Lines 149-155: the slug is read and written to the log. *)
Definition read_slug (w : World) (entry : jsval) : M json :=
  if truthy_val entry && truthy_val (get_opt entry "slug") then
    let slug := match get_opt entry "slug" with Some s => s | None => JStr "" end in
    text <- js_toString w slug ;;
    WebhookRoute.log ("Slug del articulo: " ++ text) ;;;
    ret slug
  else ret (JStr "").

(** The outer [catch] of [POST]. *)
Definition internal_error (error : exn) : M Response :=
  WebhookRoute.log ("Error en el webhook: " ++ exn_message error) ;;;
  ret (NextResponse_json_status
         (JObj [("error", JStr "Error interno del servidor");
                ("details", JStr (exn_message error))]) 500).

(** The body as the first read leaves it: [{}] when it cannot be read. *)
Definition first_read (req : WebhookRoute.NextRequest) : json :=
  match WebhookRoute.request_json req with
  | Returned j => j
  | Threw _ => JObj []
  end.

Definition main_invalidations : list event :=
  [ERevalidatePath "/"; ERevalidatePath "/news";
   ERevalidateTag "articles"; ERevalidateTag "home"].

(* ===================================================================== *)
(** ** src/scripts/webhook-deploy.ts *)
(* ===================================================================== *)

(** [encodeURIComponent] on a UTF-8 string: letters, digits and
    [- _ . ! ~ * ' ( )] are kept, every other byte becomes [%XX]. *)
Definition unreserved (c : ascii) : bool :=
  let n := nat_of_ascii c in
  (Nat.leb 65 n && Nat.leb n 90) || (Nat.leb 97 n && Nat.leb n 122) ||
  (Nat.leb 48 n && Nat.leb n 57) ||
  existsb (Ascii.eqb c)
    ["-"; "_"; "."; "!"; "~"; "*"; "'"; "("; ")"]%char.

Definition hex_digit (n : nat) : ascii :=
  nth n ["0"; "1"; "2"; "3"; "4"; "5"; "6"; "7"; "8"; "9";
         "A"; "B"; "C"; "D"; "E"; "F"]%char "0"%char.

Fixpoint encodeURIComponent (s : string) : string :=
  match s with
  | EmptyString => EmptyString
  | String c rest =>
      if unreserved c then String c (encodeURIComponent rest)
      else
        let n := nat_of_ascii c in
        String "%" (String (hex_digit (Nat.div n 16)) (String (hex_digit (Nat.modulo n 16))
          (encodeURIComponent rest)))
  end.

(** What [child_process.exec] resolves or rejects with. *)
Inductive exec_result : Type :=
| ExecDone (stdout stderr : string)
| ExecFailed (message : string) (stdout stderr : option string).

Module WebhookDeploy.

Definition LOG_FILE : string := "webhook-deploy-logs.txt".

(** A line in the log file and the same line on the console (the file is
    taken to be writable; the emoji that open the messages, the accents
    and the [JSON.stringify] dump of an answer, which cannot throw on
    parsed JSON, are left out of the recorded text). *)
Definition log (message : string) : M unit :=
  emit (ELog LOG_FILE message) ;;;
  emit (EConsole message).

Definition newline : string := String (ascii_of_nat 10) EmptyString.

Definition log_if_present (label : string) (text : option string) : M unit :=
  match text with
  | Some t => if str_truthy t then log (label ++ t) else ret tt
  | None => ret tt
  end.

Section WithWorld.
Variable w : World.

(** [execPromise], by command line. *)
Variable exec : string -> exec_result.

(** [exec] is the one call of the [try] block that can throw, so the
    [catch] block is the branch of its failure. *)
Definition runCommand (command name : string) : M unit :=
  log ("Iniciando: " ++ name) ;;;
  match exec command with
  | ExecDone stdout stderr =>
      (if str_truthy stdout
       then log ("Salida de " ++ name ++ ":" ++ newline ++ stdout) else ret tt) ;;;
      (if str_truthy stderr
       then log ("Errores de " ++ name ++ ":" ++ newline ++ stderr) else ret tt) ;;;
      log ("Completado: " ++ name)
  | ExecFailed message stdout stderr =>
      log ("Error en " ++ name ++ ": " ++ message) ;;;
      log_if_present "Salida: " stdout ;;;
      log_if_present "Error detallado: " stderr ;;;
      throw (Error message)
  end.

(** The body of the loop over [pagesToRegenerate]. *)
Definition regenerate_page (path : string) : M unit :=
  try_catch
    (log ("Regenerando pagina: " ++ path) ;;;
     let revalidationSecret := env w "REVALIDATION_SECRET" in
     if negb (truthy_str revalidationSecret) then
       log "No se ha configurado REVALIDATION_SECRET en las variables de entorno"
     else
       let secret := match revalidationSecret with Some s => s | None => "" end in
       let baseUrl :=
         match or_str (env w "NEXT_PUBLIC_SITE_URL") (Some "http://localhost:3000") with
         | Some u => u
         | None => "http://localhost:3000"
         end in
       let revalidateUrl :=
         baseUrl ++ "/api/revalidate?path=" ++ encodeURIComponent path ++
         "&secret=" ++ secret in
       log ("Llamando al endpoint de revalidacion: " ++ revalidateUrl) ;;;
       match fetch w revalidateUrl with
       | FetchRejected e => throw e
       | FetchResolved ok st js =>
           data <- (match js with Returned j => ret j | Threw e => throw e end) ;;
           revalidated <- (if ok then get_prop (Some data) "revalidated" else ret None) ;;
           if ok && truthy_val revalidated then
             log ("Pagina revalidada exitosamente: " ++ path)
           else
             log ("Error al revalidar pagina " ++ path)
       end)
    (fun error =>
       log ("Error regenerando pagina " ++ path ++ ": " ++ String_of_exn error)).

(** Lines 70-78: the two fixed pages, then one page per slug; a slug
    whose conversion throws ends the [forEach]. *)
Definition pagesToRegenerate (slugs : list jsval) : M (list string) :=
  details <- array_map (fun slug => text <- template w slug ;;
                                    ret ("/news/" ++ text)) slugs ;;
  ret ("/" :: "/news" :: details).

(** The dynamic import of the articles module is taken to succeed. *)
Definition regenerateStaticPages : M unit :=
  log "Iniciando regeneracion de paginas estaticas" ;;;
  try_catch
    (slugs <- ArticleLists.fetchAllArticleSlugs w ;;
     log ("Obtenidos " ++ Articles.nat_to_string (List.length slugs) ++
          " slugs de articulos para regenerar") ;;;
     pages <- pagesToRegenerate slugs ;;
     log ("Se regeneraran " ++
          Articles.nat_to_string (List.length pages) ++
          " paginas estaticas") ;;;
     for_of regenerate_page pages ;;;
     log "Regeneracion de paginas estaticas completada")
    (fun error =>
       log ("Error durante la regeneracion de paginas: " ++ String_of_exn error) ;;;
       throw error).

(** [deploy]: the exit code of the process. *)
Definition deploy : M nat :=
  log "Iniciando proceso de despliegue" ;;;
  try_catch
    (regenerateStaticPages ;;;
     runCommand "npm run build" "Construccion de la aplicacion" ;;;
     log "Despliegue completado exitosamente" ;;;
     ret 0)
    (fun error =>
       log ("El proceso de despliegue fallo: " ++ String_of_exn error) ;;;
       ret 1).
End WithWorld.

End WebhookDeploy.

(** The pages whose regeneration was started and the URLs that were
    called, read off the log lines that announce them. *)
Definition after_prefix (p s : string) : option string :=
  if startsWith p s then Some (string_drop (String.length p) s) else None.

Fixpoint logged_after (p : string) (t : list event) : list string :=
  match t with
  | [] => []
  | ELog _ msg :: rest =>
      match after_prefix p msg with
      | Some x => x :: logged_after p rest
      | None => logged_after p rest
      end
  | _ :: rest => logged_after p rest
  end.

Definition pages_started (t : list event) : list string :=
  logged_after "Regenerando pagina: " t.

Definition urls_called (t : list event) : list string :=
  logged_after "Llamando al endpoint de revalidacion: " t.

(* ===================================================================== *)
(** ** The JavaScript upload script (third script of
       src/scripts/test-strapi.js, run as [scripts/upload-to-s3.js]) *)
(* ===================================================================== *)

Fixpoint string_rev (s : string) : string :=
  match s with
  | EmptyString => EmptyString
  | String c rest => string_rev rest ++ String c EmptyString
  end.

(** [s.endsWith(suffix)]. *)
Definition endsWith (suffix s : string) : bool :=
  startsWith (string_rev suffix) (string_rev s).

(** [path.basename] and [path.dirname] on a normalised path that is not
    the root. *)
Fixpoint basename (s : string) : string :=
  match s with
  | EmptyString => EmptyString
  | String c rest =>
      if includes "/" rest then basename rest
      else if Ascii.eqb c "/" then rest else s
  end.

Fixpoint dirname (s : string) : string :=
  match s with
  | EmptyString => "."
  | String c rest =>
      if includes "/" rest then String c (dirname rest)
      else if Ascii.eqb c "/" then EmptyString else "."
  end.

Module UploadToS3Js.

Record Metadata : Type := mkMetadata {
  ContentType : option string;
  CacheControl : option string;
  ContentDisposition : option string
}.

(** The [params] handed to [Upload]. *)
Record Params : Type := mkParams {
  Bucket : string;
  Key : string;
  params_ContentType : string;
  params_CacheControl : string;
  params_ContentDisposition : option string
}.

Definition LOG_FILE : string := "webhook-deploy-logs.txt".

Definition log (message : string) : M unit :=
  emit (ELog LOG_FILE message) ;;;
  emit (EConsole message).

Definition unwrap_or (d : string) (s : option string) : string :=
  match s with Some t => t | None => d end.

Definition isNewsArticle (relativePath : string) : bool :=
  startsWith "news/" relativePath && negb (startsWith "news/_" relativePath).

Definition isStaticAsset (relativePath : string) : bool :=
  startsWith "_next/" relativePath ||
  startsWith "static/" relativePath ||
  endsWith ".css" relativePath ||
  endsWith ".js" relativePath ||
  endsWith ".jpg" relativePath ||
  endsWith ".png" relativePath ||
  endsWith ".svg" relativePath.

(** The metadata that [uploadDirectoryToS3] builds for a file. *)
Definition metadata_of (contentType : string) : Metadata :=
  {| ContentType := Some contentType;
     CacheControl :=
       Some (if String.eqb contentType "text/html" then "max-age=300"
             else if startsWith "image/" contentType then "max-age=86400"
             else "max-age=31536000");
     ContentDisposition :=
       if String.eqb contentType "text/html" then Some "inline" else None |}.

Section WithWorld.
Variable w : World.

(** [path.join(process.cwd(), 'out')]. *)
Variable cwd_out : string.

Definition BUCKET_NAME : string :=
  unwrap_or "" (or_str (env w "AWS_S3_BUCKET")
                  (or_str (env w "AWS_S3_BUCKET_NAME") (Some ""))).

Definition OUT_DIR : string :=
  unwrap_or cwd_out (or_str (env w "UPLOAD_DIR") (Some cwd_out)).

Definition S3_PREFIX : string :=
  unwrap_or "" (or_str (env w "AWS_S3_PREFIX") (Some "")).

Definition params_of (filePath s3Key : string) (metadata : Metadata) : Params :=
  let contentType :=
    unwrap_or "application/octet-stream"
      (or_str (ContentType metadata)
         (or_str (mime_lookup w filePath) (Some "application/octet-stream"))) in
  {| Bucket := BUCKET_NAME;
     Key := s3Key;
     params_ContentType := contentType;
     params_CacheControl :=
       unwrap_or ""
         (or_str (CacheControl metadata)
            (Some (if includes "image/" contentType
                   then "public, max-age=31536000, immutable"
                   else if includes "text/html" contentType
                        then "public, max-age=0, must-revalidate"
                        else "public, max-age=604800")));
     params_ContentDisposition :=
       if String.eqb contentType "text/html" then Some "inline" else None |}.

Definition uploadFileToS3 (filePath s3Key : string) (metadata : Metadata) : M unit :=
  match readFileSync_throws w filePath with
  | Some e => throw e
  | None =>
      let params := params_of filePath s3Key metadata in
      try_catch
        (emit (EUpload (Key params) (params_ContentType params)
                 (params_CacheControl params)) ;;;
         match upload_throws w s3Key with
         | Some e => throw e
         | None =>
             log ("Archivo subido: " ++ s3Key ++ " (" ++ params_ContentType params ++ ")")
         end)
        (fun error =>
           log ("Error al subir " ++ s3Key ++ ": " ++ exn_message error) ;;;
           throw error)
  end.

(** One turn of the loop of [uploadDirectoryToS3] on the entry [file] of
    [directory]. *)
Fixpoint upload_entry (onlyNews : bool) (directory baseS3Path : string)
         (file : fs_node) : M unit :=
  match file with
  | FDir name children =>
      let filePath := entry_path directory name in
      let relativePath := path_relative OUT_DIR filePath in
      let shouldProcess :=
        negb onlyNews || isNewsArticle relativePath || isStaticAsset relativePath in
      let dirName := basename filePath in
      let parentDir := basename (dirname filePath) in
      (if String.eqb parentDir "news" && negb (startsWith "_" dirName) &&
          negb (startsWith "." dirName)
       then log ("Detectada noticia: " ++ dirName) else ret tt) ;;;
      if shouldProcess || String.eqb dirName "news" || String.eqb dirName "_next" ||
         String.eqb dirName "static"
      then for_of (upload_entry onlyNews filePath (entry_path baseS3Path name)) children
      else ret tt
  | FFile name =>
      let filePath := entry_path directory name in
      let relativePath := path_relative OUT_DIR filePath in
      let shouldProcess :=
        negb onlyNews || isNewsArticle relativePath || isStaticAsset relativePath in
      if shouldProcess then
        let s3Key := replace_backslashes (path_join S3_PREFIX relativePath) in
        let contentType :=
          unwrap_or "application/octet-stream"
            (or_str (mime_lookup w filePath) (Some "application/octet-stream")) in
        uploadFileToS3 filePath s3Key (metadata_of contentType)
      else ret tt
  end.

Definition uploadDirectoryToS3 (directory : string) (files : list fs_node)
           (baseS3Path : string) (onlyNews : bool) : M unit :=
  for_of (upload_entry onlyNews directory baseS3Path) files.

(** [main]: the exit code of the process. [out] is the listing of
    [OUT_DIR], or [None] when the directory does not exist. *)
Definition main (out : option (list fs_node)) : M nat :=
  log "Iniciando subida de archivos a S3..." ;;;
  if negb (str_truthy BUCKET_NAME) then
    log "Error: AWS_S3_BUCKET no esta definido" ;;;
    ret 1
  else
    match out with
    | None =>
        log ("Error: El directorio de salida " ++ OUT_DIR ++ " no existe") ;;;
        ret 1
    | Some files =>
        let onlyNews :=
          match env w "ONLY_NEWS" with
          | Some v => String.eqb v "true"
          | None => false
          end || true in
        (if onlyNews
         then log "Modo: Solo subir noticias y archivos necesarios"
         else log "Modo: Subir todos los archivos") ;;;
        try_catch
          (uploadDirectoryToS3 OUT_DIR files "" onlyNews ;;;
           log "Todos los archivos han sido subidos a S3 exitosamente" ;;;
           ret 0)
          (fun error =>
             log ("Error durante la subida a S3: " ++ exn_message error) ;;;
             ret 1)
    end.
End WithWorld.

End UploadToS3Js.

(** The uploads an execution started: key, content type, cache policy. *)
Fixpoint uploads (t : list event) : list (string * string * string) :=
  match t with
  | [] => []
  | EUpload key ct cc :: rest => (key, ct, cc) :: uploads rest
  | _ :: rest => uploads rest
  end.

(** A world in which [index.html] files are HTML and nothing fails. *)
Definition html_world : World :=
  {| env := fun k => if String.eqb k "AWS_S3_BUCKET" then Some "noticiero-static" else None;
     revalidatePath_throws := fun _ => None;
     revalidateTag_throws := fun _ => None;
     res_revalidate_throws := fun _ => None;
     Date_now := 0%Z;
     Date_toISOString := "1970-01-01T00:00:00.000Z";
     Number_toString := fun _ => "1e+21";
     fetch := fun _ => FetchRejected (TypeError "fetch failed");
     mime_lookup := sample_mime;
     readFileSync_throws := fun _ => None;
     upload_throws := fun _ => None |}.

(** What holds of every upload of the JavaScript script: the cache policy
    follows from the content type, and the key is that of a news page or
    of a static asset. *)
Definition js_upload_ok (w : World) (u : string * string * string) : Prop :=
  let '(key, ct, cc) := u in
  cc = (if String.eqb ct "text/html" then "max-age=300"
        else if startsWith "image/" ct then "max-age=86400"
        else "max-age=31536000") /\
  exists relativePath,
    key = replace_backslashes (path_join (UploadToS3Js.S3_PREFIX w) relativePath) /\
    (UploadToS3Js.isNewsArticle relativePath ||
     UploadToS3Js.isStaticAsset relativePath) = true.

Definition js_event_ok (w : World) (ev : event) : Prop :=
  match ev with
  | EUpload key ct cc => js_upload_ok w (key, ct, cc)
  | _ => True
  end.

(* ===================================================================== *)
(** * Properties *)
(* ===================================================================== *)

(** ** General facts about the values and the effect monad *)

Lemma str_truthy_false (s : string) : str_truthy s = false <-> s = "".
Proof. destruct s; simpl; split; congruence. Qed.

Lemma str_truthy_true (s : string) : str_truthy s = true <-> s <> "".
Proof. destruct s; simpl; split; congruence. Qed.

Lemma startsWith_app (p s : string) : startsWith p (p ++ s) = true.
Proof.
  induction p as [|a p IH]; simpl.
  - reflexivity.
  - now rewrite Ascii.eqb_refl, IH.
Qed.

Lemma includes_unfold (needle s : string) :
  includes needle s =
  startsWith needle s ||
  match s with
  | EmptyString => false
  | String _ s' => includes needle s'
  end.
Proof. destruct s; reflexivity. Qed.

Lemma includes_app (needle pre post : string) :
  includes needle (pre ++ needle ++ post) = true.
Proof.
  induction pre as [|a pre IH]; simpl.
  - rewrite includes_unfold, startsWith_app. reflexivity.
  - rewrite IH. apply orb_true_r.
Qed.

Lemma result_bind {A B} (m : M A) (k : A -> M B) (a : A) :
  result m = Returned a -> result (bind m k) = result (k a).
Proof.
  destruct m as [[x|e] t]; simpl; intros H; inversion H; subst.
  unfold result; simpl. destruct (k a); reflexivity.
Qed.

Lemma trace_bind {A B} (m : M A) (k : A -> M B) (a : A) :
  result m = Returned a -> trace (bind m k) = (trace m ++ trace (k a))%list.
Proof.
  destruct m as [[x|e] t]; simpl; intros H; inversion H; subst.
  unfold trace; simpl. destruct (k a); reflexivity.
Qed.

Lemma bind_threw {A B} (m : M A) (k : A -> M B) (e : exn) :
  result m = Threw e -> bind m k = (Threw e, trace m).
Proof.
  destruct m as [[x|e'] t]; simpl; intros H; inversion H; subst. reflexivity.
Qed.

(** ** The revalidation endpoint *)

Lemma isValidRequest_true_iff (w : World) (req : RevalidateRoute.NextRequest) :
  result (RevalidateRoute.isValidRequest w req) = Returned true <->
  exists s, s <> "" /\
            env w "REVALIDATION_SECRET" = Some s /\
            RevalidateRoute.searchParams_get req "secret" = Some s.
Proof.
  unfold RevalidateRoute.isValidRequest, truthy_str.
  destruct (env w "REVALIDATION_SECRET") as [e|] eqn:He;
    [destruct (str_truthy e) eqn:Te|]; cbn -[String.eqb].
  - destruct (RevalidateRoute.searchParams_get req "secret") as [s|] eqn:Hq;
      [destruct (str_truthy s) eqn:Ts|]; cbn -[String.eqb].
    + destruct (String.eqb_spec s e) as [Heq|Hne]; cbn -[String.eqb].
      * split; [|reflexivity]. intros _. exists e.
        apply str_truthy_true in Te. repeat split; congruence.
      * split; [discriminate|]. intros (s' & _ & H1 & H2). congruence.
    + split; [discriminate|]. intros (s' & Hs & H1 & H2).
      apply str_truthy_false in Ts. congruence.
    + split; [discriminate|]. intros (s' & _ & _ & H2). congruence.
  - split; [discriminate|]. intros (s & Hs & H1 & _).
    apply str_truthy_false in Te. congruence.
  - split; [discriminate|]. intros (s & _ & H1 & _). congruence.
Qed.

Lemma isValidRequest_total (w : World) (req : RevalidateRoute.NextRequest) :
  exists b, result (RevalidateRoute.isValidRequest w req) = Returned b.
Proof.
  unfold RevalidateRoute.isValidRequest.
  repeat match goal with
         | |- context [if ?c then _ else _] => destruct c
         end; simpl; eauto.
Qed.

Lemma isValidRequest_no_invalidation (w : World) (req : RevalidateRoute.NextRequest) :
  invalidations (trace (RevalidateRoute.isValidRequest w req)) = [].
Proof.
  unfold RevalidateRoute.isValidRequest.
  repeat match goal with
         | |- context [if ?c then _ else _] => destruct c
         end; reflexivity.
Qed.

Lemma GET_rejects (w : World) (req : RevalidateRoute.NextRequest) :
  result (RevalidateRoute.isValidRequest w req) = Returned false ->
  result (RevalidateRoute.GET w req) =
    Returned (mkResponse 401 (JObj [("error", JStr "Token invalido")])) /\
  invalidations (trace (RevalidateRoute.GET w req)) = [].
Proof.
  intros H. unfold RevalidateRoute.GET.
  pose proof (isValidRequest_no_invalidation w req) as Hn.
  destruct (RevalidateRoute.isValidRequest w req) as [[b|e] t];
    unfold result in H; simpl in H; inversion H; subst.
  unfold trace in *; simpl in *. split; [reflexivity|].
  unfold invalidations in *. rewrite !filter_app, Hn. reflexivity.
Qed.

(** C2. A GET request to the revalidation endpoint whose [secret] is absent
    or differs from the configured [REVALIDATION_SECRET] is answered with
    HTTP status 401; the response does not carry [revalidated: true] and no
    cache invalidation is performed. *)
Theorem revalidate_GET_bad_secret_401 (w : World) (req : RevalidateRoute.NextRequest) :
  RevalidateRoute.searchParams_get req "secret" = None \/
  RevalidateRoute.searchParams_get req "secret" <> env w "REVALIDATION_SECRET" ->
  exists r,
    result (RevalidateRoute.GET w req) = Returned r /\
    status r = 401 /\
    reports_revalidated r = false /\
    invalidations (trace (RevalidateRoute.GET w req)) = [].
Proof.
  intros Hbad.
  assert (Hf : result (RevalidateRoute.isValidRequest w req) = Returned false).
  { destruct (isValidRequest_total w req) as [[|] Hb]; [|exact Hb].
    apply isValidRequest_true_iff in Hb. destruct Hb as (s & _ & He & Hq).
    destruct Hbad as [Hnone|Hdiff]; congruence. }
  destruct (GET_rejects w req Hf) as [Hr Ht].
  eexists. split; [exact Hr|]. repeat split; assumption.
Qed.

Lemma revalidate_GET_bad_secret_401_witness :
  let w := with_env quiet_world (env_of [("REVALIDATION_SECRET", "s3cret")]) in
  let req := RevalidateRoute.mkRequest [("secret", "guess"); ("path", "/news")] in
  exists r,
    result (RevalidateRoute.GET w req) = Returned r /\
    status r = 401 /\
    reports_revalidated r = false /\
    invalidations (trace (RevalidateRoute.GET w req)) = [].
Proof.
  intros w req. apply (revalidate_GET_bad_secret_401 w req).
  right. vm_compute. discriminate.
Defined.

Lemma GET_accepts (w : World) (req : RevalidateRoute.NextRequest) (p : string) :
  result (RevalidateRoute.isValidRequest w req) = Returned true ->
  or_str (RevalidateRoute.searchParams_get req "path") (Some "/") = Some p ->
  revalidatePath_throws w p = None ->
  result (RevalidateRoute.GET w req) =
    Returned (mkResponse 200 (JObj [("revalidated", JBool true);
                                    ("now", JNum (Date_now w));
                                    ("path", JStr p)])) /\
  invalidations (trace (RevalidateRoute.GET w req)) = [ERevalidatePath p].
Proof.
  intros Hv Hp Hok. unfold RevalidateRoute.GET.
  pose proof (isValidRequest_no_invalidation w req) as Hn.
  destruct (RevalidateRoute.isValidRequest w req) as [[b|e] t];
    unfold result in Hv; simpl in Hv; inversion Hv; subst.
  rewrite Hp. unfold revalidatePath. rewrite Hok.
  unfold trace in *; simpl in *. split; [reflexivity|].
  unfold invalidations in *. rewrite !filter_app, Hn. reflexivity.
Qed.

(** C3 fails for the request [?secret=s3cret&path=]: the empty path is
    replaced by ["/"], which is what the response carries. *)
Lemma revalidate_echo_empty_path_counterexample : ~ revalidate_echo_as_stated.
Proof.
  intros H.
  destruct (H (with_env quiet_world (env_of [("REVALIDATION_SECRET", "s3cret")]))
              (RevalidateRoute.mkRequest [("secret", "s3cret"); ("path", "")])
              "s3cret" "") as (r & Hr & _ & Hp); try reflexivity.
  vm_compute in Hr. inversion Hr; subst. vm_compute in Hp. discriminate.
Qed.

(** C3, amended. A GET request carrying a non-empty secret equal to the
    configured [REVALIDATION_SECRET] and a non-empty path parameter [p] is
    answered, when the framework call [revalidatePath(p)] does not throw,
    with status 200 and the body [{revalidated: true, now, path: p}]; the
    one invalidation performed is that of [p]. *)
Theorem revalidate_GET_echoes_path
        (w : World) (req : RevalidateRoute.NextRequest) (s p : string) :
  s <> "" -> p <> "" ->
  env w "REVALIDATION_SECRET" = Some s ->
  RevalidateRoute.searchParams_get req "secret" = Some s ->
  RevalidateRoute.searchParams_get req "path" = Some p ->
  revalidatePath_throws w p = None ->
  result (RevalidateRoute.GET w req) =
    Returned (mkResponse 200 (JObj [("revalidated", JBool true);
                                    ("now", JNum (Date_now w));
                                    ("path", JStr p)])) /\
  invalidations (trace (RevalidateRoute.GET w req)) = [ERevalidatePath p].
Proof.
  intros Hs Hp He Hq Hpath Hok.
  apply GET_accepts; [| |exact Hok].
  - apply isValidRequest_true_iff. exists s. auto.
  - rewrite Hpath. unfold or_str, truthy_str.
    apply str_truthy_true in Hp. now rewrite Hp.
Qed.

Lemma revalidate_GET_echoes_path_witness :
  let w := with_env quiet_world (env_of [("REVALIDATION_SECRET", "s3cret")]) in
  let req := RevalidateRoute.mkRequest [("secret", "s3cret"); ("path", "/news/x")] in
  result (RevalidateRoute.GET w req) =
    Returned (mkResponse 200 (JObj [("revalidated", JBool true);
                                    ("now", JNum 0%Z);
                                    ("path", JStr "/news/x")])) /\
  invalidations (trace (RevalidateRoute.GET w req)) = [ERevalidatePath "/news/x"].
Proof.
  intros w req.
  apply (revalidate_GET_echoes_path w req "s3cret" "/news/x");
    solve [discriminate | reflexivity].
Defined.

(** C4 fails on the App Router handler for [?secret=s3cret]: the path
    defaults to ["/"], which is revalidated and reported with status 200. *)
Lemma missing_path_counterexample : ~ missing_path_rejected_as_stated.
Proof.
  intros H.
  destruct (H (with_env quiet_world (env_of [("REVALIDATION_SECRET", "s3cret")]))
              (RevalidateRoute.mkRequest [("secret", "s3cret")]))
    as (r & Hr & Hst & _); try reflexivity.
  vm_compute in Hr. inversion Hr; subst. simpl in Hst. lia.
Qed.

(** C4, amended. With a valid secret and no path parameter, the Pages
    Router handler answers 400 "Path is required" and revalidates nothing,
    while the App Router handler takes ["/"] as the path, revalidates it
    and, when that call does not throw, answers 200 with
    [{revalidated: true, now, path: "/"}]. *)
Theorem missing_path_pages_rejects_app_defaults
        (w : World) (preq : PagesRevalidate.NextApiRequest)
        (req : RevalidateRoute.NextRequest) (s : string) :
  s <> "" ->
  env w "REVALIDATION_SECRET" = Some s ->
  assoc "secret" (PagesRevalidate.query preq) = Some (JStr s) ->
  assoc "path" (PagesRevalidate.query preq) = None ->
  RevalidateRoute.searchParams_get req "secret" = Some s ->
  RevalidateRoute.searchParams_get req "path" = None ->
  revalidatePath_throws w "/" = None ->
  PagesRevalidate.handler w preq =
    (Returned (mkResponse 400 (JObj [("message", JStr "Path is required")])), []) /\
  result (RevalidateRoute.GET w req) =
    Returned (mkResponse 200 (JObj [("revalidated", JBool true);
                                    ("now", JNum (Date_now w));
                                    ("path", JStr "/")])) /\
  invalidations (trace (RevalidateRoute.GET w req)) = [ERevalidatePath "/"].
Proof.
  intros Hs He Hps Hpp Hq Hpath Hok. split.
  - unfold PagesRevalidate.handler, PagesRevalidate.differs.
    rewrite Hps, He, Hpp, String.eqb_refl. reflexivity.
  - apply GET_accepts; [| |exact Hok].
    + apply isValidRequest_true_iff. exists s. auto.
    + rewrite Hpath. reflexivity.
Qed.

Lemma missing_path_pages_rejects_app_defaults_witness :
  let w := with_env quiet_world (env_of [("REVALIDATION_SECRET", "s3cret")]) in
  let preq := PagesRevalidate.mkRequest [("secret", JStr "s3cret")] in
  let req := RevalidateRoute.mkRequest [("secret", "s3cret")] in
  PagesRevalidate.handler w preq =
    (Returned (mkResponse 400 (JObj [("message", JStr "Path is required")])), []) /\
  result (RevalidateRoute.GET w req) =
    Returned (mkResponse 200 (JObj [("revalidated", JBool true);
                                    ("now", JNum 0%Z);
                                    ("path", JStr "/")])) /\
  invalidations (trace (RevalidateRoute.GET w req)) = [ERevalidatePath "/"].
Proof.
  intros w preq req.
  apply (missing_path_pages_rejects_app_defaults w preq req "s3cret");
    solve [discriminate | reflexivity].
Defined.

(** ** The CMS webhook endpoint *)

Lemma validateWebhook_total (w : World) (req : WebhookRoute.NextRequest) :
  exists b, result (WebhookRoute.validateWebhook w req) = Returned b.
Proof.
  unfold WebhookRoute.validateWebhook.
  repeat match goal with
         | |- context [if ?c then _ else _] => destruct c
         end; simpl; eauto.
Qed.

Lemma validateWebhook_no_invalidation (w : World) (req : WebhookRoute.NextRequest) :
  invalidations (trace (WebhookRoute.validateWebhook w req)) = [].
Proof.
  unfold WebhookRoute.validateWebhook.
  repeat match goal with
         | |- context [if ?c then _ else _] => destruct c
         end; reflexivity.
Qed.

(** Outside development mode a request is accepted exactly when the token
    it carries is the configured, non-empty [WEBHOOK_TOKEN]. *)
Lemma validateWebhook_production (w : World) (req : WebhookRoute.NextRequest) :
  is_development w = false ->
  (result (WebhookRoute.validateWebhook w req) = Returned true <->
   exists t, t <> "" /\ env w "WEBHOOK_TOKEN" = Some t /\
             WebhookRoute.received_token req = Some t).
Proof.
  intros Hdev. unfold WebhookRoute.validateWebhook, truthy_str. rewrite Hdev.
  destruct (env w "WEBHOOK_TOKEN") as [e|] eqn:He;
    [destruct (str_truthy e) eqn:Te|]; cbn -[String.eqb WebhookRoute.received_token].
  - destruct (WebhookRoute.received_token req) as [t|] eqn:Ht;
      cbn -[String.eqb].
    + destruct (String.eqb_spec t e) as [Heq|Hne]; cbn -[String.eqb].
      * split; [|reflexivity]. intros _. exists e.
        apply str_truthy_true in Te. repeat split; congruence.
      * split; [discriminate|]. intros (t' & _ & H1 & H2). congruence.
    + split; [discriminate|]. intros (t' & _ & _ & H2). congruence.
  - split; [discriminate|]. intros (t & Hs & H1 & _).
    apply str_truthy_false in Te. congruence.
  - split; [discriminate|]. intros (t & _ & H1 & _). congruence.
Qed.

(** C10. Both token checks fail closed when unconfigured. With
    [REVALIDATION_SECRET] unset, [isValidRequest] returns false and the
    revalidation endpoint answers 401 whatever secret is supplied; with
    [WEBHOOK_TOKEN] unset, [validateWebhook] returns false whatever token
    is supplied and whatever [NODE_ENV] is. *)
Theorem token_checks_fail_closed (w : World) :
  (env w "REVALIDATION_SECRET" = None ->
   forall req : RevalidateRoute.NextRequest,
     result (RevalidateRoute.isValidRequest w req) = Returned false /\
     result (RevalidateRoute.GET w req) =
       Returned (mkResponse 401 (JObj [("error", JStr "Token invalido")]))) /\
  (env w "WEBHOOK_TOKEN" = None ->
   forall req : WebhookRoute.NextRequest,
     result (WebhookRoute.validateWebhook w req) = Returned false).
Proof.
  split.
  - intros He req.
    assert (Hf : result (RevalidateRoute.isValidRequest w req) = Returned false).
    { unfold RevalidateRoute.isValidRequest. rewrite He. reflexivity. }
    split; [exact Hf|]. apply (GET_rejects w req Hf).
  - intros He req. unfold WebhookRoute.validateWebhook. rewrite He. reflexivity.
Qed.

Lemma token_checks_fail_closed_witness :
  let w := with_env quiet_world (env_of [("NODE_ENV", "development")]) in
  let req := RevalidateRoute.mkRequest [("secret", "anything"); ("path", "/")] in
  let hook :=
    WebhookRoute.mkRequest "http://localhost:3000/api/webhook?token=anything" "POST"
      [("x-webhook-token", "anything")] [("token", "anything")]
      (Returned (JObj [("event", JStr "entry.publish")])) in
  (result (RevalidateRoute.isValidRequest w req) = Returned false /\
   result (RevalidateRoute.GET w req) =
     Returned (mkResponse 401 (JObj [("error", JStr "Token invalido")]))) /\
  result (WebhookRoute.validateWebhook w hook) = Returned false.
Proof.
  intros w req hook.
  destruct (token_checks_fail_closed w) as [Hrev Hhook].
  split.
  - apply Hrev. reflexivity.
  - apply Hhook. reflexivity.
Defined.

Lemma not_development (w : World) :
  env w "NODE_ENV" <> Some "development" -> is_development w = false.
Proof.
  intros H. unfold is_development.
  destruct (env w "NODE_ENV") as [m|]; [|reflexivity].
  destruct (String.eqb_spec m "development"); congruence.
Qed.

Lemma second_attempt_nonempty (w : World) (req : WebhookRoute.NextRequest)
      (fields : list (string * json)) :
  fields <> [] ->
  WebhookRoute.second_attempt w req (JObj fields) = (Returned (inr (JObj fields)), []).
Proof.
  intros H. destruct fields as [|f fs]; [congruence|]. reflexivity.
Qed.

Lemma assoc_Some_nonempty {A} (k : string) (l : list (string * A)) (v : A) :
  assoc k l = Some v -> l <> [].
Proof. destruct l; simpl; congruence. Qed.

Lemma dispatch_article (w : World) (fields entry : list (string * json))
      (ev model slug : string) :
  is_development w = false ->
  assoc "event" fields = Some (JStr ev) ->
  In ev article_events ->
  assoc "model" fields = Some (JStr model) ->
  In model article_models ->
  assoc "entry" fields = Some (JObj entry) ->
  assoc "slug" entry = Some (JStr slug) ->
  slug <> "" ->
  (forall p, revalidatePath_throws w p = None) ->
  (forall t, revalidateTag_throws w t = None) ->
  WebhookRoute.dispatch w (JObj fields) =
    (Returned
       (mkResponse 200
          (JObj [("success", JBool true);
                 ("revalidated", JBool true);
                 ("message", JStr "Paginas revalidadas exitosamente");
                 ("paths", JArr [JStr "/"; JStr "/news"; JStr ("/news/" ++ slug)])])),
     [ELog WebhookRoute.LOG_FILE ("Slug del articulo: " ++ slug);
      ELog WebhookRoute.LOG_FILE "Evento valido para revalidacion";
      ERevalidatePath "/"; ERevalidatePath "/news";
      ERevalidateTag "articles"; ERevalidateTag "home";
      ERevalidatePath ("/news/" ++ slug);
      ERevalidateTag ("article-" ++ slug);
      ELog WebhookRoute.LOG_FILE ("Revalidada pagina especifica: /news/" ++ slug)]).
Proof.
  intros Hdev Hev Hin Hmodel Hinm Hentry Hslug Hne Hp Ht.
  apply str_truthy_true in Hne.
  unfold WebhookRoute.dispatch, WebhookRoute.revalidate_main_pages,
    revalidatePath, revalidateTag, get_prop.
  rewrite Hev, Hmodel, Hentry, Hdev.
  cbn [get_opt truthy_val truthy andb bind ret fst snd].
  rewrite Hslug. cbn [truthy_val truthy js_toString]. rewrite Hne.
  rewrite !Hp, !Ht.
  assert (He : (is_str (Some (JStr ev)) "entry.create" ||
                is_str (Some (JStr ev)) "entry.update" ||
                is_str (Some (JStr ev)) "entry.publish" ||
                is_str (Some (JStr ev)) "entry.unpublish") = true).
  { simpl in Hin.
    destruct Hin as [<-|[<-|[<-|[<-|[]]]]]; reflexivity. }
  assert (Hm : (is_str (Some (JStr model)) "article" ||
                is_str (Some (JStr model)) "articles") = true).
  { simpl in Hinm. destruct Hinm as [<-|[<-|[]]]; reflexivity. }
  rewrite He, Hm.
  repeat (cbn; rewrite ?Hne, ?Hp, ?Ht). reflexivity.
Qed.

Lemma POST_dispatch (w : World) (req : WebhookRoute.NextRequest)
      (fields : list (string * json)) (r : Response) (t : list event) :
  result (WebhookRoute.validateWebhook w req) = Returned true ->
  WebhookRoute.request_json req = Returned (JObj fields) ->
  fields <> [] ->
  WebhookRoute.dispatch w (JObj fields) = (Returned r, t) ->
  result (WebhookRoute.POST w req) = Returned r /\
  invalidations (trace (WebhookRoute.POST w req)) = invalidations t.
Proof.
  intros Hv Hjson Hne Hd. unfold WebhookRoute.POST.
  pose proof (validateWebhook_no_invalidation w req) as Hn.
  rewrite Hjson.
  destruct (WebhookRoute.validateWebhook w req) as [[b|e] tv];
    unfold result in Hv; simpl in Hv; inversion Hv; subst.
  cbn [WebhookRoute.json_of WebhookRoute.log emit ret bind try_catch negb app].
  rewrite (second_attempt_nonempty w req fields Hne).
  cbn [bind]. rewrite Hd.
  unfold result, trace in *; simpl in *. split; [reflexivity|].
  unfold invalidations in *. rewrite !filter_app, Hn. reflexivity.
Qed.

(** The claim C1 holds for a non-empty slug when the framework calls
    return. *)
Lemma article_event_claim_holds :
  article_event_claim (fun w x => x <> "" /\ framework_returns w).
Proof.
  intros w req fields entry ev x Hmode Hv Hjson Hev Hin Hmodel Hentry Hslug
         [Hx [Hp Ht]].
  pose proof (dispatch_article w fields entry ev "article" x
                (not_development w Hmode) Hev Hin Hmodel (or_introl eq_refl)
                Hentry Hslug Hx Hp Ht) as Hd.
  destruct (POST_dispatch w req fields _ _ Hv Hjson
              (assoc_Some_nonempty _ _ _ Hev) Hd) as [Hr _].
  eexists. split; [exact Hr|].
  split; [reflexivity|]. split; [reflexivity|].
  repeat split; eexists; (split; [reflexivity|]); simpl; tauto.
Qed.

(** C1 does not hold as stated: when the framework refuses the
    invalidation of ["/"], the request of the claim, with slug ["x"], is
    answered with status 500 and without [success: true]. Neither of the
    two conditions of the amended claim can be dropped: with an empty slug
    the path of the article is not listed even when the framework calls
    return, and with a non-empty slug the answer is still 500 when they
    throw. *)
Lemma article_event_counterexample :
  ~ article_event_as_stated /\
  ~ article_event_claim (fun w _ => framework_returns w) /\
  ~ article_event_claim (fun _ x => x <> "").
Proof.
  pose (failing := with_revalidatePath production_world
                     (fun _ => Some (Error "static generation store missing"))).
  pose (body_of := fun slug : string =>
                     [("event", JStr "entry.publish"); ("model", JStr "article");
                      ("entry", JObj [("slug", JStr slug)])]).
  split; [|split]; intros H.
  - destruct (H failing (webhook_request (JObj (body_of "x"))) (body_of "x")
                [("slug", JStr "x")] "entry.publish" "x")
      as (r & Hr & Hs & _);
      try solve [discriminate | reflexivity | simpl; tauto].
    vm_compute in Hr. inversion Hr; subst r. discriminate Hs.
  - destruct (H production_world (webhook_request (JObj (body_of ""))) (body_of "")
                [("slug", JStr "")] "entry.publish" "")
      as (r & Hr & _ & _ & _ & _ & l & Hl & Hin);
      try solve [discriminate | reflexivity | simpl; tauto
                | split; intros; reflexivity].
    vm_compute in Hr. inversion Hr; subst r.
    vm_compute in Hl. inversion Hl; subst l.
    simpl in Hin. destruct Hin as [E|[E|[]]]; discriminate E.
  - destruct (H failing (webhook_request (JObj (body_of "x"))) (body_of "x")
                [("slug", JStr "x")] "entry.publish" "x")
      as (r & Hr & Hs & _);
      try solve [discriminate | reflexivity | simpl; tauto].
    vm_compute in Hr. inversion Hr; subst r. discriminate Hs.
Qed.

(** With an empty slug the article page is not among the paths, whatever
    the framework does. *)
Example webhook_POST_empty_slug :
  let fields := [("event", JStr "entry.publish"); ("model", JStr "article");
                 ("entry", JObj [("slug", JStr "")])] in
  let r := mkResponse 200
             (JObj [("success", JBool true);
                    ("revalidated", JBool true);
                    ("message", JStr "Paginas revalidadas exitosamente");
                    ("paths", JArr [JStr "/"; JStr "/news"])]) in
  result (WebhookRoute.POST production_world (webhook_request (JObj fields))) =
    Returned r /\
  ~ paths_include r "/news/".
Proof.
  split; [reflexivity|].
  intros (l & Hl & Hin). inversion Hl; subst l.
  simpl in Hin. destruct Hin as [H|[H|[]]]; discriminate H.
Qed.

(** C1, amended. A webhook POST that passes token validation outside development
    mode, whose JSON body has one of the four entry events, the model
    ["article"] (or ["articles"]) and a non-empty [entry.slug] [x], is
    answered, the framework calls returning normally, with status 200,
    [success: true], [revalidated: true] and
    [paths = ["/", "/news", "/news/x"]]; the home page, the listing, the
    article page and the three tags are invalidated. *)
Theorem webhook_POST_article_event
        (w : World) (req : WebhookRoute.NextRequest)
        (fields entry : list (string * json)) (ev model x : string) :
  env w "NODE_ENV" <> Some "development" ->
  result (WebhookRoute.validateWebhook w req) = Returned true ->
  WebhookRoute.request_json req = Returned (JObj fields) ->
  assoc "event" fields = Some (JStr ev) ->
  In ev article_events ->
  assoc "model" fields = Some (JStr model) ->
  In model article_models ->
  assoc "entry" fields = Some (JObj entry) ->
  assoc "slug" entry = Some (JStr x) ->
  x <> "" ->
  (forall p, revalidatePath_throws w p = None) ->
  (forall t, revalidateTag_throws w t = None) ->
  exists r,
    result (WebhookRoute.POST w req) = Returned r /\
    status r = 200 /\
    reports_success r = true /\
    reports_revalidated r = true /\
    response_paths r = Some (JArr [JStr "/"; JStr "/news"; JStr ("/news/" ++ x)]) /\
    invalidations (trace (WebhookRoute.POST w req)) =
      [ERevalidatePath "/"; ERevalidatePath "/news";
       ERevalidateTag "articles"; ERevalidateTag "home";
       ERevalidatePath ("/news/" ++ x); ERevalidateTag ("article-" ++ x)].
Proof.
  intros Hmode Hv Hjson Hev Hin Hmodel Hinm Hentry Hslug Hx Hp Ht.
  pose proof (dispatch_article w fields entry ev model x
                (not_development w Hmode) Hev Hin Hmodel Hinm Hentry Hslug Hx Hp Ht)
    as Hd.
  destruct (POST_dispatch w req fields _ _ Hv Hjson
              (assoc_Some_nonempty _ _ _ Hev) Hd) as [Hr Htr].
  eexists. split; [exact Hr|]. rewrite Htr.
  repeat split; reflexivity.
Qed.

Lemma webhook_POST_article_event_witness :
  let w := with_env quiet_world
             (env_of [("NODE_ENV", "production"); ("WEBHOOK_TOKEN", "t0ken")]) in
  let fields := [("event", JStr "entry.publish"); ("model", JStr "article");
                 ("entry", JObj [("id", JNum 7); ("slug", JStr "x")])] in
  let req :=
    WebhookRoute.mkRequest "https://site.example/api/webhook" "POST"
      [("content-type", "application/json"); ("x-webhook-token", "t0ken")] []
      (Returned (JObj fields)) in
  exists r,
    result (WebhookRoute.POST w req) = Returned r /\
    status r = 200 /\
    reports_success r = true /\
    reports_revalidated r = true /\
    response_paths r = Some (JArr [JStr "/"; JStr "/news"; JStr "/news/x"]) /\
    invalidations (trace (WebhookRoute.POST w req)) =
      [ERevalidatePath "/"; ERevalidatePath "/news";
       ERevalidateTag "articles"; ERevalidateTag "home";
       ERevalidatePath "/news/x"; ERevalidateTag "article-x"].
Proof.
  intros w fields req.
  apply (webhook_POST_article_event w req fields
           [("id", JNum 7); ("slug", JStr "x")] "entry.publish" "article" "x");
    try solve [discriminate | reflexivity | intros; reflexivity].
  - simpl. tauto.
  - simpl. tauto.
Defined.

Lemma printable_Some (v : json) :
  printable (Some v) = true <-> conversion_error v = None.
Proof.
  unfold printable. destruct (conversion_error v); split; congruence.
Qed.

Lemma template_printable (w : World) (v : jsval) :
  printable v = true -> exists text, template w v = (Returned text, []).
Proof.
  destruct v as [j|]; [|intros _; eexists; reflexivity].
  intros H. apply printable_Some in H. unfold template, js_toString.
  rewrite H. eexists. reflexivity.
Qed.

Lemma template_unprintable (w : World) (v : jsval) :
  printable v = false -> exists e, template w v = (Threw e, []).
Proof.
  destruct v as [j|]; [|discriminate].
  unfold printable, template, js_toString.
  destruct (conversion_error j) as [e|]; [|discriminate].
  intros _. exists e. reflexivity.
Qed.

Lemma read_slug_printable (w : World) (entry : jsval) :
  printable (get_opt entry "slug") = true ->
  exists slug t,
    read_slug w entry = (Returned slug, t) /\ invalidations t = [] /\
    conversion_error slug = None.
Proof.
  intros H. unfold read_slug.
  destruct (truthy_val entry && truthy_val (get_opt entry "slug"));
    [|eexists; eexists; repeat split; reflexivity].
  destruct (get_opt entry "slug") as [s|].
  - apply printable_Some in H. unfold js_toString. rewrite H.
    eexists; eexists. split; [reflexivity|]. split; [reflexivity|exact H].
  - eexists; eexists; repeat split; reflexivity.
Qed.

Lemma read_slug_unprintable (w : World) (entry : jsval) :
  truthy_val entry = true ->
  printable (get_opt entry "slug") = false ->
  exists e, read_slug w entry = (Threw e, []).
Proof.
  intros He H. unfold read_slug. rewrite He.
  destruct (get_opt entry "slug") as [s|]; [|discriminate].
  unfold printable in H. cbn [truthy_val andb].
  destruct (conversion_error s) as [e|] eqn:E; [|discriminate].
  assert (Ht : truthy s = true).
  { destruct s; try discriminate; reflexivity. }
  rewrite Ht. unfold js_toString. rewrite E. exists e. reflexivity.
Qed.

Lemma get_opt_falsy (entry : jsval) (k : string) :
  truthy_val entry = false -> get_opt entry k = None.
Proof.
  destruct entry as [[| | | | |]|]; try reflexivity; try discriminate.
Qed.

Lemma dispatch_ignored (w : World) (fields : list (string * json)) :
  is_development w = false ->
  is_str (assoc "model" fields) "article" = false ->
  is_str (assoc "model" fields) "articles" = false ->
  exists t,
    invalidations t = [] /\
    if printable (assoc "event" fields) && printable (assoc "model" fields) &&
       printable (get_opt (assoc "entry" fields) "slug")
    then
      WebhookRoute.dispatch w (JObj fields) =
        (Returned
           (mkResponse 200
              (JObj [("success", JBool true);
                     ("message", JStr "Evento recibido pero no requiere revalidacion")])),
         t)
    else exists e, WebhookRoute.dispatch w (JObj fields) = (Threw e, t).
Proof.
  intros Hdev H1 H2.
  unfold WebhookRoute.dispatch, get_prop.
  cbn [bind ret fst snd app]. rewrite Hdev, H1, H2.
  cbn [orb]. rewrite andb_false_r.
  fold (read_slug w (assoc "entry" fields)).
  destruct (printable (get_opt (assoc "entry" fields) "slug")) eqn:Hs.
  - destruct (read_slug_printable w _ Hs) as (slug & t & -> & Ht & _).
    destruct (printable (assoc "event" fields)) eqn:He.
    + destruct (template_printable w _ He) as (te & ->).
      destruct (printable (assoc "model" fields)) eqn:Hm.
      * destruct (template_printable w _ Hm) as (tm & ->).
        eexists. split; [|reflexivity].
        unfold invalidations in *. cbn. rewrite !filter_app, Ht. reflexivity.
      * destruct (template_unprintable w _ Hm) as (e & ->).
        eexists. split; [|exists e; reflexivity].
        unfold invalidations in *. cbn. rewrite !filter_app, Ht. reflexivity.
    + destruct (template_unprintable w _ He) as (e & ->).
      eexists. split; [|exists e; reflexivity].
      unfold invalidations in *. cbn. rewrite !filter_app, Ht. reflexivity.
  - rewrite andb_false_r.
    destruct (truthy_val (assoc "entry" fields)) eqn:Hentry.
    + destruct (read_slug_unprintable w _ Hentry Hs) as (e & ->).
      exists []. split; [reflexivity|exists e; reflexivity].
    + rewrite (get_opt_falsy _ "slug" Hentry) in Hs. discriminate.
Qed.

Lemma POST_dispatch_throws (w : World) (req : WebhookRoute.NextRequest)
      (fields : list (string * json)) (e : exn) (t : list event) :
  result (WebhookRoute.validateWebhook w req) = Returned true ->
  WebhookRoute.request_json req = Returned (JObj fields) ->
  fields <> [] ->
  WebhookRoute.dispatch w (JObj fields) = (Threw e, t) ->
  result (WebhookRoute.POST w req) =
    Returned (mkResponse 500
                (JObj [("error", JStr "Error interno del servidor");
                       ("details", JStr (exn_message e))])) /\
  invalidations (trace (WebhookRoute.POST w req)) = invalidations t.
Proof.
  intros Hv Hjson Hne Hd. unfold WebhookRoute.POST.
  pose proof (validateWebhook_no_invalidation w req) as Hn.
  rewrite Hjson.
  destruct (WebhookRoute.validateWebhook w req) as [[b|e0] tv];
    unfold result in Hv; simpl in Hv; inversion Hv; subst.
  cbn [WebhookRoute.json_of WebhookRoute.log emit ret bind try_catch negb app].
  rewrite (second_attempt_nonempty w req fields Hne).
  cbn [bind]. rewrite Hd.
  unfold result, trace in *; simpl in *. split; [reflexivity|].
  unfold invalidations in *. rewrite !filter_app, Hn. cbn. rewrite app_nil_r. reflexivity.
Qed.

(** The claim C6 holds for a body whose model, event and slug can be
    converted to strings. *)
Lemma unrecognized_model_claim_holds :
  unrecognized_model_claim
    (fun fields => printable (assoc "model" fields) = true /\
                   printable (assoc "event" fields) = true /\
                   printable (get_opt (assoc "entry" fields) "slug") = true).
Proof.
  intros w req fields model Hmode Hv Hjson Hmodel Hna Hnas (Pm & Pe & Ps).
  assert (Hs : forall s, model <> JStr s -> is_str (assoc "model" fields) s = false).
  { intros s Hs. rewrite Hmodel. unfold is_str.
    destruct model; try reflexivity.
    destruct (String.eqb_spec s0 s); congruence. }
  destruct (dispatch_ignored w fields (not_development w Hmode)
              (Hs _ Hna) (Hs _ Hnas)) as (t & Ht & Hd).
  rewrite Pm, Pe, Ps in Hd. cbn [andb] in Hd.
  destruct (POST_dispatch w req fields _ _ Hv Hjson
              (assoc_Some_nonempty _ _ _ Hmodel) Hd) as [Hr Htr].
  eexists. split; [exact Hr|]. rewrite Htr, Ht. split; reflexivity.
Qed.

(** C6 does not hold as stated: a body whose model is an object with a
    key [toString] cannot be written to the log line of the ignored
    event, and the request is answered with status 500. The same happens
    when the model can be written but the event cannot, and when both can
    but the slug of the entry cannot. *)
Lemma unrecognized_model_counterexample :
  ~ unrecognized_model_as_stated /\
  ~ unrecognized_model_claim
      (fun fields => printable (assoc "model" fields) = true) /\
  ~ unrecognized_model_claim
      (fun fields => printable (assoc "model" fields) = true /\
                     printable (assoc "event" fields) = true).
Proof.
  pose (opaque := JObj [("toString", JNum 1)]).
  split; [|split]; intros H.
  - pose (fields := [("model", opaque)]).
    destruct (H production_world (webhook_request (JObj fields)) fields opaque)
      as (r & Hr & Hs & _);
      try solve [discriminate | reflexivity].
    vm_compute in Hr. inversion Hr; subst r. discriminate Hs.
  - pose (fields := [("event", opaque); ("model", JStr "category")]).
    destruct (H production_world (webhook_request (JObj fields)) fields (JStr "category"))
      as (r & Hr & Hs & _);
      try solve [discriminate | reflexivity].
    vm_compute in Hr. inversion Hr; subst r. discriminate Hs.
  - pose (fields := [("event", JStr "entry.update"); ("model", JStr "category");
                     ("entry", JObj [("slug", opaque)])]).
    destruct (H production_world (webhook_request (JObj fields)) fields (JStr "category"))
      as (r & Hr & Hs & _);
      try solve [discriminate | reflexivity | split; reflexivity].
    vm_compute in Hr. inversion Hr; subst r. discriminate Hs.
Qed.

(** C6, amended. A webhook POST that passes token validation outside
    development mode, whose JSON body carries a model other than
    ["article"] and ["articles"], triggers no path or tag invalidation
    and is never answered with [revalidated: true]. When the event, the
    model and [entry.slug] of the body can be converted to strings, the
    answer has status 200 and [success: true]; otherwise the conversion
    throws and the answer has status 500 and no [success: true]. *)
Theorem webhook_POST_unrecognized_model
        (w : World) (req : WebhookRoute.NextRequest)
        (fields : list (string * json)) (model : json) :
  env w "NODE_ENV" <> Some "development" ->
  result (WebhookRoute.validateWebhook w req) = Returned true ->
  WebhookRoute.request_json req = Returned (JObj fields) ->
  assoc "model" fields = Some model ->
  model <> JStr "article" ->
  model <> JStr "articles" ->
  exists r,
    result (WebhookRoute.POST w req) = Returned r /\
    invalidations (trace (WebhookRoute.POST w req)) = [] /\
    reports_revalidated r = false /\
    if printable (assoc "event" fields) && printable (Some model) &&
       printable (get_opt (assoc "entry" fields) "slug")
    then status r = 200 /\ reports_success r = true
    else status r = 500 /\ reports_success r = false.
Proof.
  intros Hmode Hv Hjson Hmodel Hna Hnas.
  assert (Hs : forall s, model <> JStr s -> is_str (assoc "model" fields) s = false).
  { intros s Hs. rewrite Hmodel. unfold is_str.
    destruct model; try reflexivity.
    destruct (String.eqb_spec s0 s); congruence. }
  destruct (dispatch_ignored w fields (not_development w Hmode)
              (Hs _ Hna) (Hs _ Hnas)) as (t & Ht & Hd).
  rewrite Hmodel in Hd.
  destruct (printable (assoc "event" fields) && printable (Some model) &&
            printable (get_opt (assoc "entry" fields) "slug")).
  - destruct (POST_dispatch w req fields _ _ Hv Hjson
                (assoc_Some_nonempty _ _ _ Hmodel) Hd) as [Hr Htr].
    eexists. split; [exact Hr|]. rewrite Htr, Ht.
    repeat split; reflexivity.
  - destruct Hd as (e & Hd).
    destruct (POST_dispatch_throws w req fields _ _ Hv Hjson
                (assoc_Some_nonempty _ _ _ Hmodel) Hd) as [Hr Htr].
    eexists. split; [exact Hr|]. rewrite Htr, Ht.
    repeat split; reflexivity.
Qed.

Lemma webhook_POST_unrecognized_model_witness :
  let w := with_env quiet_world
             (env_of [("NODE_ENV", "production"); ("WEBHOOK_TOKEN", "t0ken")]) in
  let fields := [("event", JStr "entry.update"); ("model", JStr "category");
                 ("entry", JObj [("id", JNum 3); ("slug", JStr "deportes")])] in
  let req :=
    WebhookRoute.mkRequest "https://site.example/api/webhook?token=t0ken" "POST"
      [("content-type", "application/json")] [("token", "t0ken")]
      (Returned (JObj fields)) in
  exists r,
    result (WebhookRoute.POST w req) = Returned r /\
    invalidations (trace (WebhookRoute.POST w req)) = [] /\
    reports_revalidated r = false /\
    status r = 200 /\ reports_success r = true.
Proof.
  intros w fields req.
  apply (webhook_POST_unrecognized_model w req fields (JStr "category"));
    solve [discriminate | reflexivity].
Defined.

(** ** Fetching and mapping articles *)

Lemma try_catch_total {A} (m : M A) (h : exn -> M A) :
  (forall e, exists a, result (h e) = Returned a) ->
  exists a, result (try_catch m h) = Returned a.
Proof.
  intros Hh. destruct m as [[a|e] t]; simpl.
  - exists a. reflexivity.
  - destruct (Hh e) as [a Ha]. exists a.
    destruct (h e) as [r t2]. exact Ha.
Qed.

(** [fetchArticles] and [fetchArticleBySlug] always return: whatever goes
    wrong is caught. *)
Lemma fetchArticles_never_throws (w : World) :
  exists l, result (Articles.fetchArticles w) = Returned l.
Proof.
  unfold Articles.fetchArticles. apply try_catch_total.
  intros e. exists []. reflexivity.
Qed.

Lemma fetchArticleBySlug_never_throws (w : World) (slug : string) :
  exists a, result (Articles.fetchArticleBySlug w slug) = Returned a.
Proof.
  unfold Articles.fetchArticleBySlug. apply try_catch_total.
  intros e. exists None. reflexivity.
Qed.

(** C8. When the CMS answers the article listing with a body whose [data]
    field is the empty list, [fetchArticles] returns the empty list (and
    so does not throw), whatever the HTTP status of the answer. *)
Theorem fetchArticles_empty_data
        (w : World) (ok : bool) (st : nat) (fields : list (string * json)) :
  fetch w (Articles.STRAPI_URL w ++ "/api/articles?populate=*") =
    FetchResolved ok st (Returned (JObj fields)) ->
  assoc "data" fields = Some (JArr []) ->
  result (Articles.fetchArticles w) = Returned [].
Proof.
  intros Hf Hd. unfold Articles.fetchArticles, Articles.fetch_json.
  rewrite Hf. destruct ok; cbn.
  - rewrite Hd. reflexivity.
  - reflexivity.
Qed.

Lemma fetchArticles_empty_data_witness :
  let w := with_fetch quiet_world
             (fun _ => FetchResolved true 200
                         (Returned (JObj [("data", JArr []);
                                          ("meta", JObj [("pagination", JObj [("total", JNum 0)])])]))) in
  result (Articles.fetchArticles w) = Returned [].
Proof.
  intros w.
  apply (fetchArticles_empty_data w true 200
           [("data", JArr []);
            ("meta", JObj [("pagination", JObj [("total", JNum 0)])])]);
    reflexivity.
Defined.

(** [new Date(v)] gives the date of [v] or throws, and logs nothing. *)
Lemma new_Date_cases (v : jsval) :
  (printable v = true /\ new_Date v = (Returned (Date_from v), [])) \/
  (printable v = false /\ exists e, new_Date v = (Threw e, [])).
Proof.
  destruct v as [j|]; [|left; split; reflexivity].
  unfold new_Date, printable. destruct (conversion_error j) as [e|].
  - right. split; [reflexivity|]. exists e. reflexivity.
  - left. split; reflexivity.
Qed.

Ltac date_cases H :=
  match type of H with
  | context [new_Date ?v] =>
      let Hp := fresh "Hprintable" in
      let Hd := fresh "Hdate" in
      destruct (new_Date_cases v) as [[Hp Hd]|[Hp [? Hd]]];
      rewrite Hd in H; clear Hd
  end.

(** The cover of a mapped article is the CMS [cover.url] when that is
    truthy and the placeholder otherwise; it is never absent. *)
Lemma map_article_cover (article : json) (a : Articles.Article) (t : list event) :
  Articles.map_article article = (Returned a, t) ->
  Articles.url (Articles.cover a) =
    (let cms := get_opt (get_opt (Some article) "cover") "url" in
     if truthy_val cms then Articles.unwrap cms else Articles.placeholder) /\
  truthy (Articles.url (Articles.cover a)) = true.
Proof.
  unfold Articles.map_article, get_prop.
  destruct article; cbn; intros H; try date_cases H; cbn in H;
    inversion H; subst; clear H; cbn;
    try (split; reflexivity).
  unfold or_val.
  destruct (truthy_val (get_opt (assoc "cover" fields) "url")) eqn:E.
  - split; [reflexivity|].
    destruct (get_opt (assoc "cover" fields) "url"); [exact E|discriminate].
  - split; reflexivity.
Qed.

(** In [fetchArticles] a category the CMS sends with its three fields is
    copied whole, and a missing or [null] category becomes [null]. *)
Lemma map_article_category (fields : list (string * json))
      (a : Articles.Article) (t : list event) :
  Articles.map_article (JObj fields) = (Returned a, t) ->
  match assoc "category" fields with
  | None | Some JNull => Articles.category a = None
  | Some (JObj c) =>
      Articles.category a =
        Some (Articles.mkCategory (assoc "id" c) (assoc "name" c) (assoc "slug" c))
  | Some _ => True
  end.
Proof.
  unfold Articles.map_article, get_prop. cbn.
  intros H; date_cases H; cbn in H; inversion H; subst; clear H; cbn.
  destruct (assoc "category" fields) as [[| | | | |c]|]; cbn; auto.
Qed.

(** C9, on [fetchArticleBySlug]. For a CMS answer whose article carries
    its category in the nested shape [{data: {id, attributes}}], the mapped
    article has a category object whose [id], [name] and [slug] are all
    undefined: the test reads [category.data], the fields are read from
    [category] itself. The category is then neither fully populated nor
    null. *)
Theorem fetchArticleBySlug_nested_category_unpopulated :
  let w := with_fetch quiet_world
             (fun _ => FetchResolved true 200 (Returned nested_category_response)) in
  exists a,
    result (Articles.fetchArticleBySlug w "x") = Returned (Some a) /\
    Articles.url (Articles.cover a) = JStr "/uploads/a.jpg" /\
    Articles.category a = Some (Articles.mkCategory None None None) /\
    category_invariant a = false.
Proof.
  intros w. eexists. split; [vm_compute; reflexivity|].
  repeat split; reflexivity.
Qed.

(** ** The S3 upload script *)

Lemma CacheControl_html : UploadToS3.CacheControl "text/html" = UploadToS3.no_cache_policy.
Proof. reflexivity. Qed.

Lemma CacheControl_image (sub : string) :
  UploadToS3.CacheControl ("image/" ++ sub) = UploadToS3.immutable_policy.
Proof.
  unfold UploadToS3.CacheControl.
  change ("image/" ++ sub) with ("" ++ "image/" ++ sub).
  now rewrite includes_app.
Qed.

Lemma uploadFileToS3_attempt (w : World) (filePath s3Key : string) :
  readFileSync_throws w filePath = None ->
  In (EUpload s3Key (UploadToS3.contentType_of w filePath)
        (UploadToS3.CacheControl (UploadToS3.contentType_of w filePath)))
     (trace (UploadToS3.uploadFileToS3 w filePath s3Key)).
Proof.
  intros Hr. unfold UploadToS3.uploadFileToS3. rewrite Hr.
  destruct (upload_throws w s3Key); cbn; left; reflexivity.
Qed.

(** C7. A file that is read and whose content type resolves to
    [text/html] is uploaded with the policy
    "public, max-age=0, must-revalidate"; one whose content type is an
    image type [image/...] is uploaded with
    "public, max-age=31536000, immutable". *)
Theorem upload_cache_control_policy (w : World) (filePath s3Key : string) :
  readFileSync_throws w filePath = None ->
  (mime_lookup w filePath = Some "text/html" ->
   In (EUpload s3Key "text/html" "public, max-age=0, must-revalidate")
      (trace (UploadToS3.uploadFileToS3 w filePath s3Key))) /\
  (forall sub : string,
     mime_lookup w filePath = Some ("image/" ++ sub) ->
     In (EUpload s3Key ("image/" ++ sub) "public, max-age=31536000, immutable")
        (trace (UploadToS3.uploadFileToS3 w filePath s3Key))).
Proof.
  intros Hr.
  pose proof (uploadFileToS3_attempt w filePath s3Key Hr) as H. split.
  - intros Hm.
    assert (Hc : UploadToS3.contentType_of w filePath = "text/html").
    { unfold UploadToS3.contentType_of. rewrite Hm. reflexivity. }
    rewrite Hc in H. exact H.
  - intros sub Hm.
    assert (Hc : UploadToS3.contentType_of w filePath = "image/" ++ sub).
    { unfold UploadToS3.contentType_of. rewrite Hm. reflexivity. }
    rewrite Hc, CacheControl_image in H. exact H.
Qed.

Lemma upload_cache_control_policy_witness :
  let w := with_store quiet_world sample_mime (fun _ => None) in
  In (EUpload "index.html" "text/html" "public, max-age=0, must-revalidate")
     (trace (UploadToS3.uploadFileToS3 w "out/index.html" "index.html")) /\
  In (EUpload "img/logo.png" "image/png" "public, max-age=31536000, immutable")
     (trace (UploadToS3.uploadFileToS3 w "out/img/logo.png" "img/logo.png")).
Proof.
  intros w. split.
  - apply (upload_cache_control_policy w "out/index.html" "index.html");
      reflexivity.
  - apply (upload_cache_control_policy w "out/img/logo.png" "img/logo.png"
             eq_refl).
    reflexivity.
Defined.

(** *** The upload loop *)

Lemma attempted_app (t1 t2 : list event) :
  attempted (t1 ++ t2) = (attempted t1 ++ attempted t2)%list.
Proof.
  induction t1 as [|ev t1 IH]; simpl; [reflexivity|].
  destruct ev; simpl; rewrite IH; reflexivity.
Qed.

Lemma bind_ret_tt (m : M unit) : bind m (fun _ => ret tt) = m.
Proof.
  destruct m as [[[]|e] t]; simpl; [rewrite app_nil_r|]; reflexivity.
Qed.

Lemma bind_assoc {A B C} (m : M A) (f : A -> M B) (g : B -> M C) :
  bind (bind m f) g = bind m (fun a => bind (f a) g).
Proof.
  destruct m as [[a|e] t]; simpl; [|reflexivity].
  destruct (f a) as [[b|e] t2]; simpl; [|reflexivity].
  destruct (g b) as [r t3]. now rewrite app_assoc.
Qed.

Lemma ret_bind {A B} (a : A) (f : A -> M B) : bind (ret a) f = f a.
Proof. unfold ret, bind. destruct (f a). reflexivity. Qed.

Lemma for_of_nil {A} (body : A -> M unit) : for_of body [] = ret tt.
Proof. reflexivity. Qed.

Lemma for_of_cons {A} (body : A -> M unit) (x : A) (xs : list A) :
  for_of body (x :: xs) = bind (body x) (fun _ => for_of body xs).
Proof. reflexivity. Qed.

Lemma for_of_app {A} (body : A -> M unit) (l1 l2 : list A) :
  for_of body (l1 ++ l2) = bind (for_of body l1) (fun _ => for_of body l2).
Proof.
  induction l1 as [|x l1 IH].
  - rewrite for_of_nil, ret_bind. reflexivity.
  - rewrite <- app_comm_cons, !for_of_cons, IH, bind_assoc. reflexivity.
Qed.

(** Walking the tree is one flat loop over its files. *)
Lemma upload_entry_flat (w : World) (OUT_DIR : string) (file : fs_node) :
  forall directory baseS3Path,
    UploadToS3.upload_entry w OUT_DIR directory baseS3Path file =
    for_of (fun p => UploadToS3.uploadFileToS3 w p (s3Key_of w OUT_DIR p))
           (files_of directory file).
Proof.
  induction file as [name|name children IH] using fs_node_nested_ind;
    intros directory baseS3Path.
  - simpl. now rewrite bind_ret_tt.
  - simpl.
    generalize (entry_path directory name) (entry_path baseS3Path name).
    intros d b. induction IH as [|c cs Hc _ IHcs]; simpl.
    + reflexivity.
    + rewrite for_of_app, Hc, IHcs. reflexivity.
Qed.

Lemma uploadDirectoryToS3_flat (w : World) (OUT_DIR directory baseS3Path : string)
      (files : list fs_node) :
  UploadToS3.uploadDirectoryToS3 w OUT_DIR directory files baseS3Path =
  for_of (fun p => UploadToS3.uploadFileToS3 w p (s3Key_of w OUT_DIR p))
         (flat_map (files_of directory) files).
Proof.
  unfold UploadToS3.uploadDirectoryToS3.
  induction files as [|f fs IH]; simpl.
  - reflexivity.
  - rewrite for_of_app, upload_entry_flat, IH. reflexivity.
Qed.

Lemma uploadFileToS3_ok (w : World) (filePath s3Key : string) :
  readFileSync_throws w filePath = None ->
  upload_throws w s3Key = None ->
  result (UploadToS3.uploadFileToS3 w filePath s3Key) = Returned tt /\
  attempted (trace (UploadToS3.uploadFileToS3 w filePath s3Key)) = [s3Key].
Proof.
  intros Hr Hu. unfold UploadToS3.uploadFileToS3. rewrite Hr, Hu.
  split; reflexivity.
Qed.

Lemma uploadFileToS3_fails (w : World) (filePath s3Key : string) (e : exn) :
  readFileSync_throws w filePath = None ->
  upload_throws w s3Key = Some e ->
  result (UploadToS3.uploadFileToS3 w filePath s3Key) = Threw e /\
  attempted (trace (UploadToS3.uploadFileToS3 w filePath s3Key)) = [s3Key].
Proof.
  intros Hr Hu. unfold UploadToS3.uploadFileToS3. rewrite Hr, Hu.
  split; reflexivity.
Qed.

(** A loop whose body fails at [bad] after succeeding on [before]. *)
Lemma upload_loop_stops (w : World) (OUT_DIR : string)
      (before after : list string) (bad : string) (e : exn) :
  (forall p, In p before ->
             readFileSync_throws w p = None /\
             upload_throws w (s3Key_of w OUT_DIR p) = None) ->
  readFileSync_throws w bad = None ->
  upload_throws w (s3Key_of w OUT_DIR bad) = Some e ->
  let loop := for_of (fun p => UploadToS3.uploadFileToS3 w p (s3Key_of w OUT_DIR p))
                     (before ++ bad :: after) in
  result loop = Threw e /\
  attempted (trace loop) = map (s3Key_of w OUT_DIR) (before ++ [bad]).
Proof.
  intros Hb Hr Hu. induction before as [|p before IH]; simpl.
  - destruct (uploadFileToS3_fails w bad _ e Hr Hu) as [H1 H2].
    rewrite (bind_threw _ _ e H1). split; [reflexivity|exact H2].
  - destruct (Hb p (or_introl eq_refl)) as [Hrp Hup].
    destruct (uploadFileToS3_ok w p _ Hrp Hup) as [H1 H2].
    destruct IH as [IH1 IH2]; [intros q Hq; apply Hb; right; exact Hq|].
    simpl in IH1, IH2. split.
    + rewrite (result_bind _ _ tt H1). exact IH1.
    + rewrite (trace_bind _ _ tt H1), attempted_app, H2, IH2. reflexivity.
Qed.

(** C5 fails on the listing [about.html, index.html] when the upload of
    [about.html] is refused: [index.html] is never attempted. *)
Lemma batch_continues_counterexample : ~ batch_continues_as_stated.
Proof.
  intros H.
  specialize (H about_fails "out" two_pages "out/about.html" (Error "AccessDenied")).
  assert (Hin : In "out/index.html" (flat_map (files_of "out") two_pages))
    by (simpl; tauto).
  specialize (H (or_introl eq_refl) (fun _ => eq_refl) (fun _ => eq_refl)
                "out/index.html" Hin).
  vm_compute in H. destruct H as [H|[]]. discriminate.
Qed.

(** C5, amended. Each file upload runs in its own try/catch, which logs
    and rethrows. So when the files of the listing are, in walking order,
    [before], then [bad], then [after], the files of [before] are read and
    uploaded and the upload of [bad] fails, the walk throws that error:
    the uploads attempted are exactly those of [before] and of [bad], none
    of [after], and [main] exits with code 1. *)
Theorem upload_batch_stops_at_first_failure
        (w : World) (OUT_DIR : string) (files : list fs_node)
        (before after : list string) (bad : string) (e : exn) :
  flat_map (files_of OUT_DIR) files = (before ++ bad :: after)%list ->
  (forall p, In p before ->
             readFileSync_throws w p = None /\
             upload_throws w (s3Key_of w OUT_DIR p) = None) ->
  readFileSync_throws w bad = None ->
  upload_throws w (s3Key_of w OUT_DIR bad) = Some e ->
  str_truthy (UploadToS3.BUCKET_NAME w) = true ->
  result (UploadToS3.uploadDirectoryToS3 w OUT_DIR OUT_DIR files "") = Threw e /\
  attempted (trace (UploadToS3.uploadDirectoryToS3 w OUT_DIR OUT_DIR files "")) =
    map (s3Key_of w OUT_DIR) (before ++ [bad]) /\
  result (UploadToS3.main w OUT_DIR (Some files)) = Returned 1 /\
  attempted (trace (UploadToS3.main w OUT_DIR (Some files))) =
    map (s3Key_of w OUT_DIR) (before ++ [bad]).
Proof.
  intros Hfiles Hb Hr Hu Hbucket.
  destruct (upload_loop_stops w OUT_DIR before after bad e Hb Hr Hu) as [H1 H2].
  rewrite <- Hfiles, <- uploadDirectoryToS3_flat with (baseS3Path := "") in H1, H2.
  split; [exact H1|]. split; [exact H2|].
  unfold UploadToS3.main. rewrite Hbucket.
  destruct (UploadToS3.uploadDirectoryToS3 w OUT_DIR OUT_DIR files "") as [[[]|e'] t];
    unfold result, trace in H1, H2; simpl in H1, H2; [discriminate|].
  unfold result, trace; simpl. split; [reflexivity|].
  rewrite attempted_app, H2. simpl. now rewrite app_nil_r.
Qed.

Lemma upload_batch_stops_at_first_failure_witness :
  let w := with_env about_fails (env_of [("AWS_S3_BUCKET", "noticiero-static")]) in
  let files := [FFile "404.html"; FFile "about.html";
                FDir "news" [FFile "x.html"; FFile "y.html"]; FFile "index.html"] in
  result (UploadToS3.uploadDirectoryToS3 w "out" "out" files "") = Threw (Error "AccessDenied") /\
  attempted (trace (UploadToS3.uploadDirectoryToS3 w "out" "out" files "")) =
    ["404.html"; "about.html"] /\
  result (UploadToS3.main w "out" (Some files)) = Returned 1 /\
  attempted (trace (UploadToS3.main w "out" (Some files))) =
    ["404.html"; "about.html"].
Proof.
  intros w files.
  apply (upload_batch_stops_at_first_failure w "out" files
           ["out/404.html"] ["out/news/x.html"; "out/news/y.html"; "out/index.html"]
           "out/about.html" (Error "AccessDenied")).
  - reflexivity.
  - intros p [<-|[]]. split; reflexivity.
  - reflexivity.
  - reflexivity.
  - reflexivity.
Defined.

(** ** Runs of the handlers on concrete requests *)

Example revalidate_GET_framework_error :
  let w := with_revalidatePath
             (with_env quiet_world (env_of [("REVALIDATION_SECRET", "s3cret")]))
             (fun _ => Some (Error "Invariant: static generation store missing")) in
  RevalidateRoute.GET w (RevalidateRoute.mkRequest [("secret", "s3cret"); ("path", "/news")]) =
    (Returned (mkResponse 500
                 (JObj [("revalidated", JBool false);
                        ("now", JNum 0%Z);
                        ("error", JStr "Invariant: static generation store missing")])),
     [ELog "revalidate-logs.txt" "Solicitud de revalidacion recibida";
      ELog "revalidate-logs.txt" "Revalidando ruta: /news";
      ERevalidatePath "/news";
      ELog "revalidate-logs.txt"
        "Error durante la revalidacion: Invariant: static generation store missing"]).
Proof. reflexivity. Qed.

(** The Pages Router handler compares the query value with the variable
    itself: with [REVALIDATION_SECRET] unset, a request without [secret]
    is let through. *)
Example pages_handler_unconfigured :
  PagesRevalidate.handler quiet_world
    (PagesRevalidate.mkRequest [("path", JStr "/news")]) =
    (Returned (mkResponse 200 (JObj [("revalidated", JBool true); ("path", JStr "/news")])),
     [EResRevalidate (JStr "/news")]).
Proof. reflexivity. Qed.

Example webhook_POST_wrong_token :
  let w := with_env quiet_world
             (env_of [("NODE_ENV", "production"); ("WEBHOOK_TOKEN", "t0ken")]) in
  let req := WebhookRoute.mkRequest "https://site.example/api/webhook" "POST"
               [("x-webhook-token", "guess")] []
               (Returned (JObj [("event", JStr "entry.publish"); ("model", JStr "article")])) in
  result (WebhookRoute.POST w req) =
    Returned (mkResponse 401 (JObj [("error", JStr "Token invalido")])) /\
  invalidations (trace (WebhookRoute.POST w req)) = [].
Proof. split; reflexivity. Qed.

Example webhook_POST_unreadable_body_production :
  let w := with_env quiet_world
             (env_of [("NODE_ENV", "production"); ("WEBHOOK_TOKEN", "t0ken")]) in
  let req := WebhookRoute.mkRequest "https://site.example/api/webhook" "POST"
               [("x-webhook-token", "t0ken")] []
               (Threw (mkExn "SyntaxError" "Unexpected end of JSON input")) in
  result (WebhookRoute.POST w req) =
    Returned (mkResponse 400
                (JObj [("error", JStr "No se pudo leer el cuerpo de la solicitud");
                       ("details", JStr "SyntaxError: Unexpected end of JSON input")])) /\
  invalidations (trace (WebhookRoute.POST w req)) = [].
Proof. split; reflexivity. Qed.

Example webhook_POST_development_without_token :
  let w := with_env quiet_world
             (env_of [("NODE_ENV", "development"); ("WEBHOOK_TOKEN", "t0ken")]) in
  let req := WebhookRoute.mkRequest "http://localhost:3000/api/webhook" "POST" [] []
               (Returned (JObj [("event", JStr "entry.delete"); ("model", JStr "tag");
                                ("entry", JObj [("slug", JNum 5)])])) in
  result (WebhookRoute.POST w req) =
    Returned (mkResponse 200
                (JObj [("success", JBool true);
                       ("revalidated", JBool true);
                       ("message", JStr "Paginas revalidadas (modo desarrollo)")])) /\
  invalidations (trace (WebhookRoute.POST w req)) =
    [ERevalidatePath "/"; ERevalidatePath "/news";
     ERevalidateTag "articles"; ERevalidateTag "home";
     ERevalidatePath "/news/5"; ERevalidateTag "article-5"].
Proof. split; reflexivity. Qed.

Example webhook_POST_without_slug :
  let w := with_env quiet_world
             (env_of [("NODE_ENV", "production"); ("WEBHOOK_TOKEN", "t0ken")]) in
  let req := WebhookRoute.mkRequest "https://site.example/api/webhook" "POST"
               [("x-strapi-webhook-token", "t0ken")] []
               (Returned (JObj [("event", JStr "entry.unpublish"); ("model", JStr "articles");
                                ("entry", JObj [("slug", JStr "")])])) in
  result (WebhookRoute.POST w req) =
    Returned (mkResponse 200
                (JObj [("success", JBool true);
                       ("revalidated", JBool true);
                       ("message", JStr "Paginas revalidadas exitosamente");
                       ("paths", JArr [JStr "/"; JStr "/news"])])).
Proof. reflexivity. Qed.

Example fetchArticles_flat_article :
  let w := with_fetch quiet_world
             (fun _ => FetchResolved true 200
                (Returned
                   (JObj [("data",
                           JArr [JObj [("id", JNum 1); ("title", JStr "Titular");
                                       ("slug", JStr "x"); ("cover", JNull);
                                       ("category",
                                        JObj [("id", JNum 7); ("name", JStr "Deportes");
                                              ("slug", JStr "deportes")])]])]))) in
  result (Articles.fetchArticles w) =
    Returned [Articles.mkArticle (Some (JNum 1)) (Some (JStr "Titular")) None
                (Some (JStr "x")) None (Date_from None)
                (Articles.mkCover (JStr "/placeholder.jpg"))
                (Some (Articles.mkCategory (Some (JNum 7)) (Some (JStr "Deportes"))
                         (Some (JStr "deportes"))))].
Proof. reflexivity. Qed.

(** The same flat category, read by [fetchArticleBySlug], is dropped. *)
Example fetchArticleBySlug_flat_category :
  let w := with_fetch quiet_world
             (fun _ => FetchResolved true 200
                (Returned
                   (JObj [("data",
                           JArr [JObj [("id", JNum 1); ("title", JStr "Titular");
                                       ("slug", JStr "x");
                                       ("cover", JObj [("data", JObj [("attributes", JObj [("url", JStr "/uploads/b.jpg")])])]);
                                       ("category",
                                        JObj [("id", JNum 7); ("name", JStr "Deportes");
                                              ("slug", JStr "deportes")])]])]))) in
  result (Articles.fetchArticleBySlug w "x") =
    Returned (Some (Articles.mkArticle (Some (JNum 1)) (Some (JStr "Titular")) None
                      (Some (JStr "x")) None (Date_from None)
                      (Articles.mkCover (JStr "/uploads/b.jpg")) None)).
Proof. reflexivity. Qed.

(** A [publishedAt] that [new Date] cannot convert to a primitive makes
    the mapping throw: the whole list is lost. *)
Example fetchArticles_unconvertible_date :
  let w := with_fetch quiet_world
             (fun _ => FetchResolved true 200
                (Returned
                   (JObj [("data",
                           JArr [JObj [("id", JNum 1); ("slug", JStr "x");
                                       ("publishedAt", JStr "2025-03-01T10:00:00.000Z")];
                                 JObj [("id", JNum 2); ("slug", JStr "y");
                                       ("publishedAt", JObj [("toString", JNum 1)])]])]))) in
  result (Articles.fetchArticles w) = Returned [] /\
  result (Articles.fetchArticleBySlug w "x") <> Returned None.
Proof. split; [reflexivity|discriminate]. Qed.

(** The key is normalised by [path.join]: a prefix that ends with a
    separator, or that carries [.] and [..], adds no empty segment to the
    key, and a backslash in a name becomes a separator. *)
Example main_normalises_keys :
  let files := [FFile "index.html"; FDir "img" [FFile (String (ascii_of_nat 92) "logo.png")]] in
  let keys (prefix : string) :=
    attempted (trace (UploadToS3.main
                        (with_env (with_store quiet_world sample_mime (fun _ => None))
                           (env_of [("AWS_S3_BUCKET", "noticiero-static");
                                    ("AWS_S3_PREFIX", prefix)]))
                        "/srv/app/out" (Some files))) in
  keys "site/" = ["site/index.html"; "site/img//logo.png"] /\
  keys "/site//v2/../" = ["/site/index.html"; "/site/img//logo.png"] /\
  keys "./" = ["index.html"; "img//logo.png"] /\
  keys ".." = ["../index.html"; "../img//logo.png"].
Proof. repeat split; reflexivity. Qed.

Example main_uploads_everything :
  let w := with_env (with_store quiet_world sample_mime (fun _ => None))
             (env_of [("AWS_S3_BUCKET", "noticiero-static"); ("AWS_S3_PREFIX", "site")]) in
  let files := [FFile "index.html"; FDir "img" [FFile "logo.png"]; FFile "app.js";
                FFile "LICENSE"] in
  result (UploadToS3.main w "out" (Some files)) = Returned 0 /\
  filter (fun ev => match ev with EUpload _ _ _ => true | _ => false end)
         (trace (UploadToS3.main w "out" (Some files))) =
    [EUpload "site/index.html" "text/html" "public, max-age=0, must-revalidate";
     EUpload "site/img/logo.png" "image/png" "public, max-age=31536000, immutable";
     EUpload "site/app.js" "application/javascript" "public, max-age=604800";
     EUpload "site/LICENSE" "application/octet-stream" "public, max-age=604800"].
Proof. split; reflexivity. Qed.

(* ===================================================================== *)
(** * Further properties of the code *)
(* ===================================================================== *)

(** ** Article lists *)

Lemma try_catch_returned {A} (m : M A) (h : exn -> M A) (a : A) :
  result m = Returned a -> try_catch m h = m.
Proof.
  destruct m as [[x|e] t]; unfold result; simpl; intros H; [reflexivity|discriminate].
Qed.

Lemma fetch_json_ok (w : World) (url what : string) (st : nat) (j : json) :
  fetch w url = FetchResolved true st (Returned j) ->
  Articles.fetch_json w url what = (Returned j, []).
Proof. intros H. unfold Articles.fetch_json. rewrite H. reflexivity. Qed.

Lemma fetch_json_no_events (w : World) (url what : string) :
  trace (Articles.fetch_json w url what) = [].
Proof.
  unfold Articles.fetch_json.
  destruct (fetch w url) as [e|[|] st [j|e]]; reflexivity.
Qed.

Lemma get_prop_defined (j : json) (k : string) :
  j <> JNull -> get_prop (Some j) k = (Returned (get_opt (Some j) k), []).
Proof. destruct j; intros H; try reflexivity. congruence. Qed.

Lemma array_map_Forall2 {A B} (f : A -> M B) (R : A -> B -> Prop) (l : list A) :
  (forall x, In x l -> exists y, f x = (Returned y, []) /\ R x y) ->
  exists ys, array_map f l = (Returned ys, []) /\ Forall2 R l ys.
Proof.
  induction l as [|x l IH]; intros H.
  - exists []. split; [reflexivity|constructor].
  - destruct (H x (or_introl eq_refl)) as (y & Hy & Rxy).
    destruct IH as (ys & Hys & Rys); [intros z Hz; apply H; right; exact Hz|].
    exists (y :: ys). split; [|constructor; assumption].
    change (array_map f (x :: l))
      with (bind (f x) (fun y => bind (array_map f l) (fun ys => ret (y :: ys)))).
    rewrite Hy, Hys. reflexivity.
Qed.

Lemma array_map_pure {A B} (f : A -> M B) (g : A -> B) (l : list A) :
  (forall x, In x l -> f x = (Returned (g x), [])) ->
  array_map f l = (Returned (map g l), []).
Proof.
  induction l as [|x l IH]; intros H; [reflexivity|].
  change (array_map f (x :: l))
    with (bind (f x) (fun y => bind (array_map f l) (fun ys => ret (y :: ys)))).
  rewrite (H x (or_introl eq_refl)), IH; [reflexivity|].
  intros z Hz. apply H. right. exact Hz.
Qed.

(** An element on which the callback throws voids the whole [map]. *)
Lemma array_map_throws {A B} (f : A -> M B) (l : list A) (x : A) (e : exn) :
  In x l ->
  (forall y, In y l -> exists r, f y = (r, [])) ->
  f x = (Threw e, []) ->
  exists e', array_map f l = (Threw e', []).
Proof.
  induction l as [|y l IH]; intros Hin Hall Hx; [destruct Hin|].
  change (array_map f (y :: l))
    with (bind (f y) (fun b => bind (array_map f l) (fun ys => ret (b :: ys)))).
  destruct (Hall y (or_introl eq_refl)) as (r & Hr). rewrite Hr.
  destruct r as [b|e0]; [|exists e0; reflexivity].
  destruct Hin as [->|Hin].
  - rewrite Hx in Hr. discriminate.
  - destruct (IH Hin) as (e' & He'); [intros z Hz; apply Hall; right; exact Hz|exact Hx|].
    rewrite He'. exists e'. reflexivity.
Qed.

(** X1. The slugs come back one per item of [data], in the order of the
    answer; an item without [slug] gives [undefined]. *)
Theorem fetchAllArticleSlugs_one_per_item
        (w : World) (st : nat) (fields : list (string * json)) (items : list json) :
  fetch w (Articles.STRAPI_URL w ++ "/api/articles?fields[0]=slug") =
    FetchResolved true st (Returned (JObj fields)) ->
  assoc "data" fields = Some (JArr items) ->
  ~ In JNull items ->
  result (ArticleLists.fetchAllArticleSlugs w) =
    Returned (map (fun article => get_opt (Some article) "slug") items).
Proof.
  intros Hf Hd Hnn. unfold ArticleLists.fetchAllArticleSlugs.
  rewrite (fetch_json_ok _ _ _ _ _ Hf).
  cbn [bind emit ret get_prop app]. rewrite Hd.
  rewrite (array_map_pure _ (fun article => get_opt (Some article) "slug")).
  - reflexivity.
  - intros x Hx. apply get_prop_defined. intros ->. exact (Hnn Hx).
Qed.

Lemma fetchAllArticleSlugs_one_per_item_witness :
  let w := with_fetch quiet_world
             (fun _ => FetchResolved true 200
                (Returned (JObj [("data", JArr [JObj [("id", JNum 1); ("slug", JStr "uno")];
                                               JObj [("id", JNum 2)];
                                               JObj [("id", JNum 3); ("slug", JStr "tres")]])]))) in
  result (ArticleLists.fetchAllArticleSlugs w) =
    Returned [Some (JStr "uno"); None; Some (JStr "tres")].
Proof.
  intros w.
  apply (fetchAllArticleSlugs_one_per_item w 200
           [("data", JArr [JObj [("id", JNum 1); ("slug", JStr "uno")];
                           JObj [("id", JNum 2)];
                           JObj [("id", JNum 3); ("slug", JStr "tres")]])]
           [JObj [("id", JNum 1); ("slug", JStr "uno")];
            JObj [("id", JNum 2)];
            JObj [("id", JNum 3); ("slug", JStr "tres")]]).
  - reflexivity.
  - reflexivity.
  - simpl. intros [H|[H|[H|[]]]]; discriminate.
Defined.

(** X2. Whatever goes wrong gives the empty list: a network error, an HTTP
    error status, a body that is not JSON, a [data] that is not an array,
    or a [null] among the items. *)
Theorem fetchAllArticleSlugs_defaults_to_empty (w : World) :
  let answer := fetch w (Articles.STRAPI_URL w ++ "/api/articles?fields[0]=slug") in
  (exists e, answer = FetchRejected e) \/
  (exists st js, answer = FetchResolved false st js) \/
  (exists st e, answer = FetchResolved true st (Threw e)) \/
  (exists st j, answer = FetchResolved true st (Returned j) /\
                forall items, get_opt (Some j) "data" <> Some (JArr items)) \/
  (exists st j items, answer = FetchResolved true st (Returned j) /\
                      get_opt (Some j) "data" = Some (JArr items) /\ In JNull items) ->
  result (ArticleLists.fetchAllArticleSlugs w) = Returned [].
Proof.
  intros answer H. unfold ArticleLists.fetchAllArticleSlugs.
  destruct H as [(e & He)|[(st & js & He)|[(st & e & He)|[(st & j & He & Hd)|
                 (st & j & items & He & Hd & Hin)]]]]; subst answer.
  - unfold Articles.fetch_json. rewrite He. reflexivity.
  - unfold Articles.fetch_json. rewrite He. reflexivity.
  - unfold Articles.fetch_json. rewrite He. reflexivity.
  - rewrite (fetch_json_ok _ _ _ _ _ He).
    destruct j; try reflexivity. simpl in Hd.
    cbn [bind emit ret get_prop app].
    destruct (assoc "data" fields) as [[|b|n|s|l|f]|]; try reflexivity.
    exfalso. exact (Hd l eq_refl).
  - rewrite (fetch_json_ok _ _ _ _ _ He).
    destruct j; try discriminate. simpl in Hd.
    cbn [bind emit ret app].
    rewrite (get_prop_defined (JObj fields) "data") by discriminate.
    cbn [bind emit ret get_opt app]. rewrite Hd.
    destruct (array_map_throws (fun article => get_prop (Some article) "slug")
                items JNull
                (TypeError "Cannot read properties of null (reading 'slug')") Hin)
      as (e' & He').
    + intros y _. destruct y; eexists; reflexivity.
    + reflexivity.
    + rewrite He'. reflexivity.
Qed.

Lemma fetchAllArticleSlugs_defaults_to_empty_witness :
  let w := with_fetch quiet_world
             (fun _ => FetchResolved true 200
                (Returned (JObj [("data", JArr [JObj [("slug", JStr "uno")]; JNull])]))) in
  result (ArticleLists.fetchAllArticleSlugs w) = Returned [].
Proof.
  intros w. apply (fetchAllArticleSlugs_defaults_to_empty w).
  right. right. right. right.
  exists 200, (JObj [("data", JArr [JObj [("slug", JStr "uno")]; JNull])]),
    [JObj [("slug", JStr "uno")]; JNull].
  repeat split; try reflexivity. simpl. tauto.
Defined.

Lemma fetchRecentArticles_never_throws (w : World) (excludeId : string) :
  exists l, result (ArticleLists.fetchRecentArticles w excludeId) = Returned l.
Proof.
  unfold ArticleLists.fetchRecentArticles. apply try_catch_total.
  intros e. exists []. reflexivity.
Qed.

(** X3. Without a category, and when the category query comes back with no
    items, the related articles are the recent ones. *)
Theorem fetchRelatedArticles_falls_back_to_recent
        (w : World) (articleId : string) (categoryId : option string) :
  truthy_str categoryId = false \/
  (exists c st fields,
     categoryId = Some c /\
     fetch w (Articles.STRAPI_URL w ++ "/api/articles?filters[id][$ne]=" ++ articleId ++
              "&filters[category][id][$eq]=" ++ c ++ "&populate=*&pagination[limit]=3") =
       FetchResolved true st (Returned (JObj fields)) /\
     ArticleLists.missing_or_empty (assoc "data" fields) = true) ->
  ArticleLists.fetchRelatedArticles w articleId categoryId =
  ArticleLists.fetchRecentArticles w articleId.
Proof.
  intros H. destruct (fetchRecentArticles_never_throws w articleId) as [l Hl].
  unfold ArticleLists.fetchRelatedArticles.
  destruct H as [Hc|(c & st & fields & -> & Hf & He)].
  - rewrite Hc. cbn [negb]. apply (try_catch_returned _ _ l Hl).
  - destruct (truthy_str (Some c)); cbn [negb].
    + rewrite (fetch_json_ok _ _ _ _ _ Hf). cbn [bind get_prop ret app].
      rewrite He.
      destruct (ArticleLists.fetchRecentArticles w articleId) as [[x|e] t] eqn:Er;
        unfold result in Hl; simpl in Hl; [reflexivity|discriminate].
    + apply (try_catch_returned _ _ l Hl).
Qed.

Lemma fetchRelatedArticles_falls_back_to_recent_witness :
  let w := with_fetch quiet_world
             (fun u => if includes "filters[category]" u
                       then FetchResolved true 200 (Returned (JObj [("data", JArr [])]))
                       else FetchResolved true 200
                              (Returned (JObj [("data", JArr [JObj [("id", JNum 2);
                                                                     ("slug", JStr "dos")]])]))) in
  ArticleLists.fetchRelatedArticles w "1" (Some "7") =
  ArticleLists.fetchRecentArticles w "1".
Proof.
  intros w. apply (fetchRelatedArticles_falls_back_to_recent w "1" (Some "7")).
  right. exists "7", 200, [("data", JArr [])].
  repeat split; reflexivity.
Defined.

(** X4. A failed category query is not retried as a recent-articles query:
    the result is the empty list. *)
Theorem fetchRelatedArticles_error_gives_empty
        (w : World) (articleId c : string) :
  c <> "" ->
  (let answer :=
     fetch w (Articles.STRAPI_URL w ++ "/api/articles?filters[id][$ne]=" ++ articleId ++
              "&filters[category][id][$eq]=" ++ c ++ "&populate=*&pagination[limit]=3") in
   (exists e, answer = FetchRejected e) \/
   (exists st js, answer = FetchResolved false st js) \/
   (exists st e, answer = FetchResolved true st (Threw e))) ->
  result (ArticleLists.fetchRelatedArticles w articleId (Some c)) = Returned [].
Proof.
  intros Hc H. apply str_truthy_true in Hc.
  unfold ArticleLists.fetchRelatedArticles, truthy_str. rewrite Hc. cbn [negb].
  unfold Articles.fetch_json.
  destruct H as [(e & ->)|[(st & js & ->)|(st & e & ->)]]; reflexivity.
Qed.

Lemma fetchRelatedArticles_error_gives_empty_witness :
  let w := with_fetch quiet_world
             (fun u => if includes "filters[category]" u
                       then FetchResolved false 500 (Returned (JObj []))
                       else FetchResolved true 200
                              (Returned (JObj [("data", JArr [JObj [("id", JNum 2);
                                                                     ("slug", JStr "dos")]])]))) in
  result (ArticleLists.fetchRelatedArticles w "1" (Some "7")) = Returned [] /\
  result (ArticleLists.fetchRecentArticles w "1") <> Returned [].
Proof.
  intros w. split.
  - apply (fetchRelatedArticles_error_gives_empty w "1" "7").
    + discriminate.
    + right. left. exists 500, (Returned (JObj [])). reflexivity.
  - vm_compute. discriminate.
Defined.

(** ** Mapped articles *)

Lemma array_map_Forall {A B} (f : A -> M B) (P : B -> Prop) (l : list A) :
  (forall x y t, f x = (Returned y, t) -> P y) ->
  forall ys t, array_map f l = (Returned ys, t) -> Forall P ys.
Proof.
  intros Hf. induction l as [|x l IH]; intros ys t H.
  - inversion H; subst. constructor.
  - change (array_map f (x :: l))
      with (bind (f x) (fun y => bind (array_map f l) (fun ys => ret (y :: ys)))) in H.
    destruct (f x) as [[y|e] t1] eqn:Hx; simpl in H; [|discriminate].
    destruct (array_map f l) as [[zs|e] t2] eqn:Hl; simpl in H; [|discriminate].
    inversion H; subst. constructor.
    + exact (Hf x y t1 Hx).
    + exact (IH zs t2 eq_refl).
Qed.

Lemma or_placeholder_truthy (v : jsval) :
  truthy (Articles.unwrap (or_val v (Some Articles.placeholder))) = true.
Proof.
  unfold or_val. destruct (truthy_val v) eqn:E; [|reflexivity].
  destruct v; [exact E|discriminate].
Qed.

Lemma map_article_by_slug_cover (article : jsval) (a : Articles.Article) (t : list event) :
  Articles.map_article_by_slug article = (Returned a, t) ->
  cover_defined (Articles.cover a) = true.
Proof.
  unfold Articles.map_article_by_slug, get_prop.
  destruct article as [[| | | | |fields]|]; cbn; intros H; try date_cases H;
    cbn in H; inversion H; subst;
    unfold cover_defined; cbn; try reflexivity.
  unfold or_val at 1.
  destruct (truthy_val (or_val (get_opt (assoc "cover" fields) "url") _)) eqn:E;
    [|reflexivity].
  destruct (or_val (get_opt (assoc "cover" fields) "url") _); [exact E|discriminate].
Qed.

Lemma map_related_cover (article : json) (a : ArticleLists.RelatedArticle) (t : list event) :
  ArticleLists.map_related article = (Returned a, t) ->
  cover_defined (ArticleLists.cover a) = true.
Proof.
  unfold ArticleLists.map_related, get_prop.
  destruct article; cbn; intros H; try date_cases H; cbn in H; inversion H; subst;
    unfold cover_defined; cbn; try reflexivity.
  apply or_placeholder_truthy.
Qed.

Lemma value_map_Forall {B} (v : jsval) (f : json -> M B) (P : B -> Prop) :
  (forall x y t, f x = (Returned y, t) -> P y) ->
  forall ys t, Articles.value_map v f = (Returned ys, t) -> Forall P ys.
Proof.
  intros Hf ys t H. unfold Articles.value_map in H.
  destruct v as [[| | | |items|]|]; try discriminate.
  exact (array_map_Forall f P items Hf ys t H).
Qed.

(** A [try]/[catch] whose handler returns the empty list yields a list
    all of whose elements satisfy what the body's results satisfy. *)
Lemma try_catch_Forall {B} (m : M (list B)) (h : exn -> M (list B)) (P : B -> Prop) :
  (forall ys t, m = (Returned ys, t) -> Forall P ys) ->
  (forall e ys, result (h e) = Returned ys -> Forall P ys) ->
  (forall e, exists ys, result (h e) = Returned ys) ->
  exists ys, result (try_catch m h) = Returned ys /\ Forall P ys.
Proof.
  intros Hm Hh Ht. destruct m as [[ys|e] t]; simpl.
  - exists ys. split; [reflexivity|]. exact (Hm ys t eq_refl).
  - destruct (Ht e) as (ys & Hys). exists ys.
    split; [|exact (Hh e ys Hys)].
    destruct (h e) as [r t2]. exact Hys.
Qed.

Lemma bind_returned_inv {A B} (m : M A) (k : A -> M B) (b : B) (t : list event) :
  bind m k = (Returned b, t) ->
  exists a t1 t2, m = (Returned a, t1) /\ k a = (Returned b, t2).
Proof.
  destruct m as [[a|e] t1]; simpl; [|discriminate].
  destruct (k a) as [r t2] eqn:Hk. intros H. inversion H; subst.
  exists a, t1, t2. split; [reflexivity|exact Hk].
Qed.

Lemma fetchRecentArticles_covers (w : World) (excludeId : string) :
  exists l, result (ArticleLists.fetchRecentArticles w excludeId) = Returned l /\
            Forall (fun a => cover_defined (ArticleLists.cover a) = true) l.
Proof.
  unfold ArticleLists.fetchRecentArticles. apply try_catch_Forall.
  - intros ys t H.
    apply bind_returned_inv in H. destruct H as (data & t1 & t2 & _ & H).
    apply bind_returned_inv in H. destruct H as (items & t3 & t4 & _ & H).
    exact (value_map_Forall items _ _ map_related_cover ys t4 H).
  - intros e ys H. inversion H; subst. constructor.
  - intros e. exists []. reflexivity.
Qed.

(** X5. Every article that the four fetch-and-map functions return has a
    truthy cover URL: it is never undefined, null or the empty string. *)
Theorem cover_url_never_absent (w : World) (slug articleId : string)
        (categoryId : option string) :
  (exists l, result (Articles.fetchArticles w) = Returned l /\
             Forall (fun a => cover_defined (Articles.cover a) = true) l) /\
  (exists r, result (Articles.fetchArticleBySlug w slug) = Returned r /\
             match r with
             | Some a => cover_defined (Articles.cover a) = true
             | None => True
             end) /\
  (exists l, result (ArticleLists.fetchRelatedArticles w articleId categoryId) = Returned l /\
             Forall (fun a => cover_defined (ArticleLists.cover a) = true) l) /\
  (exists l, result (ArticleLists.fetchRecentArticles w articleId) = Returned l /\
             Forall (fun a => cover_defined (ArticleLists.cover a) = true) l).
Proof.
  split; [|split; [|split]].
  - unfold Articles.fetchArticles. apply try_catch_Forall.
    + intros ys t H.
      apply bind_returned_inv in H. destruct H as (data & t1 & t2 & _ & H).
      apply bind_returned_inv in H. destruct H as (items & t3 & t4 & _ & H).
      refine (value_map_Forall items _ _ _ ys t4 H).
      intros x y t' Hx. exact (proj2 (map_article_cover x y t' Hx)).
    + intros e ys H. inversion H; subst. constructor.
    + intros e. exists []. reflexivity.
  - unfold Articles.fetchArticleBySlug.
    match goal with |- context [try_catch ?m ?h] => destruct m as [[r|e] t] eqn:Hm end.
    + exists r. split; [reflexivity|]. destruct r as [a|]; [|exact I].
      apply bind_returned_inv in Hm. destruct Hm as (data & t1 & t2 & _ & H).
      apply bind_returned_inv in H. destruct H as (items & t3 & t4 & _ & H).
      destruct items as [list|]; [|discriminate].
      destruct (negb (truthy list)); [discriminate|].
      destruct (match Articles.value_length list with
                | Some (JNum n) => Z.eqb n 0 | _ => false end); [discriminate|].
      apply bind_returned_inv in H. destruct H as (a' & t5 & t6 & Ha & H).
      inversion H; subst. exact (map_article_by_slug_cover _ _ _ Ha).
    + exists None. split; [reflexivity|exact I].
  - unfold ArticleLists.fetchRelatedArticles. apply try_catch_Forall.
    + intros ys t H.
      destruct (fetchRecentArticles_covers w articleId) as (l & Hl & Hc).
      assert (Hrec : forall t', ArticleLists.fetchRecentArticles w articleId = (Returned ys, t') ->
                                Forall (fun a => cover_defined (ArticleLists.cover a) = true) ys).
      { intros t' E. rewrite E in Hl. inversion Hl; subst. exact Hc. }
      destruct (negb (truthy_str categoryId)); [exact (Hrec t H)|].
      apply bind_returned_inv in H. destruct H as (data & t1 & t2 & _ & H).
      apply bind_returned_inv in H. destruct H as (items & t3 & t4 & _ & H).
      destruct (ArticleLists.missing_or_empty items); [exact (Hrec t4 H)|].
      exact (value_map_Forall items _ _ map_related_cover ys t4 H).
    + intros e ys H. inversion H; subst. constructor.
    + intros e. exists []. reflexivity.
  - apply fetchRecentArticles_covers.
Qed.

Lemma map_article_defined (item : json) :
  item <> JNull ->
  date_constructible item = true ->
  exists a, Articles.map_article item = (Returned a, []) /\
            copies_fields item a /\
            (category_well_typed item = true -> category_invariant a = true).
Proof.
  intros Hn Hdate. unfold Articles.map_article.
  rewrite !(get_prop_defined item) by exact Hn.
  destruct (new_Date_cases (get_opt (Some item) "publishedAt")) as [[_ Hd]|[Hp _]];
    [|unfold date_constructible in Hdate; congruence].
  cbn [bind ret app]. rewrite Hd.
  cbn [bind ret app]. eexists. split; [reflexivity|]. split.
  - repeat split.
  - unfold category_well_typed, category_invariant, fully_populated.
    cbn [Articles.category].
    destruct (get_opt (Some item) "category") as [[|b|n|s|l|c]|];
      cbn; intros H; try discriminate H; try reflexivity.
    exact H.
Qed.

(** X6. When no item of [data] is [null] and [new Date] accepts the
    [publishedAt] of every item, [fetchArticles] returns one article per
    item, in the order of the answer, with the item's scalar fields copied
    and its date made from the item's [publishedAt]. *)
Theorem fetchArticles_one_per_item
        (w : World) (st : nat) (fields : list (string * json)) (items : list json) :
  fetch w (Articles.STRAPI_URL w ++ "/api/articles?populate=*") =
    FetchResolved true st (Returned (JObj fields)) ->
  assoc "data" fields = Some (JArr items) ->
  ~ In JNull items ->
  Forall (fun item => date_constructible item = true) items ->
  exists l, result (Articles.fetchArticles w) = Returned l /\
            Forall2 copies_fields items l.
Proof.
  intros Hf Hd Hnn Hdates. rewrite Forall_forall in Hdates.
  unfold Articles.fetchArticles.
  rewrite (fetch_json_ok _ _ _ _ _ Hf). cbn [bind ret app].
  rewrite (get_prop_defined (JObj fields) "data") by discriminate.
  cbn [bind ret app get_opt]. rewrite Hd. unfold Articles.value_map.
  destruct (array_map_Forall2 Articles.map_article copies_fields items) as (l & Hl & HR).
  - intros x Hx. destruct (map_article_defined x) as (a & Ha & Hc & _).
    + intros ->. exact (Hnn Hx).
    + exact (Hdates x Hx).
    + exists a. split; assumption.
  - exists l. rewrite Hl. split; [reflexivity|exact HR].
Qed.

Lemma fetchArticles_one_per_item_witness :
  let items := [JObj [("id", JNum 1); ("slug", JStr "uno"); ("title", JStr "Uno");
                      ("publishedAt", JStr "2025-03-01T10:00:00.000Z")];
                JObj [("id", JNum 2); ("slug", JStr "dos");
                      ("publishedAt", JObj [("valueOf", JNum 0)])]] in
  let w := with_fetch quiet_world
             (fun _ => FetchResolved true 200 (Returned (JObj [("data", JArr items)]))) in
  exists l, result (Articles.fetchArticles w) = Returned l /\
            Forall2 copies_fields items l.
Proof.
  intros items w.
  apply (fetchArticles_one_per_item w 200 [("data", JArr items)] items).
  - reflexivity.
  - reflexivity.
  - simpl. intros [H|[H|[]]]; discriminate.
  - repeat constructor.
Defined.

(** One [null] among the items of [data] leaves [fetchArticles] with no
    article at all. *)
Theorem fetchArticles_null_item_voids_list
        (w : World) (st : nat) (fields : list (string * json)) (items : list json) :
  fetch w (Articles.STRAPI_URL w ++ "/api/articles?populate=*") =
    FetchResolved true st (Returned (JObj fields)) ->
  assoc "data" fields = Some (JArr items) ->
  In JNull items ->
  result (Articles.fetchArticles w) = Returned [].
Proof.
  intros Hf Hd Hin. unfold Articles.fetchArticles.
  rewrite (fetch_json_ok _ _ _ _ _ Hf). cbn [bind ret app].
  rewrite (get_prop_defined (JObj fields) "data") by discriminate.
  cbn [bind ret app get_opt]. rewrite Hd. unfold Articles.value_map.
  destruct (array_map_throws Articles.map_article items JNull
              (TypeError "Cannot read properties of null (reading 'id')") Hin)
    as (e' & He').
  - intros y _. destruct (Articles.map_article y) as [r t] eqn:E.
    exists r. f_equal.
    unfold Articles.map_article, get_prop in E.
    destruct y; cbn in E; try date_cases E; cbn in E; inversion E; reflexivity.
  - reflexivity.
  - rewrite He'. reflexivity.
Qed.

Lemma fetchArticles_null_item_voids_list_witness :
  let items := [JObj [("id", JNum 1); ("slug", JStr "uno")]; JNull;
                JObj [("id", JNum 3); ("slug", JStr "tres")]] in
  let w := with_fetch quiet_world
             (fun _ => FetchResolved true 200 (Returned (JObj [("data", JArr items)]))) in
  result (Articles.fetchArticles w) = Returned [].
Proof.
  intros items w.
  apply (fetchArticles_null_item_voids_list w 200 [("data", JArr items)] items).
  - reflexivity.
  - reflexivity.
  - simpl. tauto.
Defined.

(** X7. When no item of [data] is [null], [new Date] accepts the
    [publishedAt] of every item and every item carries its category as the
    [Article] type declares it, [fetchArticles] returns as many articles
    as there are items, and each has a category that is [null] or has its
    [id], [name] and [slug]. *)
Theorem fetchArticles_category_populated_or_null
        (w : World) (st : nat) (fields : list (string * json)) (items : list json) :
  fetch w (Articles.STRAPI_URL w ++ "/api/articles?populate=*") =
    FetchResolved true st (Returned (JObj fields)) ->
  assoc "data" fields = Some (JArr items) ->
  ~ In JNull items ->
  Forall (fun item => date_constructible item = true) items ->
  Forall (fun item => category_well_typed item = true) items ->
  exists l, result (Articles.fetchArticles w) = Returned l /\
            List.length l = List.length items /\
            Forall (fun a => category_invariant a = true) l.
Proof.
  intros Hf Hd Hnn Hdates Hwt. rewrite Forall_forall in Hdates.
  unfold Articles.fetchArticles.
  rewrite (fetch_json_ok _ _ _ _ _ Hf). cbn [bind ret app].
  rewrite (get_prop_defined (JObj fields) "data") by discriminate.
  cbn [bind ret app get_opt]. rewrite Hd. unfold Articles.value_map.
  destruct (array_map_Forall2 Articles.map_article
              (fun _ a => category_invariant a = true) items) as (l & Hl & HR).
  - intros x Hx. destruct (map_article_defined x) as (a & Ha & _ & Hc).
    + intros ->. exact (Hnn Hx).
    + exact (Hdates x Hx).
    + exists a. split; [exact Ha|]. apply Hc.
      rewrite Forall_forall in Hwt. exact (Hwt x Hx).
  - exists l. rewrite Hl. split; [reflexivity|]. split.
    + symmetry. exact (Forall2_length HR).
    + clear -HR. induction HR; constructor; assumption.
Qed.

Lemma fetchArticles_category_populated_or_null_witness :
  let items := [JObj [("id", JNum 1); ("category", JNull)];
                JObj [("id", JNum 2);
                      ("category", JObj [("id", JNum 7); ("name", JStr "Deportes");
                                         ("slug", JStr "deportes")])];
                JObj [("id", JNum 3)]] in
  let w := with_fetch quiet_world
             (fun _ => FetchResolved true 200 (Returned (JObj [("data", JArr items)]))) in
  exists l, result (Articles.fetchArticles w) = Returned l /\
            List.length l = List.length items /\
            Forall (fun a => category_invariant a = true) l.
Proof.
  intros items w.
  apply (fetchArticles_category_populated_or_null w 200 [("data", JArr items)] items).
  - reflexivity.
  - reflexivity.
  - simpl. intros [H|[H|[H|[]]]]; discriminate.
  - repeat constructor.
  - repeat constructor.
Defined.

Lemma map_article_by_slug_defined (item : json) :
  item <> JNull ->
  date_constructible item = true ->
  exists a, Articles.map_article_by_slug (Some item) = (Returned a, []) /\
            copies_fields item a.
Proof.
  intros Hn Hdate. unfold Articles.map_article_by_slug.
  rewrite !(get_prop_defined item) by exact Hn.
  destruct (new_Date_cases (get_opt (Some item) "publishedAt")) as [[_ Hd]|[Hp _]];
    [|unfold date_constructible in Hdate; congruence].
  cbn [bind ret app]. rewrite Hd.
  cbn [bind ret app]. eexists. split; [reflexivity|]. repeat split.
Qed.

(** X8. [fetchArticleBySlug] maps the first item of the answer, whatever
    follows it and whatever slug was asked for, when that item is not
    [null] and [new Date] accepts its [publishedAt]. *)
Theorem fetchArticleBySlug_first_item
        (w : World) (slug : string) (st : nat) (fields : list (string * json))
        (item : json) (others : list json) :
  fetch w (Articles.STRAPI_URL w ++ "/api/articles?filters[slug][$eq]=" ++ slug ++
           "&populate=*") =
    FetchResolved true st (Returned (JObj fields)) ->
  assoc "data" fields = Some (JArr (item :: others)) ->
  item <> JNull ->
  date_constructible item = true ->
  exists a, result (Articles.fetchArticleBySlug w slug) = Returned (Some a) /\
            copies_fields item a.
Proof.
  intros Hf Hd Hn Hdate. unfold Articles.fetchArticleBySlug.
  rewrite (fetch_json_ok _ _ _ _ _ Hf). cbn [bind ret app].
  rewrite (get_prop_defined (JObj fields) "data") by discriminate.
  cbn [bind ret app get_opt]. rewrite Hd.
  cbn [truthy negb Articles.value_length Articles.value_first List.length hd_error].
  replace (Z.of_nat (S (List.length others)) =? 0)%Z with false
    by (symmetry; apply Z.eqb_neq; lia).
  destruct (map_article_by_slug_defined item Hn Hdate) as (a & Ha & Hc).
  rewrite Ha. exists a. split; [reflexivity|exact Hc].
Qed.

Lemma fetchArticleBySlug_first_item_witness :
  let w := with_fetch quiet_world
             (fun _ => FetchResolved true 200
                (Returned (JObj [("data", JArr [JObj [("id", JNum 4); ("slug", JStr "otro")];
                                               JObj [("id", JNum 5); ("slug", JStr "x")]])]))) in
  exists a, result (Articles.fetchArticleBySlug w "x") = Returned (Some a) /\
            copies_fields (JObj [("id", JNum 4); ("slug", JStr "otro")]) a.
Proof.
  intros w.
  apply (fetchArticleBySlug_first_item w "x" 200
           [("data", JArr [JObj [("id", JNum 4); ("slug", JStr "otro")];
                           JObj [("id", JNum 5); ("slug", JStr "x")]])]
           (JObj [("id", JNum 4); ("slug", JStr "otro")])
           [JObj [("id", JNum 5); ("slug", JStr "x")]]).
  - reflexivity.
  - reflexivity.
  - discriminate.
  - reflexivity.
Defined.

(** X9. [fetchArticleBySlug] answers [null] when the request fails, when the
    status is an error, when the body is not JSON and when [data] is
    missing or empty. *)
Theorem fetchArticleBySlug_null_on_failure (w : World) (slug : string) :
  (let answer :=
     fetch w (Articles.STRAPI_URL w ++ "/api/articles?filters[slug][$eq]=" ++ slug ++
              "&populate=*") in
   (exists e, answer = FetchRejected e) \/
   (exists st js, answer = FetchResolved false st js) \/
   (exists st e, answer = FetchResolved true st (Threw e)) \/
   (exists st j, answer = FetchResolved true st (Returned j) /\
                 ArticleLists.missing_or_empty (get_opt (Some j) "data") = true)) ->
  result (Articles.fetchArticleBySlug w slug) = Returned None.
Proof.
  intros H. unfold Articles.fetchArticleBySlug.
  destruct H as [(e & He)|[(st & js & He)|[(st & e & He)|(st & j & He & Hd)]]].
  - unfold Articles.fetch_json. rewrite He. reflexivity.
  - unfold Articles.fetch_json. rewrite He. reflexivity.
  - unfold Articles.fetch_json. rewrite He. reflexivity.
  - rewrite (fetch_json_ok _ _ _ _ _ He). cbn [bind ret app].
    destruct j; try reflexivity.
    rewrite (get_prop_defined (JObj fields) "data") by discriminate.
    cbn [bind ret app]. unfold ArticleLists.missing_or_empty in Hd.
    destruct (get_opt (Some (JObj fields)) "data") as [list|]; [|reflexivity].
    destruct (negb (truthy list)); [reflexivity|]. simpl in Hd.
    rewrite Hd. reflexivity.
Qed.

Lemma fetchArticleBySlug_null_on_failure_witness :
  let w := with_fetch quiet_world
             (fun _ => FetchResolved true 200 (Returned (JObj [("data", JArr [])]))) in
  result (Articles.fetchArticleBySlug w "x") = Returned None.
Proof.
  intros w. apply (fetchArticleBySlug_null_on_failure w "x").
  right. right. right. exists 200, (JObj [("data", JArr [])]).
  split; reflexivity.
Defined.

(** ** The revalidation endpoint: errors *)

Lemma GET_throws_result
      (w : World) (req : RevalidateRoute.NextRequest) (p : string) (e : exn) :
  result (RevalidateRoute.isValidRequest w req) = Returned true ->
  or_str (RevalidateRoute.searchParams_get req "path") (Some "/") = Some p ->
  revalidatePath_throws w p = Some e ->
  exists b, result (RevalidateRoute.GET w req) = Returned (mkResponse 500 b) /\
            reports_revalidated (mkResponse 500 b) = false.
Proof.
  intros Hv Hp He. unfold RevalidateRoute.GET.
  destruct (RevalidateRoute.isValidRequest w req) as [[b|x] t];
    unfold result in Hv; simpl in Hv; inversion Hv; subst.
  rewrite Hp. unfold revalidatePath. rewrite He.
  eexists. split; reflexivity.
Qed.

(** X10. When [revalidatePath] throws, the revalidation endpoint answers 500
    with [revalidated: false] and the message of the error. *)
Theorem revalidate_GET_framework_throws_500
        (w : World) (req : RevalidateRoute.NextRequest) (p : string) (e : exn) :
  result (RevalidateRoute.isValidRequest w req) = Returned true ->
  or_str (RevalidateRoute.searchParams_get req "path") (Some "/") = Some p ->
  revalidatePath_throws w p = Some e ->
  result (RevalidateRoute.GET w req) =
    Returned (mkResponse 500 (JObj [("revalidated", JBool false);
                                    ("now", JNum (Date_now w));
                                    ("error", JStr (exn_message e))])) /\
  invalidations (trace (RevalidateRoute.GET w req)) = [ERevalidatePath p].
Proof.
  intros Hv Hp He. unfold RevalidateRoute.GET.
  pose proof (isValidRequest_no_invalidation w req) as Hn.
  destruct (RevalidateRoute.isValidRequest w req) as [[b|x] t];
    unfold result in Hv; simpl in Hv; inversion Hv; subst.
  rewrite Hp. unfold revalidatePath. rewrite He.
  unfold trace in *; simpl in *. split; [reflexivity|].
  unfold invalidations in *. rewrite !filter_app, Hn. reflexivity.
Qed.

Lemma revalidate_GET_framework_throws_500_witness :
  let w := with_revalidatePath
             (with_env quiet_world (env_of [("REVALIDATION_SECRET", "s3cret")]))
             (fun _ => Some (Error "static generation store missing")) in
  let req := RevalidateRoute.mkRequest [("secret", "s3cret")] in
  result (RevalidateRoute.GET w req) =
    Returned (mkResponse 500 (JObj [("revalidated", JBool false);
                                    ("now", JNum 0%Z);
                                    ("error", JStr "static generation store missing")])) /\
  invalidations (trace (RevalidateRoute.GET w req)) = [ERevalidatePath "/"].
Proof.
  intros w req.
  apply (revalidate_GET_framework_throws_500 w req "/" (Error "static generation store missing"));
    reflexivity.
Defined.

(** X11. The revalidation endpoint never lets an exception out: it answers
    200, 401 or 500, and [revalidated: true] goes with 200 only. *)
Theorem revalidate_GET_always_responds (w : World) (req : RevalidateRoute.NextRequest) :
  exists r,
    result (RevalidateRoute.GET w req) = Returned r /\
    (status r = 200 \/ status r = 401 \/ status r = 500) /\
    (reports_revalidated r = true <-> status r = 200).
Proof.
  destruct (isValidRequest_total w req) as [[|] Hv].
  - destruct (or_str (RevalidateRoute.searchParams_get req "path") (Some "/"))
      as [p|] eqn:Hp.
    + destruct (revalidatePath_throws w p) as [e|] eqn:He.
      * destruct (GET_throws_result w req p e Hv Hp He) as (b & Hr & Hb).
        eexists. split; [exact Hr|]. split; [simpl; auto|].
        rewrite Hb. split; intros H; discriminate.
      * destruct (GET_accepts w req p Hv Hp He) as [Hr _].
        eexists. split; [exact Hr|]. simpl. split; [auto|].
        split; reflexivity.
    + unfold or_str in Hp.
      destruct (truthy_str (RevalidateRoute.searchParams_get req "path")) eqn:E;
        [|discriminate].
      rewrite Hp in E. discriminate.
  - destruct (GET_rejects w req Hv) as [Hr _].
    eexists. split; [exact Hr|]. simpl. split; [auto|].
    split; intros H; discriminate.
Qed.

(** ** The webhook endpoint: rejections and errors *)

Lemma POST_rejects_result (w : World) (req : WebhookRoute.NextRequest) :
  result (WebhookRoute.validateWebhook w req) = Returned false ->
  exists r, result (WebhookRoute.POST w req) = Returned r /\ status r = 401.
Proof.
  intros Hv. unfold WebhookRoute.POST.
  destruct (WebhookRoute.validateWebhook w req) as [[b|e] tv];
    unfold result in Hv; simpl in Hv; inversion Hv; subst.
  destruct (WebhookRoute.request_json req) as [j|e]; simpl;
    eexists; split; reflexivity.
Qed.

(** X12. A request that fails the token check is answered 401 and invalidates
    nothing, whatever its body is. *)
Theorem webhook_POST_rejected (w : World) (req : WebhookRoute.NextRequest) :
  result (WebhookRoute.validateWebhook w req) = Returned false ->
  result (WebhookRoute.POST w req) =
    Returned (mkResponse 401 (JObj [("error", JStr "Token invalido")])) /\
  invalidations (trace (WebhookRoute.POST w req)) = [].
Proof.
  intros Hv. unfold WebhookRoute.POST.
  pose proof (validateWebhook_no_invalidation w req) as Hn.
  destruct (WebhookRoute.validateWebhook w req) as [[b|e] tv];
    unfold result in Hv; simpl in Hv; inversion Hv; subst.
  unfold trace in *; simpl in Hn.
  destruct (WebhookRoute.request_json req) as [j|e]; simpl.
  - split; [reflexivity|]. unfold invalidations in *.
    rewrite !filter_app, Hn. reflexivity.
  - split; [reflexivity|]. unfold invalidations in *.
    rewrite !filter_app, Hn. reflexivity.
Qed.

Lemma webhook_POST_rejected_witness :
  let w := with_env quiet_world
             (env_of [("NODE_ENV", "development"); ("WEBHOOK_TOKEN", "t0ken")]) in
  let req := WebhookRoute.mkRequest "http://localhost:3000/api/webhook" "POST"
               [("x-webhook-token", "guess")] []
               (Returned (JObj [("event", JStr "entry.publish"); ("model", JStr "article");
                                ("entry", JObj [("slug", JStr "x")])])) in
  result (WebhookRoute.POST w req) =
    Returned (mkResponse 401 (JObj [("error", JStr "Token invalido")])) /\
  invalidations (trace (WebhookRoute.POST w req)) = [].
Proof.
  intros w req. apply (webhook_POST_rejected w req). reflexivity.
Defined.

Lemma POST_accepted (w : World) (req : WebhookRoute.NextRequest) :
  result (WebhookRoute.validateWebhook w req) = Returned true ->
  let m := try_catch (after_validation w req (first_read req)) internal_error in
  result (WebhookRoute.POST w req) = result m /\
  invalidations (trace (WebhookRoute.POST w req)) = invalidations (trace m).
Proof.
  intros Hv m. subst m. unfold WebhookRoute.POST, first_read.
  pose proof (validateWebhook_no_invalidation w req) as Hn.
  destruct (WebhookRoute.validateWebhook w req) as [[b|e] tv];
    unfold result in Hv; simpl in Hv; inversion Hv; subst.
  unfold trace in Hn; simpl in Hn.
  destruct (WebhookRoute.request_json req) as [j|e];
    cbn [WebhookRoute.json_of WebhookRoute.log emit ret throw bind try_catch negb app].
  - fold (after_validation w req j).
    destruct (after_validation w req j) as [[r|e] t]; unfold result, trace; simpl.
    + split; [reflexivity|]. unfold invalidations in *.
      rewrite !filter_app, Hn. reflexivity.
    + split; [reflexivity|]. unfold invalidations in *.
      rewrite !filter_app, Hn. reflexivity.
  - fold (after_validation w req (JObj [])).
    destruct (after_validation w req (JObj [])) as [[r|e'] t]; unfold result, trace; simpl.
    + split; [reflexivity|]. unfold invalidations in *.
      rewrite !filter_app, Hn. reflexivity.
    + split; [reflexivity|]. unfold invalidations in *.
      rewrite !filter_app, Hn. reflexivity.
Qed.

(** X13. Outside development mode, an accepted request whose body cannot be
    read as JSON is answered 400 and invalidates nothing. *)
Theorem webhook_POST_unreadable_body_400
        (w : World) (req : WebhookRoute.NextRequest) (e : exn) :
  is_development w = false ->
  result (WebhookRoute.validateWebhook w req) = Returned true ->
  WebhookRoute.request_json req = Threw e ->
  result (WebhookRoute.POST w req) =
    Returned (mkResponse 400
                (JObj [("error", JStr "No se pudo leer el cuerpo de la solicitud");
                       ("details", JStr (String_of_exn e))])) /\
  invalidations (trace (WebhookRoute.POST w req)) = [].
Proof.
  intros Hdev Hv Hj. destruct (POST_accepted w req Hv) as [Hr Ht].
  rewrite Hr, Ht. unfold first_read, after_validation, WebhookRoute.second_attempt.
  rewrite Hj, Hdev. split; reflexivity.
Qed.

Lemma webhook_POST_unreadable_body_400_witness :
  let w := with_env quiet_world
             (env_of [("NODE_ENV", "production"); ("WEBHOOK_TOKEN", "t0ken")]) in
  let req := WebhookRoute.mkRequest "https://site.example/api/webhook?token=t0ken" "POST"
               [] [("token", "t0ken")]
               (Threw (mkExn "SyntaxError" "Unexpected token < in JSON at position 0")) in
  result (WebhookRoute.POST w req) =
    Returned (mkResponse 400
                (JObj [("error", JStr "No se pudo leer el cuerpo de la solicitud");
                       ("details",
                        JStr "SyntaxError: Unexpected token < in JSON at position 0")])) /\
  invalidations (trace (WebhookRoute.POST w req)) = [].
Proof.
  intros w req.
  apply (webhook_POST_unreadable_body_400 w req
           (mkExn "SyntaxError" "Unexpected token < in JSON at position 0"));
    reflexivity.
Defined.

(** X14. An accepted request whose JSON body is [null] is answered 500: the
    count of the body's keys throws, in every mode. *)
Theorem webhook_POST_null_body_500 (w : World) (req : WebhookRoute.NextRequest) :
  result (WebhookRoute.validateWebhook w req) = Returned true ->
  WebhookRoute.request_json req = Returned JNull ->
  result (WebhookRoute.POST w req) =
    Returned (mkResponse 500
                (JObj [("error", JStr "Error interno del servidor");
                       ("details", JStr "Cannot convert undefined or null to object")])) /\
  invalidations (trace (WebhookRoute.POST w req)) = [].
Proof.
  intros Hv Hj. destruct (POST_accepted w req Hv) as [Hr Ht].
  rewrite Hr, Ht. unfold first_read, after_validation, WebhookRoute.second_attempt.
  rewrite Hj. split; reflexivity.
Qed.

Lemma webhook_POST_null_body_500_witness :
  let w := with_env quiet_world
             (env_of [("NODE_ENV", "production"); ("WEBHOOK_TOKEN", "t0ken")]) in
  let req := WebhookRoute.mkRequest "https://site.example/api/webhook" "POST"
               [("webhook-token", "t0ken")] [] (Returned JNull) in
  result (WebhookRoute.POST w req) =
    Returned (mkResponse 500
                (JObj [("error", JStr "Error interno del servidor");
                       ("details", JStr "Cannot convert undefined or null to object")])) /\
  invalidations (trace (WebhookRoute.POST w req)) = [].
Proof.
  intros w req. apply (webhook_POST_null_body_500 w req); reflexivity.
Defined.

Lemma after_validation_object (w : World) (req : WebhookRoute.NextRequest)
      (fields : list (string * json)) :
  fields <> [] ->
  after_validation w req (JObj fields) = WebhookRoute.dispatch w (JObj fields).
Proof.
  intros H. unfold after_validation.
  rewrite (second_attempt_nonempty w req fields H). cbn [bind ret].
  destruct (WebhookRoute.dispatch w (JObj fields)) as [r t]. reflexivity.
Qed.

Lemma revalidate_main_pages_ok (w : World) :
  (forall p, revalidatePath_throws w p = None) ->
  (forall t, revalidateTag_throws w t = None) ->
  WebhookRoute.revalidate_main_pages w = (Returned tt, main_invalidations).
Proof.
  intros Hp Ht. unfold WebhookRoute.revalidate_main_pages, revalidatePath, revalidateTag.
  rewrite !Hp, !Ht. reflexivity.
Qed.

(** X15. In development mode an accepted request revalidates the home page,
    the listing and the two tags, whatever event and model its body names,
    when the body cannot be read and when it is an object whose
    [entry.slug] can be converted to a string. *)
Theorem webhook_POST_development_revalidates
        (w : World) (req : WebhookRoute.NextRequest) :
  is_development w = true ->
  result (WebhookRoute.validateWebhook w req) = Returned true ->
  ((exists e, WebhookRoute.request_json req = Threw e) \/
   (exists fields, WebhookRoute.request_json req = Returned (JObj fields) /\
                   printable (get_opt (assoc "entry" fields) "slug") = true)) ->
  (forall p, revalidatePath_throws w p = None) ->
  (forall t, revalidateTag_throws w t = None) ->
  exists r more,
    result (WebhookRoute.POST w req) = Returned r /\
    status r = 200 /\
    reports_success r = true /\
    reports_revalidated r = true /\
    invalidations (trace (WebhookRoute.POST w req)) = (main_invalidations ++ more)%list.
Proof.
  intros Hdev Hv Hbody Hp Ht. destruct (POST_accepted w req Hv) as [Hr Htr].
  rewrite Hr, Htr. clear Hr Htr.
  assert (Hunreadable : forall e, WebhookRoute.request_json req = Threw e ->
            WebhookRoute.second_attempt w req (JObj []) =
            (Returned (inl (NextResponse_json
                              (JObj [("success", JBool true);
                                     ("revalidated", JBool true);
                                     ("message",
                                      JStr "Paginas revalidadas (modo desarrollo, sin cuerpo)")]))),
             ELog WebhookRoute.LOG_FILE
                  "No se pudo leer el cuerpo de la solicitud (segundo intento)"
             :: ELog WebhookRoute.LOG_FILE "Modo desarrollo: revalidando todas las paginas"
             :: main_invalidations)).
  { intros e Hj. unfold WebhookRoute.second_attempt.
    rewrite Hj, Hdev, (revalidate_main_pages_ok w Hp Ht). reflexivity. }
  assert (Hdispatch : forall fields,
            printable (get_opt (assoc "entry" fields) "slug") = true ->
            exists r more,
              WebhookRoute.dispatch w (JObj fields) = (Returned r, more) /\
              status r = 200 /\ reports_success r = true /\
              reports_revalidated r = true /\
              exists rest, invalidations more = (main_invalidations ++ rest)%list).
  { intros fields Hslug. unfold WebhookRoute.dispatch.
    rewrite !(get_prop_defined (JObj fields)) by discriminate.
    cbn [bind ret app get_opt]. rewrite Hdev, (revalidate_main_pages_ok w Hp Ht).
    fold (read_slug w (assoc "entry" fields)).
    destruct (read_slug_printable w _ Hslug) as (slug & t & -> & Hi & Hc).
    assert (Hfilter : forall rest,
              invalidations (t ++ rest) = invalidations rest).
    { intros rest. unfold invalidations in *. rewrite filter_app, Hi. reflexivity. }
    cbn [bind].
    destruct (truthy slug); unfold revalidatePath, revalidateTag, js_toString;
      repeat (cbn; rewrite ?Hc, ?Hp, ?Ht); eexists; eexists;
      (split; [reflexivity|]); repeat split; rewrite Hfilter; eexists; reflexivity. }
  destruct Hbody as [(e & Hj)|(fields & Hj & Hslug)].
  - unfold first_read, after_validation. rewrite Hj, (Hunreadable e Hj).
    eexists. exists []. cbn. repeat split; reflexivity.
  - unfold first_read. rewrite Hj.
    destruct fields as [|f fs].
    + unfold after_validation, WebhookRoute.second_attempt.
      rewrite Hj. cbn [Object_keys_length List.length bind ret Nat.eqb app
                         WebhookRoute.json_of WebhookRoute.log emit try_catch].
      destruct (Hdispatch [] Hslug) as (r & more & Hd & Hs & Hsu & Hre & rest & Hi).
      rewrite Hd. exists r, rest. cbn. repeat split; assumption.
    + rewrite after_validation_object by discriminate.
      destruct (Hdispatch (f :: fs) Hslug) as (r & more & Hd & Hs & Hsu & Hre & rest & Hi).
      rewrite Hd. exists r, rest. cbn. repeat split; assumption.
Qed.

Lemma webhook_POST_development_revalidates_witness :
  let w := with_env quiet_world
             (env_of [("NODE_ENV", "development"); ("WEBHOOK_TOKEN", "t0ken")]) in
  let req := WebhookRoute.mkRequest "http://localhost:3000/api/webhook" "POST" [] []
               (Returned (JObj [("event", JStr "media.delete"); ("model", JStr "file")])) in
  exists r more,
    result (WebhookRoute.POST w req) = Returned r /\
    status r = 200 /\
    reports_success r = true /\
    reports_revalidated r = true /\
    invalidations (trace (WebhookRoute.POST w req)) = (main_invalidations ++ more)%list.
Proof.
  intros w req. apply (webhook_POST_development_revalidates w req).
  - reflexivity.
  - reflexivity.
  - right. eexists. split; reflexivity.
  - intros p. reflexivity.
  - intros t. reflexivity.
Defined.

Lemma article_event_recognised (ev model : string) :
  In ev article_events -> In model article_models ->
  (is_str (Some (JStr ev)) "entry.create" || is_str (Some (JStr ev)) "entry.update" ||
   is_str (Some (JStr ev)) "entry.publish" || is_str (Some (JStr ev)) "entry.unpublish") &&
  (is_str (Some (JStr model)) "article" || is_str (Some (JStr model)) "articles") = true.
Proof.
  intros Hin Hinm. simpl in Hin, Hinm.
  destruct Hin as [<-|[<-|[<-|[<-|[]]]]]; destruct Hinm as [<-|[<-|[]]]; reflexivity.
Qed.

(** X16. Outside development mode, an accepted article event whose entry has
    no slug (or an empty one) invalidates the home page, the listing and
    the two tags, and reports the paths ["/"] and ["/news"] only. *)
Theorem webhook_POST_article_event_without_slug
        (w : World) (req : WebhookRoute.NextRequest)
        (fields : list (string * json)) (ev model : string) :
  is_development w = false ->
  result (WebhookRoute.validateWebhook w req) = Returned true ->
  WebhookRoute.request_json req = Returned (JObj fields) ->
  assoc "event" fields = Some (JStr ev) ->
  In ev article_events ->
  assoc "model" fields = Some (JStr model) ->
  In model article_models ->
  truthy_val (get_opt (assoc "entry" fields) "slug") = false ->
  (forall p, revalidatePath_throws w p = None) ->
  (forall t, revalidateTag_throws w t = None) ->
  result (WebhookRoute.POST w req) =
    Returned (mkResponse 200
                (JObj [("success", JBool true);
                       ("revalidated", JBool true);
                       ("message", JStr "Paginas revalidadas exitosamente");
                       ("paths", JArr [JStr "/"; JStr "/news"])])) /\
  invalidations (trace (WebhookRoute.POST w req)) = main_invalidations.
Proof.
  intros Hdev Hv Hj Hev Hin Hmodel Hinm Hslug Hp Ht.
  destruct (POST_accepted w req Hv) as [Hr Htr]. rewrite Hr, Htr.
  unfold first_read. rewrite Hj.
  rewrite after_validation_object by exact (assoc_Some_nonempty _ _ _ Hev).
  unfold WebhookRoute.dispatch.
  rewrite !(get_prop_defined (JObj fields)) by discriminate.
  cbn [bind ret app get_opt]. rewrite Hslug, andb_false_r, Hdev, Hev, Hmodel.
  rewrite (article_event_recognised ev model Hin Hinm).
  rewrite (revalidate_main_pages_ok w Hp Ht). split; reflexivity.
Qed.

Lemma webhook_POST_article_event_without_slug_witness :
  let w := with_env quiet_world
             (env_of [("NODE_ENV", "production"); ("WEBHOOK_TOKEN", "t0ken")]) in
  let fields := [("event", JStr "entry.unpublish"); ("model", JStr "articles");
                 ("entry", JObj [("id", JNum 4)])] in
  let req := WebhookRoute.mkRequest "https://site.example/api/webhook" "POST"
               [("x-webhook-token", "t0ken")] [] (Returned (JObj fields)) in
  result (WebhookRoute.POST w req) =
    Returned (mkResponse 200
                (JObj [("success", JBool true);
                       ("revalidated", JBool true);
                       ("message", JStr "Paginas revalidadas exitosamente");
                       ("paths", JArr [JStr "/"; JStr "/news"])])) /\
  invalidations (trace (WebhookRoute.POST w req)) = main_invalidations.
Proof.
  intros w fields req.
  apply (webhook_POST_article_event_without_slug w req fields "entry.unpublish" "articles");
    try solve [reflexivity | intros; reflexivity | simpl; tauto].
Defined.

(** X17. When the first framework call throws, an accepted article event
    whose [entry.slug] can be converted to a string is answered 500 with
    the message of the error, and no other page or tag is invalidated. *)
Theorem webhook_POST_framework_throws_500
        (w : World) (req : WebhookRoute.NextRequest)
        (fields : list (string * json)) (ev model : string) (e : exn) :
  is_development w = false ->
  result (WebhookRoute.validateWebhook w req) = Returned true ->
  WebhookRoute.request_json req = Returned (JObj fields) ->
  assoc "event" fields = Some (JStr ev) ->
  In ev article_events ->
  assoc "model" fields = Some (JStr model) ->
  In model article_models ->
  printable (get_opt (assoc "entry" fields) "slug") = true ->
  revalidatePath_throws w "/" = Some e ->
  result (WebhookRoute.POST w req) =
    Returned (mkResponse 500
                (JObj [("error", JStr "Error interno del servidor");
                       ("details", JStr (exn_message e))])) /\
  invalidations (trace (WebhookRoute.POST w req)) = [ERevalidatePath "/"].
Proof.
  intros Hdev Hv Hj Hev Hin Hmodel Hinm Hslug He.
  destruct (POST_accepted w req Hv) as [Hr Htr]. rewrite Hr, Htr.
  unfold first_read. rewrite Hj.
  rewrite after_validation_object by exact (assoc_Some_nonempty _ _ _ Hev).
  unfold WebhookRoute.dispatch.
  rewrite !(get_prop_defined (JObj fields)) by discriminate.
  cbn [bind ret app get_opt]. rewrite Hdev, Hev, Hmodel.
  rewrite (article_event_recognised ev model Hin Hinm).
  fold (read_slug w (assoc "entry" fields)).
  destruct (read_slug_printable w _ Hslug) as (slug & t & -> & Hi & _).
  unfold WebhookRoute.revalidate_main_pages, revalidatePath. rewrite He.
  unfold result, trace. cbn. split; [reflexivity|].
  unfold invalidations in *. rewrite !filter_app, Hi. reflexivity.
Qed.

Lemma webhook_POST_framework_throws_500_witness :
  let w := with_revalidatePath
             (with_env quiet_world
                (env_of [("NODE_ENV", "production"); ("WEBHOOK_TOKEN", "t0ken")]))
             (fun _ => Some (Error "static generation store missing")) in
  let fields := [("event", JStr "entry.update"); ("model", JStr "article");
                 ("entry", JObj [("slug", JStr "x")])] in
  let req := WebhookRoute.mkRequest "https://site.example/api/webhook" "POST"
               [("x-webhook-token", "t0ken")] [] (Returned (JObj fields)) in
  result (WebhookRoute.POST w req) =
    Returned (mkResponse 500
                (JObj [("error", JStr "Error interno del servidor");
                       ("details", JStr "static generation store missing")])) /\
  invalidations (trace (WebhookRoute.POST w req)) = [ERevalidatePath "/"].
Proof.
  intros w fields req.
  apply (webhook_POST_framework_throws_500 w req fields "entry.update" "article"
           (Error "static generation store missing"));
    try solve [reflexivity | simpl; tauto].
Defined.

(** ** The webhook endpoint: the token *)

(** X19. The token is looked for in [x-webhook-token], then [webhook-token],
    then [x-strapi-webhook-token], then the [token] query parameter: the
    first of the four that is present and not empty is the one that is
    checked, whatever the later ones carry. Outside development mode the
    request is then accepted exactly when that token is the configured
    one. *)
Theorem validateWebhook_token_precedence
        (w : World) (req : WebhookRoute.NextRequest) (t : string) :
  is_development w = false ->
  t <> "" ->
  WebhookRoute.headers_get req "x-webhook-token" = Some t \/
  (truthy_str (WebhookRoute.headers_get req "x-webhook-token") = false /\
   WebhookRoute.headers_get req "webhook-token" = Some t) \/
  (truthy_str (WebhookRoute.headers_get req "x-webhook-token") = false /\
   truthy_str (WebhookRoute.headers_get req "webhook-token") = false /\
   WebhookRoute.headers_get req "x-strapi-webhook-token" = Some t) \/
  (truthy_str (WebhookRoute.headers_get req "x-webhook-token") = false /\
   truthy_str (WebhookRoute.headers_get req "webhook-token") = false /\
   truthy_str (WebhookRoute.headers_get req "x-strapi-webhook-token") = false /\
   WebhookRoute.searchParams_get req "token" = Some t) ->
  WebhookRoute.received_token req = Some t /\
  (result (WebhookRoute.validateWebhook w req) = Returned true <->
   env w "WEBHOOK_TOKEN" = Some t).
Proof.
  intros Hdev Ht Hsrc.
  assert (Htt : truthy_str (Some t) = true) by (apply str_truthy_true; exact Ht).
  assert (Hr : WebhookRoute.received_token req = Some t).
  { unfold WebhookRoute.received_token.
    destruct Hsrc as [H1|[(F1 & H2)|[(F1 & F2 & H3)|(F1 & F2 & F3 & H4)]]].
    - unfold or_str at 1. rewrite H1, Htt. reflexivity.
    - unfold or_str at 1. rewrite F1.
      unfold or_str at 1. rewrite H2, Htt. reflexivity.
    - unfold or_str at 1. rewrite F1.
      unfold or_str at 1. rewrite F2.
      unfold or_str at 1. rewrite H3, Htt. reflexivity.
    - unfold or_str at 1. rewrite F1.
      unfold or_str at 1. rewrite F2.
      unfold or_str at 1. rewrite F3. exact H4. }
  split; [exact Hr|].
  rewrite (validateWebhook_production w req Hdev). rewrite Hr. split.
  - intros (t' & _ & He & Heq). congruence.
  - intros He. exists t. auto.
Qed.

Lemma validateWebhook_token_precedence_witness :
  let w := with_env quiet_world
             (env_of [("NODE_ENV", "production"); ("WEBHOOK_TOKEN", "t0ken")]) in
  let req := WebhookRoute.mkRequest "https://site.example/api/webhook?token=t0ken" "POST"
               [("x-webhook-token", ""); ("webhook-token", "stale");
                ("x-strapi-webhook-token", "t0ken")]
               [("token", "t0ken")] (Returned (JObj [])) in
  WebhookRoute.received_token req = Some "stale" /\
  (result (WebhookRoute.validateWebhook w req) = Returned true <->
   env w "WEBHOOK_TOKEN" = Some "stale").
Proof.
  intros w req.
  apply (validateWebhook_token_precedence w req "stale").
  - reflexivity.
  - discriminate.
  - right. left. split; reflexivity.
Defined.

(** X20. In development mode, with [WEBHOOK_TOKEN] configured, a request is
    accepted when it carries no token at all or the configured one; a
    wrong token is still rejected. *)
Theorem validateWebhook_development
        (w : World) (req : WebhookRoute.NextRequest) (expected : string) :
  is_development w = true ->
  env w "WEBHOOK_TOKEN" = Some expected ->
  expected <> "" ->
  (result (WebhookRoute.validateWebhook w req) = Returned true <->
   truthy_str (WebhookRoute.received_token req) = false \/
   WebhookRoute.received_token req = Some expected).
Proof.
  intros Hdev He Hne. apply str_truthy_true in Hne.
  unfold WebhookRoute.validateWebhook. rewrite He, Hdev.
  unfold truthy_str at 1. rewrite Hne.
  cbn [negb andb].
  destruct (truthy_str (WebhookRoute.received_token req)) eqn:Ht;
    cbn [negb bind ret emit WebhookRoute.log result fst app].
  - destruct (WebhookRoute.received_token req) as [t|]; [|discriminate].
    destruct (String.eqb_spec t expected) as [->|Hd];
      cbn [negb bind ret emit WebhookRoute.log result fst app].
    + split; [auto|reflexivity].
    + split; [discriminate|]. intros [H|H]; congruence.
  - split; [auto|reflexivity].
Qed.

Lemma validateWebhook_development_witness :
  let w := with_env quiet_world
             (env_of [("NODE_ENV", "development"); ("WEBHOOK_TOKEN", "t0ken")]) in
  let req := WebhookRoute.mkRequest "http://localhost:3000/api/webhook" "POST" [] []
               (Returned (JObj [])) in
  result (WebhookRoute.validateWebhook w req) = Returned true <->
  truthy_str (WebhookRoute.received_token req) = false \/
  WebhookRoute.received_token req = Some "t0ken".
Proof.
  intros w req.
  apply (validateWebhook_development w req "t0ken");
    solve [reflexivity | discriminate].
Defined.

(** The GET handler of the webhook route only reports whether the token
    check passes: 200 with [success: true] when it does, 401 when it does
    not, and no invalidation either way. *)
Theorem webhook_GET_checks_token_only (w : World) (req : WebhookRoute.NextRequest) :
  exists valid : bool,
    result (WebhookRoute.validateWebhook w req) = Returned valid /\
    result (WebhookRoute.GET w req) =
      Returned (if valid
                then mkResponse 200
                       (JObj [("success", JBool true);
                              ("message", JStr "Webhook configurado correctamente");
                              ("timestamp", JStr (Date_toISOString w))])
                else mkResponse 401 (JObj [("error", JStr "Token invalido")])) /\
    invalidations (trace (WebhookRoute.GET w req)) = [].
Proof.
  unfold WebhookRoute.GET.
  pose proof (validateWebhook_no_invalidation w req) as Hn.
  destruct (validateWebhook_total w req) as [b Hb].
  destruct (WebhookRoute.validateWebhook w req) as [[b'|e] tv];
    unfold result in Hb; simpl in Hb; inversion Hb; subst.
  unfold trace in Hn; simpl in Hn. unfold result, trace.
  exists b. destruct b; simpl; (split; [reflexivity|]); (split; [reflexivity|]);
    unfold invalidations in *; rewrite !filter_app, Hn; reflexivity.
Qed.

Ltac invert_binds H :=
  repeat (apply bind_returned_inv in H; destruct H as (? & ? & ? & _ & H)).

Lemma dispatch_status (w : World) (body1 : json) (r : Response) (t : list event) :
  WebhookRoute.dispatch w body1 = (Returned r, t) -> status r = 200.
Proof.
  unfold WebhookRoute.dispatch. intros H. invert_binds H.
  destruct (is_development w).
  - invert_binds H. inversion H; subst. reflexivity.
  - match type of H with
    | (if ?c then _ else _) = _ => destruct c
    end; invert_binds H; inversion H; subst; reflexivity.
Qed.

Lemma second_attempt_status (w : World) (req : WebhookRoute.NextRequest)
      (body0 : json) (r : Response) (t : list event) :
  WebhookRoute.second_attempt w req body0 = (Returned (inl r), t) ->
  status r = 200 \/ status r = 400.
Proof.
  unfold WebhookRoute.second_attempt. intros H.
  apply bind_returned_inv in H. destruct H as (n & t1 & t2 & _ & H).
  destruct (Nat.eqb n 0); [|inversion H].
  destruct (WebhookRoute.request_json req) as [j|e]; cbn in H.
  - inversion H.
  - destruct (is_development w).
    + destruct (WebhookRoute.revalidate_main_pages w) as [[[]|e'] tm];
        cbn in H; inversion H; subst. left. reflexivity.
    + inversion H; subst. right. reflexivity.
Qed.

(** X18. The webhook POST handler never lets an exception out: it answers 200,
    400, 401 or 500. *)
Theorem webhook_POST_always_responds (w : World) (req : WebhookRoute.NextRequest) :
  exists r,
    result (WebhookRoute.POST w req) = Returned r /\
    (status r = 200 \/ status r = 400 \/ status r = 401 \/ status r = 500).
Proof.
  destruct (validateWebhook_total w req) as [[|] Hv].
  - destruct (POST_accepted w req Hv) as [Hr _]. rewrite Hr.
    destruct (after_validation w req (first_read req)) as [[r|e] t] eqn:Ha.
    + exists r. split; [reflexivity|].
      unfold after_validation in Ha.
      apply bind_returned_inv in Ha. destruct Ha as (second & t1 & t2 & Hs & Hd).
      destruct second as [r'|body1].
      * inversion Hd; subst.
        destruct (second_attempt_status w req _ _ _ Hs) as [H|H]; auto.
      * left. exact (dispatch_status w body1 r t2 Hd).
    + eexists. split; [reflexivity|]. simpl. auto.
  - destruct (POST_rejects_result w req Hv) as (r & Hr & Hs).
    exists r. split; [exact Hr|]. auto.
Qed.

(** ** The Pages Router revalidation handler *)

(** X22. With [REVALIDATION_SECRET] unset, the Pages Router handler lets a
    request without [secret] through: the path is revalidated and the
    answer is 200. *)
Theorem pages_handler_open_when_unconfigured
        (w : World) (req : PagesRevalidate.NextApiRequest) (p : json) :
  env w "REVALIDATION_SECRET" = None ->
  assoc "secret" (PagesRevalidate.query req) = None ->
  assoc "path" (PagesRevalidate.query req) = Some p ->
  truthy p = true ->
  res_revalidate_throws w p = None ->
  PagesRevalidate.handler w req =
    (Returned (mkResponse 200 (JObj [("revalidated", JBool true); ("path", p)])),
     [EResRevalidate p]).
Proof.
  intros He Hs Hp Ht Hr. unfold PagesRevalidate.handler, PagesRevalidate.differs.
  rewrite He, Hs, Hp, Ht. unfold res_revalidate. rewrite Hr. reflexivity.
Qed.

Lemma pages_handler_open_when_unconfigured_witness :
  PagesRevalidate.handler quiet_world
    (PagesRevalidate.mkRequest [("path", JStr "/news/x")]) =
    (Returned (mkResponse 200 (JObj [("revalidated", JBool true); ("path", JStr "/news/x")])),
     [EResRevalidate (JStr "/news/x")]).
Proof.
  apply (pages_handler_open_when_unconfigured quiet_world
           (PagesRevalidate.mkRequest [("path", JStr "/news/x")]) (JStr "/news/x"));
    reflexivity.
Defined.

(** X23. A [secret] that arrives as an array (the parameter repeated in the
    query string) is rejected with 401 even when its entries are the
    configured secret. *)
Theorem pages_handler_array_secret_rejected
        (w : World) (req : PagesRevalidate.NextApiRequest) (values : list json) :
  assoc "secret" (PagesRevalidate.query req) = Some (JArr values) ->
  PagesRevalidate.handler w req =
    (Returned (mkResponse 401 (JObj [("message", JStr "Invalid token")])), []).
Proof.
  intros Hs. unfold PagesRevalidate.handler, PagesRevalidate.differs.
  rewrite Hs. destruct (env w "REVALIDATION_SECRET"); reflexivity.
Qed.

Lemma pages_handler_array_secret_rejected_witness :
  let w := with_env quiet_world (env_of [("REVALIDATION_SECRET", "s3cret")]) in
  PagesRevalidate.handler w
    (PagesRevalidate.mkRequest [("secret", JArr [JStr "s3cret"; JStr "s3cret"]);
                                ("path", JStr "/")]) =
    (Returned (mkResponse 401 (JObj [("message", JStr "Invalid token")])), []).
Proof.
  intros w.
  apply (pages_handler_array_secret_rejected w _ [JStr "s3cret"; JStr "s3cret"]).
  reflexivity.
Defined.

(** With the configured secret and a path, the Pages Router handler calls
    [res.revalidate] on that path once, and answers 200 with the path
    echoed when the call returns, 500 with the error when it throws. *)
Theorem pages_handler_valid_request
        (w : World) (req : PagesRevalidate.NextApiRequest) (s : string) (p : json) :
  env w "REVALIDATION_SECRET" = Some s ->
  assoc "secret" (PagesRevalidate.query req) = Some (JStr s) ->
  assoc "path" (PagesRevalidate.query req) = Some p ->
  truthy p = true ->
  PagesRevalidate.handler w req =
    (Returned
       match res_revalidate_throws w p with
       | None => mkResponse 200 (JObj [("revalidated", JBool true); ("path", p)])
       | Some e => mkResponse 500 (JObj [("message", JStr "Error revalidating");
                                         ("error", JStr (String_of_exn e))])
       end,
     [EResRevalidate p]).
Proof.
  intros He Hs Hp Ht. unfold PagesRevalidate.handler, PagesRevalidate.differs.
  rewrite He, Hs, Hp, Ht, String.eqb_refl. unfold res_revalidate.
  destruct (res_revalidate_throws w p); reflexivity.
Qed.

Lemma pages_handler_valid_request_witness :
  let w := with_env quiet_world (env_of [("REVALIDATION_SECRET", "s3cret")]) in
  PagesRevalidate.handler w
    (PagesRevalidate.mkRequest [("secret", JStr "s3cret"); ("path", JStr "/news/x")]) =
    (Returned (mkResponse 200 (JObj [("revalidated", JBool true); ("path", JStr "/news/x")])),
     [EResRevalidate (JStr "/news/x")]).
Proof.
  intros w.
  apply (pages_handler_valid_request w
           (PagesRevalidate.mkRequest [("secret", JStr "s3cret"); ("path", JStr "/news/x")])
           "s3cret" (JStr "/news/x")); reflexivity.
Defined.

(** ** The deployment script *)

Lemma logged_after_app (p : string) (t1 t2 : list event) :
  logged_after p (t1 ++ t2) = (logged_after p t1 ++ logged_after p t2)%list.
Proof.
  induction t1 as [|ev t1 IH]; simpl; [reflexivity|].
  destruct ev; simpl; try exact IH.
  destruct (after_prefix p msg); simpl; rewrite IH; reflexivity.
Qed.

Lemma array_map_get_prop_trace (k : string) (l : list json) :
  trace (array_map (fun article => get_prop (Some article) k) l) = [].
Proof.
  induction l as [|x l IH]; [reflexivity|].
  change (array_map (fun article => get_prop (Some article) k) (x :: l))
    with (bind (get_prop (Some x) k)
            (fun y => bind (array_map (fun article => get_prop (Some article) k) l)
                        (fun ys => ret (y :: ys)))).
  destruct (array_map (fun article => get_prop (Some article) k) l) as [[ys|e] t];
    unfold trace in IH; simpl in IH; subst t; destruct x; reflexivity.
Qed.

Lemma fetchAllArticleSlugs_logs_nothing (w : World) (p : string) :
  exists slugs,
    result (ArticleLists.fetchAllArticleSlugs w) = Returned slugs /\
    logged_after p (trace (ArticleLists.fetchAllArticleSlugs w)) = [].
Proof.
  unfold ArticleLists.fetchAllArticleSlugs.
  pose proof (fetch_json_no_events w
                (Articles.STRAPI_URL w ++ "/api/articles?fields[0]=slug")
                "article slugs") as Hn.
  destruct (Articles.fetch_json w _ "article slugs") as [[data|e] t0];
    unfold trace in Hn; simpl in Hn; subst t0.
  - cbn [bind emit ret app].
    destruct data as [|b|n|s|l|fields]; try (eexists; split; reflexivity).
    rewrite (get_prop_defined (JObj fields) "data") by discriminate.
    cbn [get_opt bind ret app].
    destruct (assoc "data" fields) as [[|b|n|s|items|f]|];
      try (eexists; split; reflexivity).
    pose proof (array_map_get_prop_trace "slug" items) as Ht.
    destruct (array_map (fun article => get_prop (Some article) "slug") items)
      as [[ys|e] t]; unfold trace in Ht; simpl in Ht; subst t;
      eexists; split; reflexivity.
  - eexists. split; reflexivity.
Qed.

Lemma regenerate_page_started (w : World) (path : string) :
  exists t,
    WebhookDeploy.regenerate_page w path = (Returned tt, t) /\
    pages_started t = [path] /\
    urls_called t =
      if truthy_str (env w "REVALIDATION_SECRET") then
        [match or_str (env w "NEXT_PUBLIC_SITE_URL") (Some "http://localhost:3000") with
         | Some u => u
         | None => "http://localhost:3000"
         end ++ "/api/revalidate?path=" ++ encodeURIComponent path ++ "&secret=" ++
         match env w "REVALIDATION_SECRET" with Some s => s | None => "" end]
      else [].
Proof.
  unfold WebhookDeploy.regenerate_page, WebhookDeploy.log.
  destruct (truthy_str (env w "REVALIDATION_SECRET")); cbn [negb].
  - match goal with |- context [fetch w ?u] => destruct (fetch w u) as [e|ok st [j|e]] end.
    + eexists. split; [reflexivity|]. split; reflexivity.
    + destruct ok.
      * destruct j as [|b|n|s|l|fields]; cbn [get_prop];
          try (eexists; split; [reflexivity|]; split; reflexivity).
        destruct (truthy_val (assoc "revalidated" fields)) eqn:E;
          cbn [bind ret emit app andb try_catch]; rewrite ?E;
          eexists; (split; [reflexivity|]); split; reflexivity.
      * eexists. split; [reflexivity|]. split; reflexivity.
    + eexists. split; [reflexivity|]. split; reflexivity.
  - eexists. split; [reflexivity|]. split; reflexivity.
Qed.

Lemma regenerate_loop (w : World) (pages : list string) :
  exists t,
    for_of (WebhookDeploy.regenerate_page w) pages = (Returned tt, t) /\
    pages_started t = pages /\
    urls_called t =
      if truthy_str (env w "REVALIDATION_SECRET") then
        map (fun path =>
               match or_str (env w "NEXT_PUBLIC_SITE_URL") (Some "http://localhost:3000") with
               | Some u => u
               | None => "http://localhost:3000"
               end ++ "/api/revalidate?path=" ++ encodeURIComponent path ++ "&secret=" ++
               match env w "REVALIDATION_SECRET" with Some s => s | None => "" end)
            pages
      else [].
Proof.
  induction pages as [|p pages IH].
  - exists []. repeat split. destruct (truthy_str _); reflexivity.
  - destruct IH as (t & Ht & Hs & Hu).
    destruct (regenerate_page_started w p) as (t1 & H1 & Hs1 & Hu1).
    exists (t1 ++ t)%list. rewrite for_of_cons, H1. cbn [bind]. rewrite Ht.
    split; [reflexivity|]. unfold pages_started, urls_called in *.
    rewrite !logged_after_app, Hs1, Hs, Hu1, Hu.
    split; [reflexivity|]. destruct (truthy_str _); reflexivity.
Qed.

Lemma template_returns (w : World) (v : jsval) :
  printable v = true -> template w v = (Returned (template_text w v), []).
Proof.
  destruct v as [j|]; [|reflexivity].
  intros H. apply printable_Some in H. unfold template, js_toString.
  rewrite H. reflexivity.
Qed.

Lemma pagesToRegenerate_printable (w : World) (slugs : list jsval) :
  forallb printable slugs = true ->
  WebhookDeploy.pagesToRegenerate w slugs =
    (Returned ("/" :: "/news" ::
               map (fun slug => "/news/" ++ template_text w slug) slugs), []).
Proof.
  intros H. unfold WebhookDeploy.pagesToRegenerate.
  rewrite (array_map_pure _ (fun slug => "/news/" ++ template_text w slug)).
  - reflexivity.
  - intros x Hx. rewrite forallb_forall in H.
    rewrite (template_returns w x (H x Hx)). reflexivity.
Qed.

Lemma pagesToRegenerate_unprintable (w : World) (slugs : list jsval) :
  forallb printable slugs = false ->
  exists e, WebhookDeploy.pagesToRegenerate w slugs = (Threw e, []).
Proof.
  intros H. unfold WebhookDeploy.pagesToRegenerate.
  assert (Hex : exists x, In x slugs /\ printable x = false).
  { induction slugs as [|x l IH]; [discriminate|]. simpl in H.
    destruct (printable x) eqn:E.
    - destruct (IH H) as (y & Hy & Hp). exists y. split; [right; exact Hy|exact Hp].
    - exists x. split; [left; reflexivity|exact E]. }
  destruct Hex as (x & Hin & Hp).
  destruct (template_unprintable w x Hp) as (e & He).
  destruct (array_map_throws
              (fun slug => text <- template w slug ;; ret ("/news/" ++ text))
              slugs x e Hin) as (e' & He').
  - intros y _. destruct (printable y) eqn:E.
    + rewrite (template_returns w y E). eexists. reflexivity.
    + destruct (template_unprintable w y E) as (e0 & ->). eexists. reflexivity.
  - rewrite He. reflexivity.
  - rewrite He'. exists e'. reflexivity.
Qed.

Lemma regenerateStaticPages_run (w : World) (slugs : list jsval) :
  result (ArticleLists.fetchAllArticleSlugs w) = Returned slugs ->
  forallb printable slugs = true ->
  let pages := "/" :: "/news" ::
               map (fun slug => "/news/" ++ template_text w slug) slugs in
  exists t,
    WebhookDeploy.regenerateStaticPages w = (Returned tt, t) /\
    pages_started t = pages /\
    urls_called t =
      if truthy_str (env w "REVALIDATION_SECRET") then
        map (fun path =>
               match or_str (env w "NEXT_PUBLIC_SITE_URL") (Some "http://localhost:3000") with
               | Some u => u
               | None => "http://localhost:3000"
               end ++ "/api/revalidate?path=" ++ encodeURIComponent path ++ "&secret=" ++
               match env w "REVALIDATION_SECRET" with Some s => s | None => "" end)
            pages
      else [].
Proof.
  intros Hr0 Hprint pages.
  destruct (fetchAllArticleSlugs_logs_nothing w "Regenerando pagina: ") as (slugs1 & Hr & Hs).
  destruct (fetchAllArticleSlugs_logs_nothing w "Llamando al endpoint de revalidacion: ")
    as (slugs' & Hr' & Hu).
  destruct (regenerate_loop w pages) as (tl & Hl & Hsl & Hul).
  unfold WebhookDeploy.regenerateStaticPages, WebhookDeploy.log.
  destruct (ArticleLists.fetchAllArticleSlugs w) as [[x|e] t0];
    unfold result, trace in *; simpl in Hr0, Hr, Hs, Hu; inversion Hr0; subst x.
  cbn [bind emit ret app try_catch].
  rewrite (pagesToRegenerate_printable w slugs Hprint).
  cbn [bind emit ret app try_catch]. fold pages. rewrite Hl.
  eexists. split; [reflexivity|].
  unfold pages_started, urls_called in *.
  cbn [logged_after]. rewrite !logged_after_app, Hs, Hu.
  cbn [app logged_after].
  rewrite !logged_after_app, Hsl, Hul.
  split; cbn; rewrite app_nil_r; reflexivity.
Qed.

(** A slug that cannot be written into a page path ends
    [regenerateStaticPages] before any page is regenerated: the error is
    logged and thrown again. *)
Lemma regenerateStaticPages_throws (w : World) (slugs : list jsval) :
  result (ArticleLists.fetchAllArticleSlugs w) = Returned slugs ->
  forallb printable slugs = false ->
  exists e t,
    WebhookDeploy.regenerateStaticPages w = (Threw e, t) /\
    pages_started t = [] /\ urls_called t = [].
Proof.
  intros Hr0 Hprint.
  destruct (fetchAllArticleSlugs_logs_nothing w "Regenerando pagina: ") as (slugs1 & Hr & Hs).
  destruct (fetchAllArticleSlugs_logs_nothing w "Llamando al endpoint de revalidacion: ")
    as (slugs' & Hr' & Hu).
  destruct (pagesToRegenerate_unprintable w slugs Hprint) as (e & He).
  unfold WebhookDeploy.regenerateStaticPages, WebhookDeploy.log.
  destruct (ArticleLists.fetchAllArticleSlugs w) as [[x|e0] t0];
    unfold result, trace in *; simpl in Hr0, Hr, Hs, Hu; inversion Hr0; subst x.
  cbn [bind emit ret app try_catch]. rewrite He.
  cbn [bind emit ret throw app try_catch].
  exists e. eexists. split; [reflexivity|].
  unfold pages_started, urls_called in *.
  cbn [logged_after]. rewrite !logged_after_app, Hs, Hu.
  split; reflexivity.
Qed.



(** X25. The deployment exits with code 0 exactly when every article slug can
    be written into a page path and [npm run build] succeeds. What the
    revalidation endpoint answers never fails it; a slug whose conversion
    to a string throws fails it before the build is run. *)
Theorem deploy_exit_code (w : World) (exec : string -> exec_result) :
  exists slugs,
    result (ArticleLists.fetchAllArticleSlugs w) = Returned slugs /\
    result (WebhookDeploy.deploy w exec) =
      Returned (if forallb printable slugs then
                  match exec "npm run build" with
                  | ExecDone _ _ => 0
                  | ExecFailed _ _ _ => 1
                  end
                else 1).
Proof.
  destruct (fetchAllArticleSlugs_logs_nothing w "") as (slugs & Hr & _).
  exists slugs. split; [exact Hr|].
  unfold WebhookDeploy.deploy, WebhookDeploy.runCommand, WebhookDeploy.log_if_present,
    WebhookDeploy.log.
  destruct (forallb printable slugs) eqn:Hprint.
  - destruct (regenerateStaticPages_run w slugs Hr Hprint) as (t & Ht & _).
    rewrite Ht.
    destruct (exec "npm run build") as [out err|msg out err].
    + destruct (str_truthy out), (str_truthy err); reflexivity.
    + destruct out as [o|]; [destruct (str_truthy o)|];
        (destruct err as [e|]; [destruct (str_truthy e)|]); reflexivity.
  - destruct (regenerateStaticPages_throws w slugs Hr Hprint) as (e & t & Ht & _).
    rewrite Ht. reflexivity.
Qed.

(** A slug that is an object with a key [toString] fails the deployment:
    no page is regenerated and the build is not run. *)
Example deploy_unconvertible_slug :
  let w := with_fetch
             (with_env quiet_world (env_of [("REVALIDATION_SECRET", "s3cret")]))
             (fun u => if includes "fields[0]=slug" u
                       then FetchResolved true 200
                              (Returned (JObj [("data",
                                                JArr [JObj [("slug", JStr "uno")];
                                                      JObj [("slug",
                                                             JObj [("toString", JNum 1)])]])]))
                       else FetchResolved true 200 (Returned (JObj [("revalidated", JBool true)]))) in
  let run := WebhookDeploy.deploy w (fun _ => ExecDone "ok" "") in
  result run = Returned 1 /\
  pages_started (trace run) = [] /\
  urls_called (trace run) = [] /\
  logged_after "Iniciando: " (trace run) = [].
Proof. repeat split; reflexivity. Qed.

Example deploy_revalidates_before_building :
  let w := with_fetch
             (with_env quiet_world
                (env_of [("REVALIDATION_SECRET", "s3cret");
                         ("NEXT_PUBLIC_SITE_URL", "https://site.example")]))
             (fun u => if includes "fields[0]=slug" u
                       then FetchResolved true 200
                              (Returned (JObj [("data", JArr [JObj [("slug", JStr "a&b c")];
                                                              JObj [("id", JNum 2)]])]))
                       else FetchRejected (Error "connect ECONNREFUSED")) in
  result (WebhookDeploy.deploy w (fun _ => ExecDone "ok" "")) = Returned 0 /\
  urls_called (trace (WebhookDeploy.deploy w (fun _ => ExecDone "ok" ""))) =
    ["https://site.example/api/revalidate?path=%2F&secret=s3cret";
     "https://site.example/api/revalidate?path=%2Fnews&secret=s3cret";
     "https://site.example/api/revalidate?path=%2Fnews%2Fa%26b%20c&secret=s3cret";
     "https://site.example/api/revalidate?path=%2Fnews%2Fundefined&secret=s3cret"].
Proof. split; reflexivity. Qed.

(** ** The upload script: the whole batch *)

Lemma upload_loop_succeeds (w : World) (OUT_DIR : string) (paths : list string) :
  (forall p, In p paths ->
             readFileSync_throws w p = None /\
             upload_throws w (s3Key_of w OUT_DIR p) = None) ->
  let loop := for_of (fun p => UploadToS3.uploadFileToS3 w p (s3Key_of w OUT_DIR p)) paths in
  result loop = Returned tt /\
  attempted (trace loop) = map (s3Key_of w OUT_DIR) paths.
Proof.
  intros H. induction paths as [|p paths IH]; simpl.
  - split; reflexivity.
  - destruct (H p (or_introl eq_refl)) as [Hr Hu].
    destruct (uploadFileToS3_ok w p _ Hr Hu) as [H1 H2].
    destruct IH as [IH1 IH2]; [intros q Hq; apply H; right; exact Hq|].
    simpl in IH1, IH2. split.
    + rewrite (result_bind _ _ tt H1). exact IH1.
    + rewrite (trace_bind _ _ tt H1), attempted_app, H2, IH2. reflexivity.
Qed.

(** X26. When the bucket is configured and every file can be read and
    uploaded, [main] exits with code 0 having uploaded each file of the
    output directory exactly once, in walking order, under the key that
    [path.join] makes of the prefix and of the path relative to the output
    directory, with every backslash turned into a slash. *)
Theorem main_uploads_every_file_once
        (w : World) (OUT_DIR : string) (files : list fs_node) :
  str_truthy (UploadToS3.BUCKET_NAME w) = true ->
  (forall p, In p (flat_map (files_of OUT_DIR) files) ->
             readFileSync_throws w p = None /\
             upload_throws w (s3Key_of w OUT_DIR p) = None) ->
  result (UploadToS3.main w OUT_DIR (Some files)) = Returned 0 /\
  attempted (trace (UploadToS3.main w OUT_DIR (Some files))) =
    map (fun p => replace_backslashes
                    (path_join (UploadToS3.S3_PREFIX w) (path_relative OUT_DIR p)))
        (flat_map (files_of OUT_DIR) files).
Proof.
  intros Hb Hok.
  destruct (upload_loop_succeeds w OUT_DIR _ Hok) as [H1 H2].
  rewrite <- uploadDirectoryToS3_flat with (baseS3Path := "") in H1, H2.
  unfold UploadToS3.main. rewrite Hb.
  destruct (UploadToS3.uploadDirectoryToS3 w OUT_DIR OUT_DIR files "") as [[[]|e] t];
    unfold result, trace in H1, H2; simpl in H1, H2; [|discriminate].
  unfold result, trace; simpl. split; [reflexivity|].
  rewrite attempted_app, H2. simpl. now rewrite app_nil_r.
Qed.

Lemma main_uploads_every_file_once_witness :
  let w := with_env (with_store quiet_world sample_mime (fun _ => None))
             (env_of [("AWS_S3_BUCKET", "noticiero-static"); ("AWS_S3_PREFIX", "site/")]) in
  let files := [FFile "index.html"; FDir "news" [FDir "x" [FFile "index.html"]];
                FDir "img" [FFile "logo.png"]] in
  result (UploadToS3.main w "out" (Some files)) = Returned 0 /\
  attempted (trace (UploadToS3.main w "out" (Some files))) =
    ["site/index.html"; "site/news/x/index.html"; "site/img/logo.png"].
Proof.
  intros w files.
  apply (main_uploads_every_file_once w "out" files).
  - reflexivity.
  - intros p _. split; reflexivity.
Defined.

(** Without a bucket name, or without the output directory, [main] exits
    with code 1 and attempts no upload. *)
Theorem main_refuses_without_bucket_or_directory
        (w : World) (OUT_DIR : string) (out : option (list fs_node)) :
  truthy_str (env w "AWS_S3_BUCKET") = false \/ out = None ->
  result (UploadToS3.main w OUT_DIR out) = Returned 1 /\
  attempted (trace (UploadToS3.main w OUT_DIR out)) = [].
Proof.
  intros H. unfold UploadToS3.main, UploadToS3.BUCKET_NAME, or_str.
  destruct (truthy_str (env w "AWS_S3_BUCKET")) eqn:Hb.
  - destruct H as [H | ->]; [discriminate|].
    destruct (env w "AWS_S3_BUCKET") as [b|]; [|discriminate].
    simpl in Hb. rewrite Hb. split; reflexivity.
  - split; reflexivity.
Qed.

Lemma main_refuses_without_bucket_or_directory_witness :
  result (UploadToS3.main quiet_world "out" (Some [FFile "index.html"])) = Returned 1 /\
  attempted (trace (UploadToS3.main quiet_world "out" (Some [FFile "index.html"]))) = [].
Proof.
  apply (main_refuses_without_bucket_or_directory quiet_world "out").
  left. reflexivity.
Defined.

(** X27. A file that cannot be read stops the batch before any upload of it is
    attempted: the uploads made are those of the files before it. *)
Theorem upload_batch_stops_at_unreadable_file
        (w : World) (OUT_DIR : string) (files : list fs_node)
        (before after : list string) (bad : string) (e : exn) :
  flat_map (files_of OUT_DIR) files = (before ++ bad :: after)%list ->
  (forall p, In p before ->
             readFileSync_throws w p = None /\
             upload_throws w (s3Key_of w OUT_DIR p) = None) ->
  readFileSync_throws w bad = Some e ->
  result (UploadToS3.uploadDirectoryToS3 w OUT_DIR OUT_DIR files "") = Threw e /\
  attempted (trace (UploadToS3.uploadDirectoryToS3 w OUT_DIR OUT_DIR files "")) =
    map (s3Key_of w OUT_DIR) before.
Proof.
  intros Hfiles Hb Hr.
  rewrite uploadDirectoryToS3_flat, Hfiles, for_of_app.
  destruct (upload_loop_succeeds w OUT_DIR before Hb) as [H1 H2].
  rewrite (result_bind _ _ tt H1), (trace_bind _ _ tt H1), attempted_app, H2.
  rewrite for_of_cons. unfold UploadToS3.uploadFileToS3 at 1 3. rewrite Hr.
  split; [reflexivity|]. simpl. now rewrite app_nil_r.
Qed.

Lemma upload_batch_stops_at_unreadable_file_witness :
  let w := {| env := fun _ => None;
              revalidatePath_throws := fun _ => None;
              revalidateTag_throws := fun _ => None;
              res_revalidate_throws := fun _ => None;
              Date_now := 0%Z;
              Date_toISOString := "1970-01-01T00:00:00.000Z";
              Number_toString := fun _ => "1e+21";
              fetch := fun _ => FetchRejected (TypeError "fetch failed");
              mime_lookup := sample_mime;
              readFileSync_throws :=
                fun p => if String.eqb p "out/b.html"
                         then Some (Error "EACCES: permission denied") else None;
              upload_throws := fun _ => None |} in
  let files := [FFile "a.html"; FFile "b.html"; FFile "c.html"] in
  result (UploadToS3.uploadDirectoryToS3 w "out" "out" files "") =
    Threw (Error "EACCES: permission denied") /\
  attempted (trace (UploadToS3.uploadDirectoryToS3 w "out" "out" files "")) = ["a.html"].
Proof.
  intros w files.
  apply (upload_batch_stops_at_unreadable_file w "out" files
           ["out/a.html"] ["out/c.html"] "out/b.html" (Error "EACCES: permission denied")).
  - reflexivity.
  - intros p [<-|[]]. split; reflexivity.
  - reflexivity.
Defined.

(** ** The webhook and the tags the pages declare *)

(** X21. The tags that the home page and the article page of slug [x] declare
    in [generateMetadata] are all invalidated, together with the two
    routes ["/"] and ["/news/x"], by an accepted article event for [x]. *)
Theorem webhook_invalidates_declared_tags
        (w : World) (req : WebhookRoute.NextRequest)
        (fields entry : list (string * json)) (ev model x : string) :
  env w "NODE_ENV" <> Some "development" ->
  result (WebhookRoute.validateWebhook w req) = Returned true ->
  WebhookRoute.request_json req = Returned (JObj fields) ->
  assoc "event" fields = Some (JStr ev) ->
  In ev article_events ->
  assoc "model" fields = Some (JStr model) ->
  In model article_models ->
  assoc "entry" fields = Some (JObj entry) ->
  assoc "slug" entry = Some (JStr x) ->
  x <> "" ->
  (forall p, revalidatePath_throws w p = None) ->
  (forall t, revalidateTag_throws w t = None) ->
  (forall tag, In tag (ArticleLists.home_tags ++ ArticleLists.article_page_tags x) ->
               In (ERevalidateTag tag) (trace (WebhookRoute.POST w req))) /\
  In (ERevalidatePath "/") (trace (WebhookRoute.POST w req)) /\
  In (ERevalidatePath ("/news/" ++ x)) (trace (WebhookRoute.POST w req)).
Proof.
  intros Hmode Hv Hjson Hev Hin Hmodel Hinm Hentry Hslug Hx Hp Ht.
  pose proof (dispatch_article w fields entry ev model x
                (not_development w Hmode) Hev Hin Hmodel Hinm Hentry Hslug Hx Hp Ht)
    as Hd.
  destruct (POST_dispatch w req fields _ _ Hv Hjson
              (assoc_Some_nonempty _ _ _ Hev) Hd) as [_ Htr].
  assert (Hsub : forall ev', In ev' (invalidations (trace (WebhookRoute.POST w req))) ->
                             In ev' (trace (WebhookRoute.POST w req))).
  { intros ev' H. unfold invalidations in H. apply filter_In in H. tauto. }
  rewrite Htr in Hsub. cbn in Hsub.
  split; [|split].
  - intros tag Htag. apply Hsub. cbn in Htag.
    destruct Htag as [<-|[<-|[<-|[<-|[]]]]]; tauto.
  - apply Hsub. tauto.
  - apply Hsub. tauto.
Qed.

Lemma webhook_invalidates_declared_tags_witness :
  let w := with_env quiet_world
             (env_of [("NODE_ENV", "production"); ("WEBHOOK_TOKEN", "t0ken")]) in
  let fields := [("event", JStr "entry.update"); ("model", JStr "article");
                 ("entry", JObj [("slug", JStr "x")])] in
  let req := WebhookRoute.mkRequest "https://site.example/api/webhook" "POST"
               [("x-webhook-token", "t0ken")] [] (Returned (JObj fields)) in
  (forall tag, In tag (ArticleLists.home_tags ++ ArticleLists.article_page_tags "x") ->
               In (ERevalidateTag tag) (trace (WebhookRoute.POST w req))) /\
  In (ERevalidatePath "/") (trace (WebhookRoute.POST w req)) /\
  In (ERevalidatePath "/news/x") (trace (WebhookRoute.POST w req)).
Proof.
  intros w fields req.
  apply (webhook_invalidates_declared_tags w req fields [("slug", JStr "x")]
           "entry.update" "article" "x");
    try solve [discriminate | reflexivity | intros; reflexivity | simpl; tauto].
Defined.

(** ** The JavaScript upload script *)

Lemma Forall_trace_bind {A B} (P : event -> Prop) (m : M A) (k : A -> M B) :
  Forall P (trace m) -> (forall a, Forall P (trace (k a))) ->
  Forall P (trace (bind m k)).
Proof.
  intros Hm Hk. destruct m as [[a|e] t]; unfold trace in *; simpl in *; [|exact Hm].
  specialize (Hk a). destruct (k a) as [r t2]. simpl in *.
  apply Forall_app. split; assumption.
Qed.

Lemma Forall_trace_try_catch {A} (P : event -> Prop) (m : M A) (h : exn -> M A) :
  Forall P (trace m) -> (forall e, Forall P (trace (h e))) ->
  Forall P (trace (try_catch m h)).
Proof.
  intros Hm Hh. destruct m as [[a|e] t]; unfold trace in *; simpl in *; [exact Hm|].
  specialize (Hh e). destruct (h e) as [r t2]. simpl in *.
  apply Forall_app. split; assumption.
Qed.

Lemma Forall_trace_for_of {A} (P : event -> Prop) (body : A -> M unit) (l : list A) :
  Forall (fun x => Forall P (trace (body x))) l ->
  Forall P (trace (for_of body l)).
Proof.
  induction 1 as [|x l Hx _ IH].
  - constructor.
  - rewrite for_of_cons. apply Forall_trace_bind; [exact Hx|]. intros _. exact IH.
Qed.

Lemma Forall_trace_js_log (P : event -> Prop) (msg : string) :
  (forall file m, P (ELog file m)) -> (forall m, P (EConsole m)) ->
  Forall P (trace (UploadToS3Js.log msg)).
Proof. intros H1 H2. repeat constructor; auto. Qed.

Lemma default_content_type_truthy (m : option string) :
  str_truthy (UploadToS3Js.unwrap_or "application/octet-stream"
                (or_str m (Some "application/octet-stream"))) = true.
Proof.
  unfold or_str. destruct (truthy_str m) eqn:E; [|reflexivity].
  destruct m; [exact E|discriminate].
Qed.

(** What the script uploads for a file it decides to process. *)
Lemma js_upload_event (w : World) (filePath s3Key : string) :
  let ct := UploadToS3Js.unwrap_or "application/octet-stream"
              (or_str (mime_lookup w filePath) (Some "application/octet-stream")) in
  uploads (trace (UploadToS3Js.uploadFileToS3 w filePath s3Key
                    (UploadToS3Js.metadata_of ct))) =
    match readFileSync_throws w filePath with
    | Some _ => []
    | None =>
        [(s3Key, ct,
          if String.eqb ct "text/html" then "max-age=300"
          else if startsWith "image/" ct then "max-age=86400"
          else "max-age=31536000")]
    end.
Proof.
  intros ct. unfold UploadToS3Js.uploadFileToS3.
  destruct (readFileSync_throws w filePath); [reflexivity|].
  assert (Hct : UploadToS3Js.params_ContentType
                  (UploadToS3Js.params_of w filePath s3Key (UploadToS3Js.metadata_of ct)) = ct).
  { unfold UploadToS3Js.params_of, UploadToS3Js.metadata_of.
    cbn [UploadToS3Js.params_ContentType UploadToS3Js.ContentType].
    unfold or_str at 1. unfold truthy_str.
    subst ct. rewrite default_content_type_truthy. reflexivity. }
  assert (Hcc : UploadToS3Js.params_CacheControl
                  (UploadToS3Js.params_of w filePath s3Key (UploadToS3Js.metadata_of ct)) =
                if String.eqb ct "text/html" then "max-age=300"
                else if startsWith "image/" ct then "max-age=86400"
                else "max-age=31536000").
  { unfold UploadToS3Js.params_of, UploadToS3Js.metadata_of.
    cbn [UploadToS3Js.params_CacheControl UploadToS3Js.CacheControl].
    destruct (String.eqb ct "text/html"); [reflexivity|].
    destruct (startsWith "image/" ct); reflexivity. }
  rewrite Hct, Hcc.
  destruct (upload_throws w s3Key); reflexivity.
Qed.

Lemma uploads_Forall (w : World) (t : list event) :
  Forall (js_upload_ok w) (uploads t) <-> Forall (js_event_ok w) t.
Proof.
  induction t as [|ev t IH]; simpl.
  - split; constructor.
  - destruct ev; simpl;
      try (rewrite IH; split;
           [intros H; constructor; [exact I|exact H]
           |intros H; inversion H; assumption]).
    split; intros H; inversion H; subst; constructor; try assumption;
      apply IH; assumption.
Qed.

Lemma js_upload_entry_ok (w : World) (cwd_out : string) (file : fs_node) :
  forall directory baseS3Path,
    Forall (js_event_ok w)
           (trace (UploadToS3Js.upload_entry w cwd_out true directory baseS3Path file)).
Proof.
  induction file as [name|name children IH] using fs_node_nested_ind;
    intros directory baseS3Path.
  - cbn [UploadToS3Js.upload_entry negb orb].
    destruct (UploadToS3Js.isNewsArticle _ || UploadToS3Js.isStaticAsset _) eqn:Hsp;
      [|constructor].
    apply uploads_Forall. rewrite js_upload_event.
    destruct (readFileSync_throws w (entry_path directory name)); constructor; [|constructor].
    split; [reflexivity|]. eexists. split; [reflexivity|exact Hsp].
  - cbn [UploadToS3Js.upload_entry]. apply Forall_trace_bind.
    + match goal with |- context [if ?c then _ else _] => destruct c end;
        [apply Forall_trace_js_log; intros; exact I|constructor].
    + intros _.
      match goal with |- context [if ?c then _ else _] => destruct c end;
        [|constructor].
      apply Forall_trace_for_of.
      induction IH as [|c cs Hc _ IHcs]; constructor; [apply Hc|exact IHcs].
Qed.

Lemma js_main_ok (w : World) (cwd_out : string) (out : option (list fs_node)) :
  Forall (js_upload_ok w) (uploads (trace (UploadToS3Js.main w cwd_out out))).
Proof.
  apply uploads_Forall. unfold UploadToS3Js.main.
  assert (Hlog : forall msg, Forall (js_event_ok w) (trace (UploadToS3Js.log msg)))
    by (intros msg; apply Forall_trace_js_log; intros; exact I).
  apply Forall_trace_bind; [apply Hlog|]. intros _.
  destruct (negb (str_truthy (UploadToS3Js.BUCKET_NAME w))).
  - apply Forall_trace_bind; [apply Hlog|]. intros _. constructor.
  - destruct out as [files|].
    + rewrite orb_true_r. apply Forall_trace_bind; [apply Hlog|]. intros _.
      apply Forall_trace_try_catch.
      * apply Forall_trace_bind.
        { unfold UploadToS3Js.uploadDirectoryToS3. apply Forall_trace_for_of.
          apply Forall_forall. intros f _. apply js_upload_entry_ok. }
        intros _. apply Forall_trace_bind; [apply Hlog|]. intros _. constructor.
      * intros e. apply Forall_trace_bind; [apply Hlog|]. intros _. constructor.
    + apply Forall_trace_bind; [apply Hlog|]. intros _. constructor.
Qed.



(** X29. The JavaScript upload script gives HTML five minutes of cache
    ([max-age=300]), images one day and everything else one year: the
    policy always comes from the metadata built per file, never from the
    defaults of its own [uploadFileToS3]. *)
Theorem js_main_cache_policy
        (w : World) (cwd_out : string) (out : option (list fs_node))
        (key ct cc : string) :
  In (key, ct, cc) (uploads (trace (UploadToS3Js.main w cwd_out out))) ->
  cc = if String.eqb ct "text/html" then "max-age=300"
       else if startsWith "image/" ct then "max-age=86400"
       else "max-age=31536000".
Proof.
  intros Hin. pose proof (js_main_ok w cwd_out out) as H.
  rewrite Forall_forall in H. exact (proj1 (H _ Hin)).
Qed.

Lemma js_main_cache_policy_witness :
  let files := [FDir "news" [FDir "x" [FFile "index.html"; FFile "foto.png"]]] in
  uploads (trace (UploadToS3Js.main html_world "out" (Some files))) =
    [("news/x/index.html", "text/html", "max-age=300");
     ("news/x/foto.png", "image/png", "max-age=86400")] /\
  "max-age=86400" = if String.eqb "image/png" "text/html" then "max-age=300"
                    else if startsWith "image/" "image/png" then "max-age=86400"
                    else "max-age=31536000".
Proof.
  intros files. split; [reflexivity|].
  apply (js_main_cache_policy html_world "out" (Some files)
           "news/x/foto.png" "image/png" "max-age=86400").
  simpl. tauto.
Defined.

Lemma string_drop_app (a b : string) : string_drop (String.length a) (a ++ b) = b.
Proof. induction a as [|c a IH]; simpl; [destruct b; reflexivity|exact IH]. Qed.

Lemma string_length_app (a b : string) :
  String.length (a ++ b) = String.length a + String.length b.
Proof. induction a as [|c a IH]; simpl; [reflexivity|now rewrite IH]. Qed.

Lemma string_app_assoc (a b c : string) : (a ++ b) ++ c = a ++ (b ++ c).
Proof. induction a as [|x a IH]; simpl; [reflexivity|now rewrite IH]. Qed.

(** The path of an entry of the output directory, relative to it, is the
    entry's name. *)
Lemma path_relative_join (OUT_DIR name : string) :
  OUT_DIR <> "" ->
  path_relative OUT_DIR (entry_path OUT_DIR name) = name.
Proof.
  intros H. unfold path_relative, entry_path.
  destruct OUT_DIR as [|c d]; [congruence|].
  change (String c d ++ "/" ++ name) with (String c d ++ ("/" ++ name)).
  rewrite <- string_app_assoc, startsWith_app.
  replace (String.length (String c d) + 1) with (String.length (String c d ++ "/"))
    by (rewrite string_length_app; reflexivity).
  apply string_drop_app.
Qed.

Lemma includes_slash (pre post : string) : includes "/" (pre ++ String "/" post) = true.
Proof. exact (includes_app "/" pre post). Qed.

Lemma basename_cons (c : ascii) (rest : string) :
  basename (String c rest) =
  if includes "/" rest then basename rest
  else if Ascii.eqb c "/" then rest else String c rest.
Proof. reflexivity. Qed.

Lemma basename_join (directory name : string) :
  directory <> "" -> includes "/" name = false ->
  basename (entry_path directory name) = name.
Proof.
  intros Hd Hn. unfold entry_path.
  destruct directory as [|c d]; [congruence|]. clear Hd.
  change (String c d ++ "/" ++ name) with (String c (d ++ String "/" name)).
  revert c. induction d as [|c' d IH]; intros c.
  - change ("" ++ String "/" name) with (String "/" name).
    rewrite basename_cons.
    change (includes "/" (String "/" name)) with true. cbv iota.
    rewrite basename_cons, Hn. reflexivity.
  - change (String c' d ++ String "/" name) with (String c' (d ++ String "/" name)).
    rewrite basename_cons.
    change (String c' (d ++ String "/" name)) with (String c' d ++ String "/" name) at 1.
    rewrite includes_slash. apply IH.
Qed.

(** X30. In news-only mode a directory of the output directory that is not
    [news], [_next] or [static] (and does not look like a static asset) is
    not entered: nothing below it is uploaded, images included. *)
Theorem js_skips_other_directories
        (w : World) (cwd_out name baseS3Path : string) (children : list fs_node) :
  UploadToS3Js.OUT_DIR w cwd_out <> "" ->
  includes "/" name = false ->
  UploadToS3Js.isNewsArticle name = false ->
  UploadToS3Js.isStaticAsset name = false ->
  ~ In name ["news"; "_next"; "static"] ->
  uploads (trace (UploadToS3Js.upload_entry w cwd_out true
                    (UploadToS3Js.OUT_DIR w cwd_out) baseS3Path
                    (FDir name children))) = [].
Proof.
  intros Hout Hslash Hnews Hasset Hname.
  cbn [UploadToS3Js.upload_entry].
  rewrite (path_relative_join _ name Hout), (basename_join _ name Hout Hslash).
  rewrite Hnews, Hasset. cbn [negb orb].
  assert (Hn : forall s, In s ["news"; "_next"; "static"] -> String.eqb name s = false).
  { intros s Hs. destruct (String.eqb_spec name s) as [->|]; [contradiction|reflexivity]. }
  rewrite !Hn by (simpl; tauto). cbn [orb].
  match goal with |- context [if ?c then _ else _] => destruct c end; reflexivity.
Qed.

Lemma js_skips_other_directories_witness :
  uploads (trace (UploadToS3Js.upload_entry html_world "out" true
                    (UploadToS3Js.OUT_DIR html_world "out") ""
                    (FDir "img" [FFile "logo.png"; FFile "portada.jpg"]))) = [].
Proof.
  apply (js_skips_other_directories html_world "out" "img" ""
           [FFile "logo.png"; FFile "portada.jpg"]);
    try solve [discriminate | reflexivity].
  simpl. intros [H|[H|[H|[]]]]; discriminate.
Defined.

(** ** The paths of the walk *)

Lemma string_app_nil_r (s : string) : s ++ "" = s.
Proof. induction s as [|c s IH]; simpl; [reflexivity|now rewrite IH]. Qed.

Lemma split_slash_nonempty (s : string) : split_slash s <> [].
Proof.
  induction s as [|c s IH]; simpl; [discriminate|].
  destruct (Ascii.eqb c "/"); [discriminate|].
  destruct (split_slash s); [congruence|discriminate].
Qed.

Lemma no_slash_cons (c : ascii) (s : string) :
  includes "/" (String c s) = false ->
  Ascii.eqb c "/" = false /\ includes "/" s = false.
Proof.
  rewrite includes_unfold. cbn [startsWith].
  rewrite Ascii.eqb_sym. intros H. apply orb_false_iff in H. destruct H as [H1 H2].
  rewrite andb_true_r in H1. split; assumption.
Qed.

Lemma split_slash_name (name : string) :
  includes "/" name = false -> split_slash name = [name].
Proof.
  induction name as [|c s IH]; intros H; [reflexivity|].
  apply no_slash_cons in H. destruct H as [Hc Hs].
  cbn [split_slash]. rewrite Hc, (IH Hs). reflexivity.
Qed.

Lemma split_slash_app (a b : string) :
  split_slash (a ++ String "/" b) = (split_slash a ++ split_slash b)%list.
Proof.
  induction a as [|c a IH]; [reflexivity|].
  cbn [append split_slash]. rewrite IH.
  destruct (Ascii.eqb c "/"); [reflexivity|].
  destruct (split_slash a) as [|seg segs] eqn:E; [|reflexivity].
  exfalso. exact (split_slash_nonempty a E).
Qed.

Lemma normalize_segments_snoc (allow : bool) (name : string) (segs : list string) :
  entry_name name = true ->
  forall kept,
    normalize_segments allow kept (segs ++ [name]) =
    (normalize_segments allow kept segs ++ [name])%list.
Proof.
  intros Hn. unfold entry_name in Hn.
  apply andb_true_iff in Hn. destruct Hn as [Hn _].
  apply andb_true_iff in Hn. destruct Hn as [Hn H3].
  apply andb_true_iff in Hn. destruct Hn as [H1 H2].
  apply negb_true_iff in H1, H2, H3.
  induction segs as [|seg rest IH]; intros kept.
  - cbn [app normalize_segments]. rewrite H1, H2, H3. reflexivity.
  - cbn [app normalize_segments].
    destruct (String.eqb seg "" || String.eqb seg "."); [apply IH|].
    destruct (String.eqb seg ".."); [|apply IH].
    destruct kept as [|top below]; [apply IH|].
    destruct (String.eqb top ".."); apply IH.
Qed.

Lemma concat_snoc (K : list string) (name : string) :
  K <> [] -> String.concat "/" (K ++ [name]) = String.concat "/" K ++ "/" ++ name.
Proof.
  induction K as [|x K IH]; intros H; [congruence|].
  destruct K as [|y K'].
  - reflexivity.
  - change (String.concat "/" ((x :: y :: K') ++ [name]))
      with (x ++ "/" ++ String.concat "/" ((y :: K') ++ [name])).
    rewrite IH by discriminate.
    change (String.concat "/" (x :: y :: K')) with (x ++ "/" ++ String.concat "/" (y :: K')).
    rewrite !string_app_assoc. reflexivity.
Qed.

Lemma ends_with_slash_cons (x c : ascii) (s : string) :
  ends_with_slash (String x (String c s)) = ends_with_slash (String c s).
Proof. reflexivity. Qed.

Lemma ends_with_slash_app (a : string) (c : ascii) (b : string) :
  ends_with_slash (a ++ String c b) = ends_with_slash (String c b).
Proof.
  induction a as [|x a IH]; [reflexivity|].
  cbn [append]. destruct (a ++ String c b) as [|y r] eqn:E.
  - destruct a; discriminate.
  - rewrite ends_with_slash_cons. exact IH.
Qed.

Lemma ends_with_slash_name (name : string) :
  includes "/" name = false -> ends_with_slash name = false.
Proof.
  induction name as [|c s IH]; intros H; [reflexivity|].
  apply no_slash_cons in H. destruct H as [Hc Hs].
  destruct s as [|c' s']; [exact Hc|].
  change (ends_with_slash (String c (String c' s'))) with (ends_with_slash (String c' s')).
  exact (IH Hs).
Qed.

Lemma path_normalize_eq (p : string) (c : ascii) (rest : string) :
  p = String c rest ->
  path_normalize p =
    match String.concat "/"
            (normalize_segments (negb (Ascii.eqb c "/")) [] (split_slash p)) with
    | EmptyString =>
        if Ascii.eqb c "/" then "/" else if ends_with_slash p then "./" else "."
    | body =>
        (if Ascii.eqb c "/" then "/" else "") ++ body ++
        (if ends_with_slash p then "/" else "")
    end.
Proof. intros ->. reflexivity. Qed.

Lemma entry_name_parts (name : string) :
  entry_name name = true ->
  String.eqb name "" = false /\ String.eqb name "." = false /\
  String.eqb name ".." = false /\ includes "/" name = false.
Proof.
  unfold entry_name. intros H.
  apply andb_true_iff in H. destruct H as [H H4].
  apply andb_true_iff in H. destruct H as [H H3].
  apply andb_true_iff in H. destruct H as [H1 H2].
  apply negb_true_iff in H1, H2, H3, H4. auto.
Qed.

Lemma path_normalize_name (name : string) :
  entry_name name = true -> path_normalize name = name.
Proof.
  intros Hn. destruct (entry_name_parts name Hn) as (H1 & H2 & H3 & Hslash).
  destruct name as [|n0 name']; [discriminate|].
  rewrite (path_normalize_eq _ n0 name' eq_refl).
  rewrite (ends_with_slash_name _ Hslash).
  destruct (no_slash_cons _ _ Hslash) as [Hc _]. rewrite Hc. cbn [negb].
  rewrite (split_slash_name _ Hslash).
  cbn [normalize_segments]. rewrite H1, H2, H3. cbn [orb rev app String.concat].
  cbn [append]. rewrite string_app_nil_r. reflexivity.
Qed.

(** On the paths of the walk, [entry_path] is [path.join]. *)
Lemma entry_path_is_path_join (directory name : string) :
  directory = "" \/ normalised_directory directory = true ->
  entry_name name = true ->
  path_join directory name = entry_path directory name.
Proof.
  intros Hd Hn.
  destruct (entry_name_parts name Hn) as (H1 & H2 & H3 & Hslash).
  destruct name as [|n0 name']; [discriminate|].
  destruct directory as [|c d].
  - exact (path_normalize_name _ Hn).
  - destruct Hd as [Hd|Hd]; [discriminate|].
    unfold normalised_directory in Hd.
    apply andb_true_iff in Hd. destruct Hd as [Hd Hdot].
    apply andb_true_iff in Hd. destruct Hd as [Hnorm Htrail].
    apply negb_true_iff in Htrail, Hdot.
    apply String.eqb_eq in Hnorm.
    change (path_normalize (String c d ++ String "/" (String n0 name')) =
            String c d ++ String "/" (String n0 name')).
    rewrite (path_normalize_eq (String c d) c d eq_refl) in Hnorm.
    rewrite (path_normalize_eq (String c d ++ String "/" (String n0 name')) c
               (d ++ String "/" (String n0 name')) eq_refl).
    rewrite split_slash_app, (split_slash_name _ Hslash).
    rewrite (normalize_segments_snoc _ _ _ Hn).
    rewrite ends_with_slash_app.
    change (ends_with_slash (String "/" (String n0 name')))
      with (ends_with_slash (String n0 name')).
    rewrite (ends_with_slash_name _ Hslash).
    rewrite Htrail in Hnorm.
    destruct (normalize_segments (negb (Ascii.eqb c "/")) [] (split_slash (String c d)))
      as [|k0 K'].
    + cbn [String.concat] in Hnorm.
      destruct (Ascii.eqb c "/"); rewrite <- Hnorm in *; discriminate.
    + rewrite concat_snoc by discriminate.
      destruct (String.concat "/" (k0 :: K')) as [|b0 body].
      * destruct (Ascii.eqb c "/"); rewrite <- Hnorm in *; discriminate.
      * rewrite <- Hnorm.
        destruct (Ascii.eqb c "/"); cbn [append];
          rewrite ?string_app_nil_r, ?string_app_assoc; cbn [append];
          rewrite ?string_app_nil_r; reflexivity.
Qed.

(** The path of an entry of a normalised directory is normalised: the
    walk never leaves the paths on which [entry_path] is [path.join]. *)
Lemma entry_path_normalised (directory name : string) :
  normalised_directory directory = true ->
  entry_name name = true ->
  normalised_directory (entry_path directory name) = true.
Proof.
  intros Hd Hn.
  pose proof (entry_path_is_path_join directory name (or_intror Hd) Hn) as Hj.
  destruct (entry_name_parts name Hn) as (H1 & _ & _ & Hslash).
  destruct name as [|n0 name']; [discriminate|].
  destruct directory as [|c d]; [discriminate|].
  change (path_join (String c d) (String n0 name'))
    with (path_normalize (String c d ++ String "/" (String n0 name'))) in Hj.
  change (entry_path (String c d) (String n0 name'))
    with (String c d ++ String "/" (String n0 name')) in *.
  unfold normalised_directory. rewrite Hj, String.eqb_refl.
  rewrite ends_with_slash_app.
  change (ends_with_slash (String "/" (String n0 name')))
    with (ends_with_slash (String n0 name')).
  rewrite (ends_with_slash_name _ Hslash).
  destruct d; cbn [append String.eqb]; destruct (Ascii.eqb c "."); reflexivity.
Qed.

Example entry_path_examples :
  entry_path "/srv/app/out" "news" = path_join "/srv/app/out" "news" /\
  entry_path "" "news" = path_join "" "news" /\
  entry_path "news" "x" = path_join "news" "x" /\
  path_join "out/" "news" = "out/news" /\
  path_join "/srv/app/out" ".." = "/srv/app" /\
  path_join "" "" = "." /\
  path_join "a//b/./c" "../d/" = "a/b/d/".
Proof. repeat split; reflexivity. Qed.
